(** * Geany, [src/highlighting.c]: style lookup and forwarding

    A shallow embedding of the configuration plumbing of [highlighting.c]:
    the layered key file lookups ([get_keyfile_keywords],
    [get_keyfile_wordchars], [get_keyfile_whitespace_chars],
    [get_keyfile_style], [get_keyfile_hex], [get_keyfile_int]), the colour
    helpers ([rotate_rgb], [invert]), the forwarding of a style to the
    Scintilla widget ([set_sci_style]), the one-time loading of the common
    style set ([styleset_common_init]) and [highlighting_get_style].

    Conventions.
    - A [gint] is a [Z] in [-2^31, 2^31), a [guint] a [Z] in [0, 2^32), a
      [long] a [Z] in [-2^63, 2^63) (LP64); conversions are written out.
    - A C pointer that may be [NULL] is an [option].
    - Reading an array outside its allocation, or through [NULL], has no
      defined behaviour in C: the embedding stops with a [Fault]. *)

From Stdlib Require Import ZArith Lia Ascii.
From stdpp Require Import base option list strings gmap functions.

Local Open Scope Z_scope.

(** ** Machine integers *)

Definition to_guint (z : Z) : Z := z mod 2 ^ 32.

Definition to_gint (z : Z) : Z := (z + 2 ^ 31) mod 2 ^ 32 - 2 ^ 31.

Definition LONG_MAX : Z := 2 ^ 63 - 1.
Definition LONG_MIN : Z := - 2 ^ 63.

(** ** Outcomes of code that indexes arrays *)

Inductive fault : Type :=
  | OutOfBounds (i : Z)   (* read or write at index [i], outside the array *)
  | NullPointer.          (* dereference of [NULL] *)

Inductive result (A : Type) : Type :=
  | Ok (a : A)
  | Fault (f : fault).

Arguments Ok {A} a.
Arguments Fault {A} f.

#[global] Instance result_ret : MRet result := fun A a => Ok a.

#[global] Instance result_bind : MBind result := fun A B k m =>
  match m with
  | Ok a => k a
  | Fault f => Fault f
  end.

(** ** Data model *)

(** [HighlightingStyle] of [highlighting.h]: two colours and two flags. *)
Record HighlightingStyle : Type := mkStyle {
  foreground : Z;   (* gint *)
  background : Z;   (* gint *)
  bold : bool;
  italic : bool
}.

(** The anonymous enum of the common styling; [GCS_MAX] is the array size. *)
Inductive GCS : Type :=
  | GCS_DEFAULT | GCS_SELECTION | GCS_BRACE_GOOD | GCS_BRACE_BAD
  | GCS_MARGIN_LINENUMBER | GCS_MARGIN_FOLDING | GCS_CURRENT_LINE | GCS_CARET
  | GCS_INDENT_GUIDE | GCS_WHITE_SPACE | GCS_LINE_WRAP_VISUALS
  | GCS_LINE_WRAP_INDENT | GCS_TRANSLUCENCY | GCS_MARKER_LINE
  | GCS_MARKER_SEARCH | GCS_MARKER_TRANSLUCENCY.

#[global] Instance GCS_eq_dec : EqDecision GCS.
Proof. solve_decision. Defined.

Definition GCS_MAX : Z := 16.

(** The enumerator with value [i], when [0 <= i < GCS_MAX]. *)
Definition GCS_of_index (i : Z) : option GCS :=
  match i with
  | 0 => Some GCS_DEFAULT | 1 => Some GCS_SELECTION
  | 2 => Some GCS_BRACE_GOOD | 3 => Some GCS_BRACE_BAD
  | 4 => Some GCS_MARGIN_LINENUMBER | 5 => Some GCS_MARGIN_FOLDING
  | 6 => Some GCS_CURRENT_LINE | 7 => Some GCS_CARET
  | 8 => Some GCS_INDENT_GUIDE | 9 => Some GCS_WHITE_SPACE
  | 10 => Some GCS_LINE_WRAP_VISUALS | 11 => Some GCS_LINE_WRAP_INDENT
  | 12 => Some GCS_TRANSLUCENCY | 13 => Some GCS_MARKER_LINE
  | 14 => Some GCS_MARKER_SEARCH | 15 => Some GCS_MARKER_TRANSLUCENCY
  | _ => None
  end.

(** [FoldingStyle]: bit-fields of 2, 2 and 3 bits. *)
Record FoldingStyle : Type := mkFolding {
  marker : Z;
  lines : Z;
  draw_line : Z
}.

(** The static [common_style_set]. *)
Record CommonStyleSet : Type := mkCommon {
  common_styling : GCS -> HighlightingStyle;
  folding_style : FoldingStyle;
  invert_all : Z;                     (* gboolean *)
  common_wordchars : option string
}.

(** [StyleSet]: the per-filetype arrays; [None] is [NULL]. *)
Record StyleSet : Type := mkStyleSet {
  styling : option (list HighlightingStyle);
  keywords : option (list (option string));
  wordchars : option string
}.

(** The file's static variables. [style_sets] is declared with
    [GEANY_MAX_BUILT_IN_FILETYPES - 1] elements. *)
Record state : Type := mkState {
  whitespace_chars : option string;
  style_sets : list StyleSet;
  common_style_set : CommonStyleSet;
  common_style_set_valid : bool
}.

(** ** Colour helpers *)

(** [rotate_rgb]: convert 0x..RRGGBB to 0x..BBGGRR. *)
Definition rotate_rgb (color : Z) : Z :=
  to_gint (to_gint (Z.shiftr (Z.land color 0xFF0000) 16 +
                    Z.land color 0x00FF00) +
           to_gint (Z.shiftl (Z.land color 0x0000FF) 16)).

(** [invert], on [guint]. *)
Definition invert (st : state) (icolour : Z) : Z :=
  if decide (invert_all (common_style_set st) <> 0) then
    let r := to_guint (0xffffff - icolour) in
    let g := to_guint (0xffffff - Z.shiftr icolour 8) in
    let b := to_guint (0xffffff - Z.shiftr icolour 16) in
    Z.lor (Z.lor r (to_guint (Z.shiftl g 8))) (to_guint (Z.shiftl b 16))
  else icolour.

(** ** GLib key files

    A [GKeyFile] maps a (group, key) pair to its raw value.  A value read as
    a string list is cut at the list separator [;]; a piece after the last
    separator counts only when it is not empty, so that the empty value is
    the empty list.  Escape sequences are not interpreted. *)

Abbreviation GKeyFile := (gmap (string * string) string).

Fixpoint split_pieces (cur : string) (s : string) : list string :=
  match s with
  | EmptyString => if decide (cur = EmptyString) then [] else [cur]
  | String c rest =>
      if decide (c = ";"%char) then cur :: split_pieces EmptyString rest
      else split_pieces (cur +:+ String c EmptyString) rest
  end.

Definition g_key_file_get_string (kf : GKeyFile) (group key : string)
  : option string :=
  kf !! (group, key).

(** The result stands for a NULL-terminated vector of [length l + 1]
    cells: the strings of [l], then [NULL]. *)
Definition g_key_file_get_string_list (kf : GKeyFile) (group key : string)
  : option (list string) :=
  split_pieces EmptyString <$> kf !! (group, key).

Definition g_strdup (s : option string) : option string := s.

(** [list[i]] for a vector returned by [g_key_file_get_string_list]: the
    cell at [length l] is the terminating [NULL], cells beyond it are
    outside the allocation. *)
Definition strv_index (l : list string) (i : nat) : result (option string) :=
  match l !! i with
  | Some s => Ok (Some s)
  | None => if decide (i = length l) then Ok None
            else Fault (OutOfBounds (Z.of_nat i))
  end.

(** The test [list != NULL && list[i] != NULL]: the string when the test
    holds, [None] when it does not.  [&&] reads [list[i]] only when [list]
    is not [NULL]. *)
Definition strv_elem (list : option (list string)) (i : nat)
  : result (option string) :=
  match list with
  | None => Ok None
  | Some l => strv_index l i
  end.

(** ** [strtol] of the C library, base 10 *)

Definition isspace (c : ascii) : bool :=
  let n := Z.of_nat (nat_of_ascii c) in
  bool_decide (n = 32 \/ 9 <= n <= 13).

Definition digit_value (c : ascii) : option Z :=
  let n := Z.of_nat (nat_of_ascii c) in
  if decide (48 <= n <= 57) then Some (n - 48) else None.

Fixpoint skip_spaces (s : string) : nat * string :=
  match s with
  | String c rest =>
      if isspace c then let '(n, r) := skip_spaces rest in (S n, r)
      else (O, s)
  | EmptyString => (O, s)
  end.

(** The value of the longest prefix of digits and its length. *)
Fixpoint read_digits (acc : Z) (s : string) : Z * nat :=
  match s with
  | String c rest =>
      match digit_value c with
      | Some d => let '(v, n) := read_digits (acc * 10 + d) rest in (v, S n)
      | None => (acc, O)
      end
  | EmptyString => (acc, O)
  end.

Definition clamp_long (z : Z) : Z := Z.max LONG_MIN (Z.min LONG_MAX z).

(** [strtol s] is the [long] returned and the number of characters
    consumed, that is [end - s]; no conversion consumes nothing and
    returns 0. *)
Definition strtol (s : string) : Z * nat :=
  let '(nsp, s1) := skip_spaces s in
  let '(neg, nsign, s2) :=
    match s1 with
    | String "-"%char r => (true, 1%nat, r)
    | String "+"%char r => (false, 1%nat, r)
    | _ => (false, 0%nat, s1)
    end in
  let '(v, nd) := read_digits 0 s2 in
  match nd with
  | O => (0, O)
  | S _ => (clamp_long (if neg then - v else v), (nsp + nsign + nd)%nat)
  end.

(** A [gchar *] compared in [get_keyfile_int]: [NULL], a position inside
    one of the strings of the list, or some other address. *)
Inductive cptr : Type :=
  | NULL
  | InElem (i : nat) (off : nat)
  | Wild (a : Z).

#[global] Instance cptr_eq_dec : EqDecision cptr.
Proof. solve_decision. Defined.

(** The pointer stored in cell [i], given what [strv_elem] found there. *)
Definition elem_ptr (i : nat) (e : option string) : cptr :=
  match e with
  | Some _ => InElem i 0
  | None => NULL
  end.

(** [GEANY_WHITESPACE_CHARS]: blank, tab and the punctuation of the macro. *)
Definition GEANY_WHITESPACE_CHARS : string :=
  String " "%char (String "009"%char (String "!"%char (String "034"%char
    "#$%&'()*+,-./:;<=>?@[\]^`{|}~"))).

(** Messages sent to the widget by [set_sci_style], with their payload. *)
Inductive sci_call : Type :=
  | SCI_STYLESETFORE (style : Z) (colour : Z)
  | SCI_STYLESETBACK (style : Z) (colour : Z)
  | SCI_STYLESETBOLD (style : Z) (b : bool)
  | SCI_STYLESETITALIC (style : Z) (b : bool).

(** ** Arrays indexed by a [gint] *)

Definition array_get {A : Type} (a : list A) (i : Z) : result A :=
  if decide (0 <= i) then
    match a !! Z.to_nat i with
    | Some x => Ok x
    | None => Fault (OutOfBounds i)
    end
  else Fault (OutOfBounds i).

Definition array_set {A : Type} (a : list A) (i : Z) (x : A)
  : result (list A) :=
  if decide (0 <= i < Z.of_nat (length a)) then Ok (<[Z.to_nat i := x]> a)
  else Fault (OutOfBounds i).

(** Field updates. *)

Definition set_keywords (kw : option (list (option string))) (ss : StyleSet)
  : StyleSet :=
  mkStyleSet (styling ss) kw (wordchars ss).

Definition set_style_sets (l : list StyleSet) (st : state) : state :=
  mkState (whitespace_chars st) l (common_style_set st)
          (common_style_set_valid st).

Definition set_common_style (i : GCS) (s : HighlightingStyle)
    (c : CommonStyleSet) : CommonStyleSet :=
  mkCommon (<[i := s]> (common_styling c)) (folding_style c) (invert_all c)
           (common_wordchars c).

Definition set_folding_style (f : FoldingStyle) (c : CommonStyleSet)
  : CommonStyleSet :=
  mkCommon (common_styling c) f (invert_all c) (common_wordchars c).

Definition set_invert_all (v : Z) (c : CommonStyleSet) : CommonStyleSet :=
  mkCommon (common_styling c) (folding_style c) v (common_wordchars c).

Definition set_common_wordchars (w : option string) (c : CommonStyleSet)
  : CommonStyleSet :=
  mkCommon (common_styling c) (folding_style c) (invert_all c) w.

Definition set_foreground (v : Z) (s : HighlightingStyle) : HighlightingStyle :=
  mkStyle v (background s) (bold s) (italic s).

Definition set_background (v : Z) (s : HighlightingStyle) : HighlightingStyle :=
  mkStyle (foreground s) v (bold s) (italic s).

(** Storing into an unsigned bit-field of [w] bits. *)
Definition bitfield (w : Z) (v : Z) : Z := v mod 2 ^ w.

(** The assignment [style_sets[index].keywords[pos] = v]. *)
Definition set_keyword (index pos : Z) (v : option string) (st : state)
  : result state :=
  ss ← array_get (style_sets st) index;
  match keywords ss with
  | None => Fault NullPointer
  | Some kw =>
      kw' ← array_set kw pos v;
      sets ← array_set (style_sets st) index (set_keywords (Some kw') ss);
      mret (set_style_sets sets st)
  end.

(** What the local variables of [styleset_common_init] and of the
    [get_keyfile_int] calls it makes hold before they are assigned. *)
Record uninitialised : Type := mkUninit {
  tmp_style : HighlightingStyle;
  end_ptr : nat -> cptr
}.

(** ** Vocabulary of the statements *)

(** Neither key file yields a value for [key] in group [section]: one of the
    two pointers is [NULL], or the key is absent from both files. *)
Definition no_value (config configh : option GKeyFile) (section key : string)
  : Prop :=
  match config, configh with
  | Some c, Some h => h !! (section, key) = None /\ c !! (section, key) = None
  | _, _ => True
  end.

(** The keys [styleset_common_init] reads with [get_keyfile_int]; the other
    keys of the common style set are read with [get_keyfile_hex]. *)
Definition common_int_keys : list string :=
  [ "folding_style"; "invert_all"; "folding_horiz_line"; "caret_width";
    "line_wrap_visuals"; "line_wrap_indent"; "translucency";
    "marker_translucency" ].

(** Every list configured under [styling] is long enough for the reads made
    on it: one string for a key read with [get_keyfile_int], three for a key
    read with [get_keyfile_hex]. *)
Definition common_lists_long_enough (config configh : GKeyFile) : Prop :=
  forall key l,
    g_key_file_get_string_list (configh ∪ config) "styling" key = Some l ->
    (1 <= length l)%nat /\ (key ∉ common_int_keys -> (3 <= length l)%nat).



(** A small instance of what the file takes from the rest of Geany, used
    for examples: [utils_atob] recognises the lower-case word only and
    [utils_strtod] reads decimal digits. *)
Module Sample.

Definition utils_strtod (s : string) : Z := to_gint (fst (strtol s)).

Definition utils_atob (s : option string) : bool :=
  bool_decide (s = Some "true").

Definition GEANY_WORDCHARS : string := "_abcdefghijklmnopqrstuvwxyz".

Definition filetypes_load_config (ft_id : Z) (st : state) : state := st.

Definition no_style : HighlightingStyle := mkStyle 0 0 false false.

Definition initial_common : CommonStyleSet :=
  mkCommon (fun _ => no_style) (mkFolding 0 0 0) 0 None.

Definition no_style_set : StyleSet := mkStyleSet None None None.

(** The state at program start, for an array of [n] style sets. *)
Definition initial (n : nat) : state :=
  mkState None (replicate n no_style_set) initial_common false.

(** A state in which the common style set asks for inverted colours. *)
Definition inverted : state :=
  mkState None [] (set_invert_all 1 initial_common) true.

Definition no_locals : uninitialised := mkUninit no_style (fun _ => NULL).

(** One style set whose keyword array has two cells, not yet assigned. *)
Definition with_keywords : state :=
  mkState None [mkStyleSet None (Some [None; None]) None] initial_common
          false.

Definition system_file : GKeyFile :=
  {[ ("styling", "comment") := "0x808080;0xffffff;false;false";
     ("settings", "wordchars") := "abc" ]}.

Definition user_file : GKeyFile :=
  {[ ("styling", "comment") := "0xd00000;0xffffff;false;true";
     ("styling", "default") := "0x1;0x2" ]}.

Definition theme_file : GKeyFile :=
  {[ ("styling", "invert_all") := "1" ]}.

End Sample.

Section Highlighting.

(** Taken from the rest of Geany: [utils_strtod s] is
    [(gint) utils_strtod(s, NULL, FALSE)] and [utils_atob] is the function
    of [utils.c]; the constants come from [geany.h] and [filetypes.h];
    [filetypes_load_config] is the loader of [filetypes.c]. *)
Variable utils_strtod : string -> Z.
Variable utils_atob : option string -> bool.
Variable GEANY_WORDCHARS : string.
Variable GEANY_FILETYPES_NONE : Z.
Variable GEANY_MAX_BUILT_IN_FILETYPES : Z.
Variable filetypes_load_config : Z -> state -> state.

Definition get_keyfile_keywords (config configh : option GKeyFile)
    (section : option string) (key : string) (index pos : Z)
    (default_value : option string) (st : state) : result state :=
  match config, configh, section with
  | Some config, Some configh, Some section =>
      let result := g_key_file_get_string configh section key in
      let result :=
        match result with
        | None => g_key_file_get_string config section key
        | Some _ => result
        end in
      match result with
      | None => set_keyword index pos (g_strdup default_value) st
      | Some _ => set_keyword index pos result st
      end
  | _, _, _ => set_keyword index pos (g_strdup default_value) st
  end.

(** The value stored in [*wordchars]. *)
Definition get_keyfile_wordchars (config configh : option GKeyFile)
  : option string :=
  match config, configh with
  | Some config, Some configh =>
      let result := g_key_file_get_string configh "settings" "wordchars" in
      let result :=
        match result with
        | None => g_key_file_get_string config "settings" "wordchars"
        | Some _ => result
        end in
      match result with
      | None => g_strdup (Some GEANY_WORDCHARS)
      | Some _ => result
      end
  | _, _ => g_strdup (Some GEANY_WORDCHARS)
  end.

(** The content of [*style] after the call; [g_return_if_fail] leaves it
    as it was. *)
Definition get_keyfile_style (config configh : option GKeyFile)
    (key_name : option string) (default_style style : option HighlightingStyle)
  : result (option HighlightingStyle) :=
  match config, configh, key_name, default_style, style with
  | Some config, Some configh, Some key_name, Some default_style, Some _ =>
      let lst := g_key_file_get_string_list configh "styling" key_name in
      let lst :=
        match lst with
        | None => g_key_file_get_string_list config "styling" key_name
        | Some _ => lst
        end in
      e0 ← strv_elem lst 0;
      let fg := match e0 with
                | Some s => utils_strtod s
                | None => rotate_rgb (foreground default_style)
                end in
      e1 ← strv_elem lst 1;
      let bg := match e1 with
                | Some s => utils_strtod s
                | None => rotate_rgb (background default_style)
                end in
      e2 ← strv_elem lst 2;
      let bo := match e2 with
                | Some s => utils_atob (Some s)
                | None => bold default_style
                end in
      e3 ← strv_elem lst 3;
      let it := match e3 with
                | Some s => utils_atob (Some s)
                | None => italic default_style
                end in
      mret (Some (mkStyle fg bg bo it))
  | _, _, _, _, _ => mret style
  end.

Definition get_keyfile_hex (config configh : option GKeyFile)
    (section : option string) (key : string)
    (fore back bold_default : option string) (style : HighlightingStyle)
  : result HighlightingStyle :=
  match config, configh, section with
  | Some config, Some configh, Some section =>
      let lst := g_key_file_get_string_list configh section key in
      let lst :=
        match lst with
        | None => g_key_file_get_string_list config section key
        | Some _ => lst
        end in
      e0 ← strv_elem lst 0;
      let fg := match e0, fore with
                | Some s, _ => utils_strtod s
                | None, Some f => utils_strtod f
                | None, None => foreground style
                end in
      e1 ← strv_elem lst 1;
      let bg := match e1, back with
                | Some s, _ => utils_strtod s
                | None, Some b => utils_strtod b
                | None, None => background style
                end in
      e2 ← strv_elem lst 2;
      let bo := match e2 with
                | Some s => utils_atob (Some s)
                | None => utils_atob bold_default
                end in
      e3 ← strv_elem lst 3;
      let it := match e3 with
                | Some s => utils_atob (Some s)
                | None => false
                end in
      mret (mkStyle fg bg bo it)
  | _, _, _ => mret style
  end.

(** [end1] and [end2] are the locals as they are on entry: [strtol] is the
    only thing that assigns them. *)
Definition get_keyfile_int (config configh : option GKeyFile)
    (section : option string) (key : string) (fdefault_val sdefault_val : Z)
    (end1 end2 : cptr) (style : HighlightingStyle)
  : result HighlightingStyle :=
  match config, configh, section with
  | Some config, Some configh, Some section =>
      let lst := g_key_file_get_string_list configh section key in
      let lst :=
        match lst with
        | None => g_key_file_get_string_list config section key
        | Some _ => lst
        end in
      e0 ← strv_elem lst 0;
      let '(fg, end1) :=
        match e0 with
        | Some s => let '(v, n) := strtol s in (to_gint v, InElem 0 n)
        | None => (fdefault_val, end1)
        end in
      e1 ← strv_elem lst 1;
      let '(bg, end2) :=
        match e1 with
        | Some s => let '(v, n) := strtol s in (to_gint v, InElem 1 n)
        | None => (sdefault_val, end2)
        end in
      (* if there was an error, strtol() returns 0 and end is list[x];
         list[0] and list[1] are read again, with the same result *)
      let fg := match lst with
                | None => fdefault_val
                | Some _ => if decide (elem_ptr 0 e0 = end1) then fdefault_val
                            else fg
                end in
      let bg := match lst with
                | None => sdefault_val
                | Some _ => if decide (elem_ptr 1 e1 = end2) then sdefault_val
                            else bg
                end in
      mret (mkStyle fg bg (bold style) (italic style))
  | _, _, _ => mret style
  end.

Definition get_keyfile_whitespace_chars (config configh : option GKeyFile)
  : option string :=
  let result :=
    match config, configh with
    | Some config, Some configh =>
        match g_key_file_get_string configh "settings" "whitespace_chars" with
        | None => g_key_file_get_string config "settings" "whitespace_chars"
        | Some r => Some r
        end
    | _, _ => None
    end in
  match result with
  | None => g_strdup (Some GEANY_WHITESPACE_CHARS)
  | Some _ => result
  end.

(** One [get_keyfile_hex] call of [styleset_common_init], on
    [common_style_set.styling[i]]. *)
Definition load_common_hex (config config_home : option GKeyFile)
    (key fore back bold_default : string) (i : GCS) (c : CommonStyleSet)
  : result CommonStyleSet :=
  s ← get_keyfile_hex config config_home (Some "styling") key
        (Some fore) (Some back) (Some bold_default) (common_styling c i);
  mret (set_common_style i s c).

(** The [k]-th [get_keyfile_int] call of [styleset_common_init], on the
    local [tmp_style]. *)
Definition load_common_int (config config_home : option GKeyFile)
    (u : uninitialised) (k : nat) (key : string) (fdefault sdefault : Z)
    (tmp : HighlightingStyle) : result HighlightingStyle :=
  get_keyfile_int config config_home (Some "styling") key fdefault sdefault
    (end_ptr u (2 * k)) (end_ptr u (2 * k + 1)) tmp.

Definition styleset_common_init (ft_id : Z)
    (config config_home : option GKeyFile) (u : uninitialised) (st : state)
  : result state :=
  if common_style_set_valid st then mret st
  else
    let hex := load_common_hex config config_home in
    let int := load_common_int config config_home u in
    let c := common_style_set st in
    c ← hex "default" "0x000000" "0xffffff" "false" GCS_DEFAULT c;
    c ← hex "selection" "0xc0c0c0" "0x7f0000" "false" GCS_SELECTION c;
    c ← hex "brace_good" "0x000000" "0xffffff" "false" GCS_BRACE_GOOD c;
    c ← hex "brace_bad" "0xff0000" "0xffffff" "false" GCS_BRACE_BAD c;
    c ← hex "margin_linenumber" "0x000000" "0xd0d0d0" "false"
          GCS_MARGIN_LINENUMBER c;
    c ← hex "margin_folding" "0x000000" "0xdfdfdf" "false"
          GCS_MARGIN_FOLDING c;
    c ← hex "current_line" "0x000000" "0xe5e5e5" "true" GCS_CURRENT_LINE c;
    c ← hex "caret" "0x000000" "0x000000" "false" GCS_CARET c;
    c ← hex "indent_guide" "0xc0c0c0" "0xffffff" "false" GCS_INDENT_GUIDE c;
    c ← hex "white_space" "0xc0c0c0" "0xffffff" "true" GCS_WHITE_SPACE c;
    c ← hex "marker_line" "0x000000" "0xffff00" "false" GCS_MARKER_LINE c;
    c ← hex "marker_search" "0x000000" "0xB8F4B8" "false"
          GCS_MARKER_SEARCH c;
    (* hack because get_keyfile_int uses a Style struct *)
    tmp ← int 0%nat "folding_style" 1 1 (tmp_style u);
    let c := set_folding_style
               (mkFolding (bitfield 2 (foreground tmp))
                          (bitfield 2 (background tmp))
                          (draw_line (folding_style c))) c in
    tmp ← int 1%nat "invert_all" 0 0 tmp;
    let c := set_invert_all (foreground tmp) c in
    tmp ← int 2%nat "folding_horiz_line" 2 0 tmp;
    let c := set_folding_style
               (mkFolding (marker (folding_style c))
                          (lines (folding_style c))
                          (bitfield 3 (foreground tmp))) c in
    tmp ← int 3%nat "caret_width" 1 0 tmp;
    let c := set_common_style GCS_CARET
               (set_background (foreground tmp)
                  (common_styling c GCS_CARET)) c in
    tmp ← int 4%nat "line_wrap_visuals" 3 0 tmp;
    let c := set_common_style GCS_LINE_WRAP_VISUALS
               (set_background (background tmp)
                  (set_foreground (foreground tmp)
                     (common_styling c GCS_LINE_WRAP_VISUALS))) c in
    tmp ← int 5%nat "line_wrap_indent" 0 0 tmp;
    let c := set_common_style GCS_LINE_WRAP_INDENT
               (set_foreground (foreground tmp)
                  (common_styling c GCS_LINE_WRAP_INDENT)) c in
    tmp ← int 6%nat "translucency" 256 256 tmp;
    let c := set_common_style GCS_TRANSLUCENCY
               (set_background (background tmp)
                  (set_foreground (foreground tmp)
                     (common_styling c GCS_TRANSLUCENCY))) c in
    tmp ← int 7%nat "marker_translucency" 256 256 tmp;
    let c := set_common_style GCS_MARKER_TRANSLUCENCY
               (set_background (background tmp)
                  (set_foreground (foreground tmp)
                     (common_styling c GCS_MARKER_TRANSLUCENCY))) c in
    let c := set_common_wordchars
               (get_keyfile_wordchars config config_home) c in
    mret (mkState (get_keyfile_whitespace_chars config config_home)
                  (style_sets st) c true).

(** The four [SSM] calls of [set_sci_style], in order.  [invert] takes a
    [guint], so the colours are converted. *)
Definition set_sci_style (st : state) (style ft styling_index : Z)
  : result (list sci_call) :=
  style_ptr ←
    (if decide (ft = GEANY_FILETYPES_NONE) then
       match GCS_of_index styling_index with
       | Some i => Ok (common_styling (common_style_set st) i)
       | None => Fault (OutOfBounds styling_index)
       end
     else
       ss ← array_get (style_sets st) ft;
       match styling ss with
       | None => Fault NullPointer
       | Some a => array_get a styling_index
       end);
  mret [ SCI_STYLESETFORE style (invert st (to_guint (foreground style_ptr)));
         SCI_STYLESETBACK style (invert st (to_guint (background style_ptr)));
         SCI_STYLESETBOLD style (bold style_ptr);
         SCI_STYLESETITALIC style (italic style_ptr) ].

(** The pointer returned is [NULL] or the address of
    [style_sets[ft_id].styling[style_id]], given by its two indices. *)
Definition highlighting_get_style (st : state) (ft_id style_id : Z)
  : result (state * option (Z * Z)) :=
  if decide (ft_id < 0 \/ ft_id > GEANY_MAX_BUILT_IN_FILETYPES) then
    mret (st, None)
  else
    ss ← array_get (style_sets st) ft_id;
    let st := match styling ss with
              | None => filetypes_load_config ft_id st
              | Some _ => st
              end in
    mret (st, Some (ft_id, style_id)).

(** The declared size of [style_sets]. *)
Definition style_sets_declared (st : state) : Prop :=
  Z.of_nat (length (style_sets st)) = GEANY_MAX_BUILT_IN_FILETYPES - 1.

(** The record [set_sci_style] points [style_ptr] at, when there is one. *)
Definition styling_record (st : state) (ft styling_index : Z)
    (s : HighlightingStyle) : Prop :=
  if decide (ft = GEANY_FILETYPES_NONE) then
    exists i, GCS_of_index styling_index = Some i /\
              common_styling (common_style_set st) i = s
  else
    exists ss a, 0 <= ft /\ style_sets st !! Z.to_nat ft = Some ss /\
                 styling ss = Some a /\
                 0 <= styling_index /\ a !! Z.to_nat styling_index = Some s.

(** ** Style sets of the filetypes: allocation and loading *)

(** A record as [g_new0] leaves it. *)
Definition zero_style : HighlightingStyle := mkStyle 0 0 false false.

(** [g_new0(HighlightingStyle, n)]: [NULL] for no bytes, else [n] zeroed
    records.  (A negative count does not occur, every call passes a
    positive literal; the allocation would abort the program.) *)
Definition g_new0_styles (n : Z) : option (list HighlightingStyle) :=
  if decide (n <= 0) then None
  else Some (replicate (Z.to_nat n) zero_style).

(** [g_new(gchar*, n)]: [n] cells holding whatever the heap held,
    [junk]. *)
Definition g_new_strings (junk : nat -> option string) (n : nat)
  : option (list (option string)) :=
  Some (junk <$> seq 0 n).

Definition set_styling (a : option (list HighlightingStyle)) (ss : StyleSet)
  : StyleSet :=
  mkStyleSet a (keywords ss) (wordchars ss).

Definition set_wordchars (w : option string) (ss : StyleSet) : StyleSet :=
  mkStyleSet (styling ss) (keywords ss) w.

(** An assignment to a field of [style_sets[ft]]. *)
Definition update_style_set (ft : Z) (f : StyleSet -> StyleSet) (st : state)
  : result state :=
  ss ← array_get (style_sets st) ft;
  sets ← array_set (style_sets st) ft (f ss);
  mret (set_style_sets sets st).

Definition new_style_array (file_type_id styling_count : Z) (st : state)
  : result state :=
  update_style_set file_type_id (set_styling (g_new0_styles styling_count))
    st.

(** [get_keyfile_style] called on [&style_sets[ft].styling[i]].  The
    pointer is formed from the [styling] field read out of [style_sets];
    it is [NULL] when that field is [NULL] and [i] is 0, which
    [g_return_if_fail] catches; the first assignment through it, made
    after the read of [list[0]], is where a pointer outside the array
    faults. *)
Definition get_keyfile_style_at (config configh : option GKeyFile)
    (key_name : string) (default_style : HighlightingStyle) (ft i : Z)
    (st : state) : result state :=
  ss ← array_get (style_sets st) ft;
  match config, configh with
  | Some _, Some _ =>
      match styling ss with
      | None => if decide (i = 0) then mret st else Fault NullPointer
      | Some a =>
          old ← array_get a i;
          new ← get_keyfile_style config configh (Some key_name)
                  (Some default_style) (Some old);
          match new with
          | Some s =>
              a' ← array_set a i s;
              update_style_set ft (set_styling (Some a')) st
          | None => mret st
          end
      end
  | _, _ => mret st
  end.

(** [get_keyfile_int] called on [&style_sets[ft].styling[i]]; here the
    pointer is used unchecked. *)
Definition get_keyfile_int_at (config configh : option GKeyFile)
    (section key : string) (fdefault_val sdefault_val : Z)
    (end1 end2 : cptr) (ft i : Z) (st : state) : result state :=
  ss ← array_get (style_sets st) ft;
  match config, configh with
  | Some _, Some _ =>
      match styling ss with
      | None => Fault NullPointer
      | Some a =>
          old ← array_get a i;
          new ← get_keyfile_int config configh (Some section) key
                  fdefault_val sdefault_val end1 end2 old;
          a' ← array_set a i new;
          update_style_set ft (set_styling (Some a')) st
      end
  | _, _ => mret st
  end.

(** [StyleEntry], with the default style by value: the styles pointed at
    are not assigned anywhere in the file. *)
Record StyleEntry : Type := mkEntry {
  entry_name : string;
  entry_style : HighlightingStyle
}.

(* Geany generic styles, initialized to defaults. *)
Definition gsd_default := mkStyle 0x000000 0xffffff false false.
Definition gsd_comment := mkStyle 0xd00000 0xffffff false false.
Definition gsd_comment_doc := mkStyle 0x3f5fbf 0xffffff true false.
Definition gsd_number := mkStyle 0x007f00 0xffffff false false.
Definition gsd_reserved_word := mkStyle 0x00007f 0xffffff true false.
Definition gsd_system_word := mkStyle 0x991111 0xffffff true false.
Definition gsd_user_word := mkStyle 0x0000d0 0xffffff true false.
Definition gsd_string := mkStyle 0xff901e 0xffffff false false.
Definition gsd_pragma := mkStyle 0x007f7f 0xffffff false false.
Definition gsd_string_eol := mkStyle 0x000000 0xe0c0e0 false false.

(** The table [entries] of [styleset_c_like_init], with its four static
    styles [uuid], [operator], [verbatim] and [regex]. *)
Definition c_like_entries : list StyleEntry :=
  [ mkEntry "default" gsd_default;
    mkEntry "comment" gsd_comment;
    mkEntry "commentline" gsd_comment;
    mkEntry "commentdoc" gsd_comment_doc;
    mkEntry "number" gsd_number;
    mkEntry "word" gsd_reserved_word;
    mkEntry "word2" gsd_system_word;
    mkEntry "string" gsd_string;
    mkEntry "character" gsd_string;
    mkEntry "uuid" (mkStyle 0x404080 0xffffff false false);
    mkEntry "preprocessor" gsd_pragma;
    mkEntry "operator" (mkStyle 0x301010 0xffffff false false);
    mkEntry "identifier" gsd_default;
    mkEntry "stringeol" gsd_string_eol;
    mkEntry "verbatim" (mkStyle 0x301010 0xffffff false false);
    mkEntry "regex" (mkStyle 0x105090 0xffffff false false);
    mkEntry "commentlinedoc" gsd_comment_doc;
    mkEntry "commentdockeyword" gsd_comment_doc;
    mkEntry "commentdockeyworderror" gsd_comment_doc;
    mkEntry "globalclass" gsd_user_word ].

(** [for (i = from; i < from + n; i++) body] on the state. *)
Fixpoint for_loop (n : nat) (i : Z) (body : Z -> state -> result state)
    (st : state) : result state :=
  match n with
  | O => mret st
  | S n' => st ← body i st; for_loop n' (i + 1) body st
  end.

(* call new_style_array(filetype_idx, >= 20) before using this. *)
Definition styleset_c_like_init (config config_home : option GKeyFile)
    (filetype_idx : Z) (st : state) : result state :=
  for_loop 20 0
    (fun i st =>
       e ← array_get c_like_entries i;
       get_keyfile_style_at config config_home (entry_name e)
         (entry_style e) filetype_idx i st)
    st.

(** The filetype index of C, from [filetypes.h]. *)
Variable GEANY_FILETYPES_C : Z.

(** The locals [end1] and [end2] of the [get_keyfile_int] call are taken
    from [u], the fresh keyword cells from [junk]. *)
Definition styleset_c_init (ft_id : Z) (config config_home : option GKeyFile)
    (u : uninitialised) (junk : nat -> option string) (st : state)
  : result state :=
  st ← new_style_array GEANY_FILETYPES_C 21 st;
  st ← styleset_c_like_init config config_home GEANY_FILETYPES_C st;
  st ← get_keyfile_int_at config config_home "styling"
         "styling_within_preprocessor" 1 0 (end_ptr u 0) (end_ptr u 1)
         GEANY_FILETYPES_C 20 st;
  st ← update_style_set GEANY_FILETYPES_C
         (set_keywords (g_new_strings junk 4)) st;
  st ← get_keyfile_keywords config config_home (Some "keywords") "primary"
         GEANY_FILETYPES_C 0
         (Some "if const struct char int float double void long for while do case switch return")
         st;
  st ← get_keyfile_keywords config config_home (Some "keywords") "secondary"
         GEANY_FILETYPES_C 1 (Some "") st;
  st ← get_keyfile_keywords config config_home (Some "keywords")
         "docComment" GEANY_FILETYPES_C 2 (Some "TODO FIXME") st;
  st ← set_keyword GEANY_FILETYPES_C 3 None st;
  update_style_set GEANY_FILETYPES_C
    (set_wordchars (get_keyfile_wordchars config config_home)) st.

(** ** Messages to the widget *)

(** The style numbers of [Scintilla.h] and [SciLexer.h] used below, by
    name; [style_number] gives the value of the macro. *)
Inductive style_name : Type :=
  | STYLE_DEFAULT | STYLE_LINENUMBER | STYLE_BRACELIGHT | STYLE_BRACEBAD
  | STYLE_INDENTGUIDE
  | SCE_C_DEFAULT | SCE_C_COMMENT | SCE_C_COMMENTLINE | SCE_C_COMMENTDOC
  | SCE_C_NUMBER | SCE_C_WORD | SCE_C_WORD2 | SCE_C_STRING
  | SCE_C_CHARACTER | SCE_C_UUID | SCE_C_PREPROCESSOR | SCE_C_OPERATOR
  | SCE_C_IDENTIFIER | SCE_C_STRINGEOL | SCE_C_VERBATIM | SCE_C_REGEX
  | SCE_C_COMMENTLINEDOC | SCE_C_COMMENTDOCKEYWORD
  | SCE_C_COMMENTDOCKEYWORDERROR | SCE_C_GLOBALCLASS.

Variable style_number : style_name -> Z.

(** The calls of [styleset_c_like]: style and index into the array. *)
Definition c_like_styles : list (style_name * Z) :=
  [ (STYLE_DEFAULT, 0); (SCE_C_DEFAULT, 0); (SCE_C_COMMENT, 1);
    (SCE_C_COMMENTLINE, 2); (SCE_C_COMMENTDOC, 3); (SCE_C_NUMBER, 4);
    (SCE_C_WORD, 5); (SCE_C_WORD2, 6); (SCE_C_STRING, 7);
    (SCE_C_CHARACTER, 8); (SCE_C_UUID, 9); (SCE_C_PREPROCESSOR, 10);
    (SCE_C_OPERATOR, 11); (SCE_C_IDENTIFIER, 12); (SCE_C_STRINGEOL, 13);
    (SCE_C_VERBATIM, 14); (SCE_C_REGEX, 15); (SCE_C_COMMENTLINEDOC, 16);
    (SCE_C_COMMENTDOCKEYWORD, 17); (SCE_C_COMMENTDOCKEYWORDERROR, 18);
    (* is used for local structs and typedefs *)
    (SCE_C_GLOBALCLASS, 19) ].

(** [set_sci_style] for each pair of a table, in order. *)
Fixpoint set_sci_styles (st : state) (ft : Z) (l : list (style_name * Z))
  : result (list sci_call) :=
  match l with
  | [] => mret []
  | (s, i) :: rest =>
      c ← set_sci_style st (style_number s) ft i;
      cs ← set_sci_styles st ft rest;
      mret (c ++ cs)
  end.

Definition styleset_c_like (st : state) (filetype_idx : Z)
  : result (list sci_call) :=
  set_sci_styles st filetype_idx c_like_styles.

(** The other messages, their symbolic arguments, and a call of [SSM]
    with the values of its two argument expressions. *)
Inductive sci_message : Type :=
  | SCI_STYLECLEARALL | SCI_SETCARETFORE | SCI_SETCARETWIDTH
  | SCI_SETCARETSTYLE | SCI_SETCARETLINEBACK | SCI_SETCARETLINEVISIBLE
  | SCI_SETCARETLINEBACKALPHA | SCI_SETSELALPHA | SCI_SETWRAPVISUALFLAGS
  | SCI_SETWRAPVISUALFLAGSLOCATION | SCI_SETWRAPSTARTINDENT
  | SCI_INDICSETSTYLE | SCI_INDICSETFORE | SCI_MARKERDEFINE
  | SCI_MARKERSETFORE | SCI_MARKERSETBACK | SCI_MARKERSETALPHA
  | SCI_SETMARGINTYPEN | SCI_SETMARGINMASKN | SCI_SETFOLDFLAGS
  | SCI_SETPROPERTY | SCI_SETSELFORE | SCI_SETSELBACK | SCI_SETSTYLEBITS
  | SCI_SETFOLDMARGINCOLOUR | SCI_SETWHITESPACEFORE | SCI_SETWHITESPACEBACK
  | SCI_SETKEYWORDS | SCI_SETLEXER | SCI_SETWORDCHARS
  | SCI_SETWHITESPACECHARS | SCI_AUTOCSETMAXHEIGHT.

Inductive sci_const : Type :=
  | CARETSTYLE_BLOCK | CARETSTYLE_LINE | INDIC_SQUIGGLE
  | SC_MARK_SHORTARROW | SC_MARK_PLUS | SC_MARGIN_SYMBOL | SC_MASK_FOLDERS
  | SC_MARKNUM_FOLDEROPEN | SC_MARKNUM_FOLDER | SC_MARKNUM_FOLDEREND
  | SC_MARKNUM_FOLDEROPENMID | SC_MARKNUM_FOLDERMIDTAIL
  | SC_MARKNUM_FOLDERTAIL | SC_MARKNUM_FOLDERSUB
  | SC_MARK_CIRCLEMINUS | SC_MARK_CIRCLEPLUS | SC_MARK_CIRCLEPLUSCONNECTED
  | SC_MARK_CIRCLEMINUSCONNECTED | SC_MARK_BOXMINUS | SC_MARK_BOXPLUS
  | SC_MARK_BOXPLUSCONNECTED | SC_MARK_BOXMINUSCONNECTED
  | SC_MARK_TCORNERCURVE | SC_MARK_LCORNERCURVE | SC_MARK_TCORNER
  | SC_MARK_LCORNER | SC_MARK_VLINE | SCLEX_NULL | SCLEX_CPP.

Inductive sci_arg : Type :=
  | AInt (z : Z)
  | AFlag (b : bool)
  | AText (s : option string)
  | AConst (c : sci_const).

Inductive widget_call : Type :=
  | Styled (c : sci_call)
  | SSM (m : sci_message) (wparam lparam : sci_arg).

(** The value of an enumerator of the common styling. *)
Definition GCS_index (i : GCS) : Z :=
  match i with
  | GCS_DEFAULT => 0 | GCS_SELECTION => 1 | GCS_BRACE_GOOD => 2
  | GCS_BRACE_BAD => 3 | GCS_MARGIN_LINENUMBER => 4
  | GCS_MARGIN_FOLDING => 5 | GCS_CURRENT_LINE => 6 | GCS_CARET => 7
  | GCS_INDENT_GUIDE => 8 | GCS_WHITE_SPACE => 9
  | GCS_LINE_WRAP_VISUALS => 10 | GCS_LINE_WRAP_INDENT => 11
  | GCS_TRANSLUCENCY => 12 | GCS_MARKER_LINE => 13
  | GCS_MARKER_SEARCH => 14 | GCS_MARKER_TRANSLUCENCY => 15
  end.

Definition styleset_common (st : state) (style_bits ft_id : Z)
  : result (list widget_call) :=
  let sty := common_styling (common_style_set st) in
  let fold := folding_style (common_style_set st) in
  let inv := fun c : Z => AInt (invert st (to_guint c)) in
  let text := fun s : string => AText (Some s) in
  linenumber ← set_sci_style st (style_number STYLE_LINENUMBER)
                 GEANY_FILETYPES_NONE (GCS_index GCS_MARGIN_LINENUMBER);
  bracelight ← set_sci_style st (style_number STYLE_BRACELIGHT)
                 GEANY_FILETYPES_NONE (GCS_index GCS_BRACE_GOOD);
  bracebad ← set_sci_style st (style_number STYLE_BRACEBAD)
               GEANY_FILETYPES_NONE (GCS_index GCS_BRACE_BAD);
  indentguide ← set_sci_style st (style_number STYLE_INDENTGUIDE)
                  GEANY_FILETYPES_NONE (GCS_index GCS_INDENT_GUIDE);
  mret (
    [ SSM SCI_STYLECLEARALL (AInt 0) (AInt 0);
      (* caret colour, style and width *)
      SSM SCI_SETCARETFORE (inv (foreground (sty GCS_CARET))) (AInt 0);
      SSM SCI_SETCARETWIDTH (AInt (background (sty GCS_CARET))) (AInt 0);
      (if bold (sty GCS_CARET)
       then SSM SCI_SETCARETSTYLE (AConst CARETSTYLE_BLOCK) (AInt 0)
       else SSM SCI_SETCARETSTYLE (AConst CARETSTYLE_LINE) (AInt 0));
      (* colourize the current line *)
      SSM SCI_SETCARETLINEBACK (inv (background (sty GCS_CURRENT_LINE)))
        (AInt 0);
      (* bold=enable current line *)
      SSM SCI_SETCARETLINEVISIBLE (AFlag (bold (sty GCS_CURRENT_LINE)))
        (AInt 0);
      (* Translucency for current line and selection *)
      SSM SCI_SETCARETLINEBACKALPHA
        (AInt (foreground (sty GCS_TRANSLUCENCY))) (AInt 0);
      SSM SCI_SETSELALPHA (AInt (background (sty GCS_TRANSLUCENCY)))
        (AInt 0);
      (* line wrapping visuals *)
      SSM SCI_SETWRAPVISUALFLAGS
        (AInt (foreground (sty GCS_LINE_WRAP_VISUALS))) (AInt 0);
      SSM SCI_SETWRAPVISUALFLAGSLOCATION
        (AInt (background (sty GCS_LINE_WRAP_VISUALS))) (AInt 0);
      SSM SCI_SETWRAPSTARTINDENT
        (AInt (foreground (sty GCS_LINE_WRAP_INDENT))) (AInt 0);
      (* indicator settings *)
      SSM SCI_INDICSETSTYLE (AInt 2) (AConst INDIC_SQUIGGLE);
      SSM SCI_INDICSETFORE (AInt 0) (AInt (invert st 0x0000ff));
      SSM SCI_INDICSETFORE (AInt 2) (AInt (invert st 0x0000ff));
      (* 0 -> line marker *)
      SSM SCI_MARKERDEFINE (AInt 0) (AConst SC_MARK_SHORTARROW);
      SSM SCI_MARKERSETFORE (AInt 0)
        (inv (foreground (sty GCS_MARKER_LINE)));
      SSM SCI_MARKERSETBACK (AInt 0)
        (inv (background (sty GCS_MARKER_LINE)));
      SSM SCI_MARKERSETALPHA (AInt 0)
        (AInt (foreground (sty GCS_MARKER_TRANSLUCENCY)));
      (* 1 -> user marker *)
      SSM SCI_MARKERDEFINE (AInt 1) (AConst SC_MARK_PLUS);
      SSM SCI_MARKERSETFORE (AInt 1)
        (inv (foreground (sty GCS_MARKER_SEARCH)));
      SSM SCI_MARKERSETBACK (AInt 1)
        (inv (background (sty GCS_MARKER_SEARCH)));
      SSM SCI_MARKERSETALPHA (AInt 1)
        (AInt (background (sty GCS_MARKER_TRANSLUCENCY)));
      (* 2 -> folding marker, other folding settings *)
      SSM SCI_SETMARGINTYPEN (AInt 2) (AConst SC_MARGIN_SYMBOL);
      SSM SCI_SETMARGINMASKN (AInt 2) (AConst SC_MASK_FOLDERS);
      (* drawing a horizontal line when text if folded *)
      match draw_line fold with
      | 1 => SSM SCI_SETFOLDFLAGS (AInt 4) (AInt 0)
      | 2 => SSM SCI_SETFOLDFLAGS (AInt 16) (AInt 0)
      | _ => SSM SCI_SETFOLDFLAGS (AInt 0) (AInt 0)
      end ]
    ++
    (* choose the folding style - boxes or circles *)
    match marker fold with
    | 2 =>
        [ SSM SCI_MARKERDEFINE (AConst SC_MARKNUM_FOLDEROPEN)
            (AConst SC_MARK_CIRCLEMINUS);
          SSM SCI_MARKERDEFINE (AConst SC_MARKNUM_FOLDER)
            (AConst SC_MARK_CIRCLEPLUS);
          SSM SCI_MARKERDEFINE (AConst SC_MARKNUM_FOLDEREND)
            (AConst SC_MARK_CIRCLEPLUSCONNECTED);
          SSM SCI_MARKERDEFINE (AConst SC_MARKNUM_FOLDEROPENMID)
            (AConst SC_MARK_CIRCLEMINUSCONNECTED) ]
    | _ =>
        [ SSM SCI_MARKERDEFINE (AConst SC_MARKNUM_FOLDEROPEN)
            (AConst SC_MARK_BOXMINUS);
          SSM SCI_MARKERDEFINE (AConst SC_MARKNUM_FOLDER)
            (AConst SC_MARK_BOXPLUS);
          SSM SCI_MARKERDEFINE (AConst SC_MARKNUM_FOLDEREND)
            (AConst SC_MARK_BOXPLUSCONNECTED);
          SSM SCI_MARKERDEFINE (AConst SC_MARKNUM_FOLDEROPENMID)
            (AConst SC_MARK_BOXMINUSCONNECTED) ]
    end
    ++
    (* choose the folding style - straight or curved *)
    match lines fold with
    | 2 =>
        [ SSM SCI_MARKERDEFINE (AConst SC_MARKNUM_FOLDERMIDTAIL)
            (AConst SC_MARK_TCORNERCURVE);
          SSM SCI_MARKERDEFINE (AConst SC_MARKNUM_FOLDERTAIL)
            (AConst SC_MARK_LCORNERCURVE) ]
    | _ =>
        [ SSM SCI_MARKERDEFINE (AConst SC_MARKNUM_FOLDERMIDTAIL)
            (AConst SC_MARK_TCORNER);
          SSM SCI_MARKERDEFINE (AConst SC_MARKNUM_FOLDERTAIL)
            (AConst SC_MARK_LCORNER) ]
    end
    ++
    [ SSM SCI_MARKERDEFINE (AConst SC_MARKNUM_FOLDERSUB)
        (AConst SC_MARK_VLINE);
      SSM SCI_MARKERSETFORE (AConst SC_MARKNUM_FOLDEROPEN) (AInt 0xffffff);
      SSM SCI_MARKERSETBACK (AConst SC_MARKNUM_FOLDEROPEN) (AInt 0x000000);
      SSM SCI_MARKERSETFORE (AConst SC_MARKNUM_FOLDER) (AInt 0xffffff);
      SSM SCI_MARKERSETBACK (AConst SC_MARKNUM_FOLDER) (AInt 0x000000);
      SSM SCI_MARKERSETFORE (AConst SC_MARKNUM_FOLDERSUB) (AInt 0xffffff);
      SSM SCI_MARKERSETBACK (AConst SC_MARKNUM_FOLDERSUB) (AInt 0x000000);
      SSM SCI_MARKERSETFORE (AConst SC_MARKNUM_FOLDERTAIL) (AInt 0xffffff);
      SSM SCI_MARKERSETBACK (AConst SC_MARKNUM_FOLDERTAIL) (AInt 0x000000);
      SSM SCI_MARKERSETFORE (AConst SC_MARKNUM_FOLDEREND) (AInt 0xffffff);
      SSM SCI_MARKERSETBACK (AConst SC_MARKNUM_FOLDEREND) (AInt 0x000000);
      SSM SCI_MARKERSETFORE (AConst SC_MARKNUM_FOLDEROPENMID)
        (AInt 0xffffff);
      SSM SCI_MARKERSETBACK (AConst SC_MARKNUM_FOLDEROPENMID)
        (AInt 0x000000);
      SSM SCI_MARKERSETFORE (AConst SC_MARKNUM_FOLDERMIDTAIL)
        (AInt 0xffffff);
      SSM SCI_MARKERSETBACK (AConst SC_MARKNUM_FOLDERMIDTAIL)
        (AInt 0x000000);
      SSM SCI_SETPROPERTY (text "fold") (text "1");
      SSM SCI_SETPROPERTY (text "fold.compact") (text "0");
      SSM SCI_SETPROPERTY (text "fold.comment") (text "1");
      SSM SCI_SETPROPERTY (text "fold.preprocessor") (text "1");
      SSM SCI_SETPROPERTY (text "fold.at.else") (text "1") ]
    ++
    (* bold (3rd argument) is whether to override default foreground
       selection *)
    (if bold (sty GCS_SELECTION)
     then [ SSM SCI_SETSELFORE (AInt 1)
              (inv (foreground (sty GCS_SELECTION))) ]
     else [])
    ++
    (* italic (4th argument) is whether to override default background
       selection *)
    (if italic (sty GCS_SELECTION)
     then [ SSM SCI_SETSELBACK (AInt 1)
              (inv (background (sty GCS_SELECTION))) ]
     else [])
    ++
    [ SSM SCI_SETSTYLEBITS (AInt style_bits) (AInt 0);
      SSM SCI_SETFOLDMARGINCOLOUR (AInt 1)
        (inv (background (sty GCS_MARGIN_FOLDING))) ]
    ++ (Styled <$> linenumber) ++ (Styled <$> bracelight)
    ++ (Styled <$> bracebad) ++ (Styled <$> indentguide)
    ++
    (* bold = common whitespace settings enabled *)
    [ SSM SCI_SETWHITESPACEFORE (AFlag (bold (sty GCS_WHITE_SPACE)))
        (inv (foreground (sty GCS_WHITE_SPACE)));
      SSM SCI_SETWHITESPACEBACK (AFlag (italic (sty GCS_WHITE_SPACE)))
        (inv (background (sty GCS_WHITE_SPACE))) ]).

(** From the rest of Geany: [editor_prefs.symbolcompletion_max_height];
    [app->tm_workspace] followed by its [global_tags], each possibly
    [NULL]; [symbols_find_tags_as_string] applied to a tag array,
    [TM_GLOBAL_TYPE_MASK] and a language, with the text of the [GString]
    it returns, if any; and [filetypes[ft]->lang]. *)
Variable symbolcompletion_max_height : Z.
Variable TagArray : Type.
Variable tm_workspace_global_tags : option (option TagArray).
Variable symbols_find_tags_as_string : TagArray -> Z -> option string.
Variable filetype_lang : Z -> Z.

Definition get_global_typenames (lang : Z) : option string :=
  match tm_workspace_global_tags with
  | Some (Some tags_array) => symbols_find_tags_as_string tags_array lang
  | _ => None
  end.

(* Assign global typedefs and user secondary keywords *)
Definition assign_global_and_user_keywords (user_words : option string)
    (lang : Z) : list widget_call :=
  let s := match get_global_typenames lang with
           | None => EmptyString          (* g_string_sized_new(200) *)
           | Some s => s +:+ " "          (* append a space as delimiter *)
           end in
  (* g_string_append returns at once for NULL *)
  let s := match user_words with
           | Some w => s +:+ w
           | None => s
           end in
  [ SSM SCI_SETKEYWORDS (AInt 1) (AText (Some s)) ].

(* All stylesets except None should call this. *)
Definition apply_filetype_properties (st : state) (lexer : sci_const)
    (ft_id : Z) : result (list widget_call) :=
  ss ← array_get (style_sets st) ft_id;
  mret [ SSM SCI_SETLEXER (AConst lexer) (AInt 0);
         SSM SCI_SETWORDCHARS (AInt 0) (AText (wordchars ss));
         (* have to set whitespace after setting wordchars *)
         SSM SCI_SETWHITESPACECHARS (AInt 0) (AText (whitespace_chars st));
         SSM SCI_AUTOCSETMAXHEIGHT (AInt symbolcompletion_max_height)
           (AInt 0) ].

(** [style_sets[ft].keywords[pos]] and [style_sets[ft].styling[i]],
    read. *)
Definition keyword_at (st : state) (ft pos : Z) : result (option string) :=
  ss ← array_get (style_sets st) ft;
  match keywords ss with
  | None => Fault NullPointer
  | Some kw => array_get kw pos
  end.

Definition styling_at (st : state) (ft i : Z) : result HighlightingStyle :=
  ss ← array_get (style_sets st) ft;
  match styling ss with
  | None => Fault NullPointer
  | Some a => array_get a i
  end.

Definition styleset_c (st : state) : result (list widget_call) :=
  let ft_id := GEANY_FILETYPES_C in
  let text := fun s : string => AText (Some s) in
  common ← styleset_common st 5 ft_id;
  properties ← apply_filetype_properties st SCLEX_CPP ft_id;
  k0 ← keyword_at st GEANY_FILETYPES_C 0;
  k2 ← keyword_at st GEANY_FILETYPES_C 2;
  (* assign global types, merge them with user defined keywords and set
     them *)
  k1 ← keyword_at st GEANY_FILETYPES_C 1;
  styles ← styleset_c_like st GEANY_FILETYPES_C;
  s20 ← styling_at st GEANY_FILETYPES_C 20;
  mret (common ++ properties
        ++ [ SSM SCI_SETKEYWORDS (AInt 0) (AText k0);
             SSM SCI_SETKEYWORDS (AInt 2) (AText k2) ]
        ++ assign_global_and_user_keywords k1 (filetype_lang ft_id)
        ++ (Styled <$> styles)
        ++ (if decide (foreground s20 = 1)
            then [ SSM SCI_SETPROPERTY (text "styling.within.preprocessor")
                     (text "1") ]
            else [])
        ++ [ SSM SCI_SETPROPERTY
               (text "preprocessor.symbol.$(file.patterns.cpp)") (text "#");
             SSM SCI_SETPROPERTY
               (text "preprocessor.start.$(file.patterns.cpp)")
               (text "if ifdef ifndef");
             SSM SCI_SETPROPERTY
               (text "preprocessor.middle.$(file.patterns.cpp)")
               (text "else elif");
             SSM SCI_SETPROPERTY
               (text "preprocessor.end.$(file.patterns.cpp)")
               (text "endif") ]).

Definition styleset_none (st : state) : result (list widget_call) :=
  let ft_id := GEANY_FILETYPES_NONE in
  default_style ← set_sci_style st (style_number STYLE_DEFAULT)
                    GEANY_FILETYPES_NONE (GCS_index GCS_DEFAULT);
  common ← styleset_common st 5 ft_id;
  mret ([ SSM SCI_SETLEXER (AConst SCLEX_NULL) (AInt 0) ]
        ++ (Styled <$> default_style) ++ common
        ++ [ SSM SCI_SETWORDCHARS (AInt 0)
               (AText (common_wordchars (common_style_set st)));
             SSM SCI_SETWHITESPACECHARS (AInt 0)
               (AText (whitespace_chars st)) ]).

(** The four messages [set_sci_style] sends for a record [s]. *)
Definition forwarded (st : state) (style : Z) (s : HighlightingStyle)
  : list sci_call :=
  [ SCI_STYLESETFORE style (invert st (to_guint (foreground s)));
    SCI_STYLESETBACK style (invert st (to_guint (background s)));
    SCI_STYLESETBOLD style (bold s);
    SCI_STYLESETITALIC style (italic s) ].

(** ** Vocabulary of the further statements *)

(** Every list configured under [styling] is long enough for the reads
    made on it: one string for a key of [int_keys] (read with
    [get_keyfile_int]), three for any other key. *)
Definition styling_lists_long_enough (int_keys : list string)
    (config configh : GKeyFile) : Prop :=
  forall key l,
    g_key_file_get_string_list (configh ∪ config) "styling" key = Some l ->
    (1 <= length l)%nat /\ (key ∉ int_keys -> (3 <= length l)%nat).

(** [st'] differs from [st] at most in the style set of index [ft]. *)
Definition only_style_set_changed (ft : Z) (st st' : state) : Prop :=
  whitespace_chars st' = whitespace_chars st /\
  common_style_set st' = common_style_set st /\
  common_style_set_valid st' = common_style_set_valid st /\
  length (style_sets st') = length (style_sets st) /\
  forall j, j <> Z.to_nat ft -> style_sets st' !! j = style_sets st !! j.

(** [st] with [ss] as its style set of index [ft]. *)
Definition with_style_set (ft : Z) (ss : StyleSet) (st : state) : state :=
  set_style_sets (<[Z.to_nat ft := ss]> (style_sets st)) st.

(** ** Values for examples *)

(** The values of the macros in [Scintilla.h] and [SciLexer.h]. *)
Definition scintilla_style_number (n : style_name) : Z :=
  match n with
  | STYLE_DEFAULT => 32 | STYLE_LINENUMBER => 33 | STYLE_BRACELIGHT => 34
  | STYLE_BRACEBAD => 35 | STYLE_INDENTGUIDE => 37
  | SCE_C_DEFAULT => 0 | SCE_C_COMMENT => 1 | SCE_C_COMMENTLINE => 2
  | SCE_C_COMMENTDOC => 3 | SCE_C_NUMBER => 4 | SCE_C_WORD => 5
  | SCE_C_STRING => 6 | SCE_C_CHARACTER => 7 | SCE_C_UUID => 8
  | SCE_C_PREPROCESSOR => 9 | SCE_C_OPERATOR => 10
  | SCE_C_IDENTIFIER => 11 | SCE_C_STRINGEOL => 12 | SCE_C_VERBATIM => 13
  | SCE_C_REGEX => 14 | SCE_C_COMMENTLINEDOC => 15 | SCE_C_WORD2 => 16
  | SCE_C_COMMENTDOCKEYWORD => 17 | SCE_C_COMMENTDOCKEYWORDERROR => 18
  | SCE_C_GLOBALCLASS => 19
  end.

(** A system and a user file for C, and a user [filetypes.common] that
    sets the fold line. *)
Definition sample_c_system_file : GKeyFile :=
  {[ ("styling", "comment") := "8421504;16777215;false;false";
     ("styling", "styling_within_preprocessor") := "1;0;false;false";
     ("keywords", "primary") := "if else";
     ("settings", "wordchars") := "_abc" ]}.

Definition sample_c_user_file : GKeyFile :=
  {[ ("styling", "comment") := "208;16777215;true;false";
     ("keywords", "docComment") := "TODO" ]}.

Definition sample_fold_file : GKeyFile :=
  {[ ("styling", "folding_horiz_line") := "9" ]}.

(** A state whose style set 1 has an array of [n] zeroed records. *)
Definition sample_with_styling (n : nat) : state :=
  with_style_set 1 (mkStyleSet (Some (replicate n zero_style)) None None)
    (mkState None (replicate 2 (mkStyleSet None None None))
       (mkCommon (fun _ => zero_style) (mkFolding 0 0 0) 0 None) false).

(** * Properties *)

(** ** Bit-level facts about [Z] *)

Lemma sub_from_ones (k x : Z) :
  0 <= k -> 0 <= x < 2 ^ k -> 2 ^ k - 1 - x = Z.land (Z.lnot x) (Z.ones k).
Proof.
  intros Hk Hx. rewrite Z.land_ones by lia. unfold Z.lnot.
  apply Z.mod_unique with (q := -1); lia.
Qed.

Lemma testbit_high (k x n : Z) :
  0 <= x < 2 ^ k -> k <= n -> Z.testbit x n = false.
Proof.
  intros Hx Hn. destruct (Z.eq_dec x 0) as [->|Hne].
  - apply Z.bits_0.
  - apply Z.bits_above_log2; [lia|].
    assert (Z.log2 x < k); [|lia].
    destruct (Z_lt_le_dec k 0).
    + rewrite Z.pow_neg_r in Hx; lia.
    + apply Z.log2_lt_pow2; lia.
Qed.

Lemma shiftr_bound (x k n : Z) :
  0 <= n <= k -> 0 <= x < 2 ^ k -> 0 <= Z.shiftr x n < 2 ^ k.
Proof.
  intros Hn Hx. rewrite Z.shiftr_div_pow2 by lia.
  assert (0 < 2 ^ n) by (apply Z.pow_pos_nonneg; lia).
  split; [apply Z.div_pos; lia|].
  apply Z.div_lt_upper_bound; [lia|]. nia.
Qed.

(** Push [Z.testbit] through the bit operations; every side condition is
    tried at the occurrence it belongs to. *)
Ltac bitblast :=
  repeat first
    [ rewrite Z.lor_spec
    | rewrite Z.land_spec
    | rewrite Z.testbit_mod_pow2 by lia
    | rewrite Z.testbit_ones by lia
    | match goal with
      | |- context [Z.testbit ?a ?i] => rewrite (Z.testbit_neg_r a i) by lia
      | |- context [Z.testbit (Z.lnot ?a) ?i] =>
          rewrite (Z.lnot_spec a i) by lia
      | |- context [Z.testbit (Z.shiftl ?a ?k) ?i] =>
          rewrite (Z.shiftl_spec a k i) by lia
      | |- context [Z.testbit (Z.shiftr ?a ?k) ?i] =>
          rewrite (Z.shiftr_spec a k i) by lia
      | |- context [?a <? ?b] => rewrite (proj2 (Z.ltb_lt a b)) by lia
      | |- context [?a <? ?b] => rewrite (proj2 (Z.ltb_ge a b)) by lia
      | |- context [?a <=? ?b] => rewrite (proj2 (Z.leb_le a b)) by lia
      | |- context [?a <=? ?b] => rewrite (proj2 (Z.leb_gt a b)) by lia
      end ].

Lemma to_gint_small (z : Z) : - 2 ^ 31 <= z < 2 ^ 31 -> to_gint z = z.
Proof. intros Hz. unfold to_gint. rewrite Z.mod_small; lia. Qed.

Lemma to_guint_small (z : Z) : 0 <= z < 2 ^ 32 -> to_guint z = z.
Proof. intros Hz. unfold to_guint. rewrite Z.mod_small; lia. Qed.

(** ** [invert] *)

Lemma invert_off (st : state) (c : Z) :
  invert_all (common_style_set st) = 0 -> invert st c = c.
Proof. intros H. unfold invert. rewrite H. reflexivity. Qed.

(** On a 24-bit colour the three terms of [invert] overlap: bits 0 to 23
    of the result are the complement of the argument's, bits 24 to 31 are
    all set. *)
Lemma invert_on (st : state) (c : Z) :
  invert_all (common_style_set st) <> 0 -> 0 <= c <= 0xffffff ->
  invert st c = 0xffffffff - c.
Proof.
  intros Hinv Hc. unfold invert. destruct (decide _) as [_|]; [|done].
  assert (Hc' : 0 <= c < 2 ^ 24) by lia.
  pose proof (shiftr_bound c 24 8 ltac:(lia) Hc') as H8.
  pose proof (shiftr_bound c 24 16 ltac:(lia) Hc') as H16.
  change (0xffffffff - c) with (2 ^ 32 - 1 - c).
  rewrite (sub_from_ones 32 c) by lia.
  change 0xffffff with (2 ^ 24 - 1).
  rewrite !(sub_from_ones 24) by lia.
  unfold to_guint.
  apply Z.bits_inj'. intros n Hn.
  assert (Hcases : n < 8 \/ 8 <= n < 16 \/ 16 <= n < 24 \/
                   24 <= n < 32 \/ 32 <= n) by lia.
  destruct Hcases as [H|[H|[H|[H|H]]]]; bitblast;
    rewrite ?(testbit_high 24 c) by lia;
    repeat match goal with |- context [Z.testbit c ?i] =>
      progress replace i with n by lia end;
    simpl; try reflexivity; destruct (Z.testbit c n); reflexivity.
Qed.

(** C2 (as amended).  With [invert_all] false [invert] is the identity.
    With [invert_all] true and a 24-bit colour [c], the low 24 bits of
    [invert c] are [0xffffff - c], each of the three channels being 0xff
    minus that channel of [c], and the top byte of the 32-bit result is
    0xff: [invert c = 0xff000000 + (0xffffff - c)]. *)
Theorem invert_negates_low_24_bits (st : state) (c : Z) :
  (invert_all (common_style_set st) = 0 -> invert st c = c) /\
  (invert_all (common_style_set st) <> 0 -> 0 <= c <= 0xffffff ->
     invert st c = 0xff000000 + (0xffffff - c) /\
     invert st c mod 2 ^ 24 = 0xffffff - c /\
     invert st c mod 256 = 0xff - c mod 256 /\
     invert st c / 256 mod 256 = 0xff - c / 256 mod 256 /\
     invert st c / 65536 mod 256 = 0xff - c / 65536 mod 256 /\
     invert st c / 2 ^ 24 = 0xff).
Proof using Type.
  clear. split; [apply invert_off|].
  intros Hinv Hc. rewrite (invert_on st c Hinv Hc).
  change (2 ^ 24) with 16777216.
  repeat split; Z.div_mod_to_equations; lia.
Qed.

(** ** [rotate_rgb] *)

Lemma land_byte0 (c : Z) : Z.land c 0x0000FF = c mod 256.
Proof.
  change 0x0000FF with (Z.ones 8). rewrite Z.land_ones by lia. reflexivity.
Qed.

Lemma land_byte1 (c : Z) : Z.land c 0x00FF00 = (c / 256 mod 256) * 256.
Proof.
  change 256 with (2 ^ 8).
  rewrite <- Z.shiftr_div_pow2, <- Z.land_ones, <- Z.shiftl_mul_pow2 by lia.
  change 0x00FF00 with (Z.shiftl (Z.ones 8) 8).
  apply Z.bits_inj'. intros n Hn.
  destruct (Z_lt_le_dec n 8); bitblast; simpl; rewrite ?andb_false_r;
    try reflexivity.
  replace (n - 8 + 8) with n by lia. reflexivity.
Qed.

Lemma land_byte2 (c : Z) :
  Z.shiftr (Z.land c 0xFF0000) 16 = c / 65536 mod 256.
Proof.
  rewrite Z.shiftr_land. change (Z.shiftr 0xFF0000 16) with (Z.ones 8).
  rewrite Z.land_ones, Z.shiftr_div_pow2 by lia. reflexivity.
Qed.

(** None of the additions of [rotate_rgb] overflows. *)
Lemma rotate_rgb_channels (c : Z) :
  rotate_rgb c =
  (c mod 256) * 65536 + (c / 256 mod 256) * 256 + c / 65536 mod 256.
Proof.
  unfold rotate_rgb. rewrite land_byte0, land_byte1, land_byte2.
  rewrite Z.shiftl_mul_pow2 by lia. change (2 ^ 16) with 65536.
  pose proof (Z.mod_pos_bound c 256 ltac:(lia)).
  pose proof (Z.mod_pos_bound (c / 256) 256 ltac:(lia)).
  pose proof (Z.mod_pos_bound (c / 65536) 256 ltac:(lia)).
  rewrite (to_gint_small (_ * 65536)) by lia.
  rewrite (to_gint_small (_ + _ * 256)) by lia.
  rewrite to_gint_small by lia. lia.
Qed.

Lemma rotate_rgb_bytes (r g b : Z) :
  0 <= r < 256 -> 0 <= g < 256 -> 0 <= b < 256 ->
  rotate_rgb (r * 65536 + g * 256 + b) = b * 65536 + g * 256 + r.
Proof.
  intros Hr Hg Hb. rewrite rotate_rgb_channels.
  assert (H0 : (r * 65536 + g * 256 + b) mod 256 = b).
  { replace (r * 65536 + g * 256 + b) with (b + (r * 256 + g) * 256) by lia.
    rewrite Z.mod_add by lia. apply Z.mod_small; lia. }
  assert (H1 : (r * 65536 + g * 256 + b) / 256 = r * 256 + g).
  { replace (r * 65536 + g * 256 + b) with (b + (r * 256 + g) * 256) by lia.
    rewrite Z.div_add by lia. rewrite Z.div_small; lia. }
  assert (H2 : (r * 65536 + g * 256 + b) / 65536 = r).
  { replace (r * 65536 + g * 256 + b) with ((g * 256 + b) + r * 65536)
      by lia.
    rewrite Z.div_add by lia. rewrite Z.div_small; lia. }
  rewrite H0, H1, H2.
  replace (r * 256 + g) with (g + r * 256) by lia.
  rewrite Z.mod_add by lia. rewrite !Z.mod_small by lia. reflexivity.
Qed.

(** C3.  On a 24-bit colour [c] = 0xRRGGBB, [rotate_rgb c] is 0xBBGGRR:
    blue [c mod 256] moves to bits 16-23, green stays in bits 8-15 and
    red [c / 65536] moves to bits 0-7; and [rotate_rgb] is an involution
    on [0, 0xffffff]. *)
Theorem rotate_rgb_swaps_red_and_blue (c : Z) :
  0 <= c <= 0xffffff ->
  rotate_rgb c = (c mod 256) * 65536 + (c / 256 mod 256) * 256 + c / 65536 /\
  0 <= rotate_rgb c <= 0xffffff /\
  rotate_rgb (rotate_rgb c) = c.
Proof.
  intros Hc.
  assert (Hr : 0 <= c / 65536 < 256).
  { split; [apply Z.div_pos; lia | apply Z.div_lt_upper_bound; lia]. }
  assert (Hg : 0 <= c / 256 mod 256 < 256) by (apply Z.mod_pos_bound; lia).
  assert (Hb : 0 <= c mod 256 < 256) by (apply Z.mod_pos_bound; lia).
  assert (Hdec : c = c / 65536 * 65536 + (c / 256 mod 256) * 256 + c mod 256).
  { pose proof (Z.div_mod c 256 ltac:(lia)).
    pose proof (Z.div_mod (c / 256) 256 ltac:(lia)).
    rewrite Z.div_div in * by lia. change (256 * 256) with 65536 in *. lia. }
  assert (Hrot : rotate_rgb c =
                 (c mod 256) * 65536 + (c / 256 mod 256) * 256 + c / 65536).
  { rewrite rotate_rgb_channels.
    rewrite (Z.mod_small (c / 65536)) by lia. reflexivity. }
  split; [exact Hrot|]. split; [lia|].
  rewrite Hdec at 1. rewrite rotate_rgb_bytes by assumption.
  rewrite rotate_rgb_bytes by assumption. lia.
Qed.

(** ** The layered lookups *)

Lemma merged_lookup (config configh : GKeyFile) (k : string * string) :
  (configh ∪ config) !! k =
  match configh !! k with
  | Some v => Some v
  | None => config !! k
  end.
Proof. rewrite lookup_union. destruct (configh !! k), (config !! k); done. Qed.

Lemma get_string_list_empty (group key : string) :
  g_key_file_get_string_list ∅ group key = None.
Proof. unfold g_key_file_get_string_list. rewrite lookup_empty. done. Qed.

(** The list a styling lookup works on is that of the merged file. *)
Lemma layered_string_list (config configh : GKeyFile) (group key : string) :
  match g_key_file_get_string_list configh group key with
  | None => g_key_file_get_string_list config group key
  | Some _ => g_key_file_get_string_list configh group key
  end = g_key_file_get_string_list (configh ∪ config) group key.
Proof.
  unfold g_key_file_get_string_list. rewrite merged_lookup.
  destruct (configh !! (group, key)); reflexivity.
Qed.

(** The assignment [style_sets[index].keywords[pos] = v], when the slot
    exists: that slot is replaced and the rest of the state is kept. *)
Lemma set_keyword_in_bounds (index pos : Z) (v : option string) (st : state)
    (ss : StyleSet) (kw : list (option string)) :
  0 <= index -> style_sets st !! Z.to_nat index = Some ss ->
  keywords ss = Some kw -> 0 <= pos < Z.of_nat (length kw) ->
  set_keyword index pos v st =
  Ok (mkState (whitespace_chars st)
        (<[Z.to_nat index :=
             mkStyleSet (styling ss) (Some (<[Z.to_nat pos := v]> kw))
               (wordchars ss)]> (style_sets st))
        (common_style_set st) (common_style_set_valid st)).
Proof.
  intros Hi Hss Hkw Hpos. unfold set_keyword, array_get.
  destruct (decide (0 <= index)); [|lia]. rewrite Hss. simpl. rewrite Hkw.
  unfold array_set. destruct (decide (0 <= pos < _)); [|lia]. simpl.
  apply lookup_lt_Some in Hss.
  destruct (decide (0 <= index < _)); [|lia]. reflexivity.
Qed.

(** C4.  When a key file pointer is [NULL] or the key is absent from both
    files, [get_keyfile_keywords] does the one assignment of (the copy
    of) its default and nothing else, [get_keyfile_wordchars] stores
    [GEANY_WORDCHARS] and [get_keyfile_whitespace_chars] returns
    [GEANY_WHITESPACE_CHARS]. *)
Theorem missing_value_gives_default (config configh : option GKeyFile) :
  (forall section key index pos dflt st,
     no_value config configh section key ->
     get_keyfile_keywords config configh (Some section) key index pos dflt st
     = set_keyword index pos dflt st /\
     forall ss kw,
       0 <= index -> style_sets st !! Z.to_nat index = Some ss ->
       keywords ss = Some kw -> 0 <= pos < Z.of_nat (length kw) ->
       get_keyfile_keywords config configh (Some section) key index pos dflt
         st =
       Ok (mkState (whitespace_chars st)
             (<[Z.to_nat index :=
                  mkStyleSet (styling ss)
                    (Some (<[Z.to_nat pos := dflt]> kw)) (wordchars ss)]>
                (style_sets st))
             (common_style_set st) (common_style_set_valid st))) /\
  (no_value config configh "settings" "wordchars" ->
   get_keyfile_wordchars config configh = Some GEANY_WORDCHARS) /\
  (no_value config configh "settings" "whitespace_chars" ->
   get_keyfile_whitespace_chars config configh = Some GEANY_WHITESPACE_CHARS).
Proof.
  split; [|split].
  - intros section key index pos dflt st Hno.
    assert (Heq : get_keyfile_keywords config configh (Some section) key
                    index pos dflt st = set_keyword index pos dflt st).
    { unfold get_keyfile_keywords, g_key_file_get_string, g_strdup.
      destruct config as [c|], configh as [h|]; try reflexivity.
      destruct Hno as [Hh Hc]. rewrite Hh, Hc. reflexivity. }
    split; [exact Heq|].
    intros ss kw Hi Hss Hkw Hpos. rewrite Heq.
    by apply set_keyword_in_bounds.
  - intros Hno. unfold get_keyfile_wordchars, g_key_file_get_string, g_strdup.
    destruct config as [c|], configh as [h|]; try reflexivity.
    destruct Hno as [Hh Hc]. rewrite Hh, Hc. reflexivity.
  - intros Hno.
    unfold get_keyfile_whitespace_chars, g_key_file_get_string, g_strdup.
    destruct config as [c|], configh as [h|]; try reflexivity.
    destruct Hno as [Hh Hc]. rewrite Hh, Hc. reflexivity.
Qed.

(** ** [set_sci_style] *)

(** C5 (as amended).  [set_sci_style] sends exactly four messages for the
    given style number: foreground, background, bold, italic, in this
    order.  The two flags of the addressed record are passed as they are;
    the two colours are passed through [invert] as unsigned values: as
    they are when [invert_all] is false, negated when it is true. *)
Theorem set_sci_style_sends_inverted_colours (st : state)
    (style ft styling_index : Z) (s : HighlightingStyle) :
  styling_record st ft styling_index s ->
  set_sci_style st style ft styling_index =
    Ok [ SCI_STYLESETFORE style (invert st (to_guint (foreground s)));
         SCI_STYLESETBACK style (invert st (to_guint (background s)));
         SCI_STYLESETBOLD style (bold s);
         SCI_STYLESETITALIC style (italic s) ] /\
  (invert_all (common_style_set st) = 0 ->
   0 <= foreground s < 2 ^ 32 -> 0 <= background s < 2 ^ 32 ->
   set_sci_style st style ft styling_index =
     Ok [ SCI_STYLESETFORE style (foreground s);
          SCI_STYLESETBACK style (background s);
          SCI_STYLESETBOLD style (bold s);
          SCI_STYLESETITALIC style (italic s) ]).
Proof.
  intros Hrec.
  assert (Hcalls : set_sci_style st style ft styling_index =
    Ok [ SCI_STYLESETFORE style (invert st (to_guint (foreground s)));
         SCI_STYLESETBACK style (invert st (to_guint (background s)));
         SCI_STYLESETBOLD style (bold s);
         SCI_STYLESETITALIC style (italic s) ]).
  { unfold set_sci_style. unfold styling_record in Hrec.
    destruct (decide (ft = GEANY_FILETYPES_NONE)).
    - destruct Hrec as (i & Hi & <-). rewrite Hi. reflexivity.
    - destruct Hrec as (ss & a & Hft & Hss & Ha & Hidx & Hs).
      unfold array_get. destruct (decide (0 <= ft)); [|lia].
      rewrite Hss. simpl. rewrite Ha.
      destruct (decide (0 <= styling_index)); [|lia].
      rewrite Hs. reflexivity. }
  split; [exact Hcalls|].
  intros Hoff Hfg Hbg. rewrite Hcalls.
  rewrite !invert_off, !to_guint_small by assumption. reflexivity.
Qed.

(** ** Reads of a string list *)

Lemma strv_index_lt (l : list string) (i : nat) (s : string) :
  l !! i = Some s -> strv_index l i = Ok (Some s).
Proof. intros H. unfold strv_index. rewrite H. reflexivity. Qed.

Lemma strv_index_terminator (l : list string) :
  strv_index l (length l) = Ok None.
Proof.
  unfold strv_index. rewrite lookup_ge_None_2 by lia.
  destruct (decide _); [reflexivity | contradiction].
Qed.

Lemma strv_index_beyond (l : list string) (i : nat) :
  (length l < i)%nat -> strv_index l i = Fault (OutOfBounds (Z.of_nat i)).
Proof.
  intros H. unfold strv_index. rewrite lookup_ge_None_2 by lia.
  destruct (decide _); [lia | reflexivity].
Qed.

(** ** [get_keyfile_int] *)

(** A key absent from both files leaves the two defaults. *)
Lemma get_keyfile_int_absent (config configh : GKeyFile)
    (section key : string) (fd sd : Z) (end1 end2 : cptr)
    (style : HighlightingStyle) :
  (configh ∪ config) !! (section, key) = None ->
  get_keyfile_int (Some config) (Some configh) (Some section) key fd sd
    end1 end2 style = Ok (mkStyle fd sd (bold style) (italic style)).
Proof.
  intros Hnone. unfold get_keyfile_int. cbv zeta.
  rewrite layered_string_list. unfold g_key_file_get_string_list.
  rewrite Hnone. reflexivity.
Qed.

(** With a first element present the reads of [list[0]] and [list[1]] are
    within the vector.  Each field ends as the value [strtol] converted,
    stored in a [gint], when [strtol] consumed at least one character of
    the element, and as the default when the element is missing or
    nothing was converted, whatever the locals [end1] and [end2] held on
    entry. *)
Lemma get_keyfile_int_present (config configh : GKeyFile)
    (section key : string) (fd sd : Z) (end1 end2 : cptr)
    (style : HighlightingStyle) (s0 : string) (rest : list string) :
  g_key_file_get_string_list (configh ∪ config) section key
    = Some (s0 :: rest) ->
  get_keyfile_int (Some config) (Some configh) (Some section) key fd sd
    end1 end2 style =
  Ok (mkStyle
        (if decide (snd (strtol s0) = O) then fd
         else to_gint (fst (strtol s0)))
        (match rest with
         | [] => sd
         | s1 :: _ => if decide (snd (strtol s1) = O) then sd
                      else to_gint (fst (strtol s1))
         end)
        (bold style) (italic style)).
Proof.
  intros Hl. unfold get_keyfile_int. cbv zeta.
  rewrite layered_string_list, Hl. simpl.
  destruct (strtol s0) as [v0 n0] eqn:E0. simpl.
  destruct rest as [|s1 rest]; simpl.
  - destruct (decide (NULL = end2)), (decide (InElem 0 0 = InElem 0 n0)),
      (decide (n0 = O)); try reflexivity; congruence.
  - destruct (strtol s1) as [v1 n1] eqn:E1. simpl.
    destruct (decide (InElem 0 0 = InElem 0 n0)), (decide (n0 = O)),
      (decide (InElem 1 0 = InElem 1 n1)), (decide (n1 = O));
      try reflexivity; congruence.
Qed.

(** C6, at the input on which the code departs from it: a key whose value
    is empty is read as the empty list, [list[0]] is then the terminator,
    and the second test reads [list[1]], outside the vector, where the
    claim has both fields end as the defaults. *)
Theorem get_keyfile_int_empty_value_reads_out_of_bounds
    (config configh : GKeyFile) (section key : string) (fd sd : Z)
    (end1 end2 : cptr) (style : HighlightingStyle) :
  get_keyfile_int (Some config)
    (Some (<[(section, key) := EmptyString]> configh)) (Some section) key
    fd sd end1 end2 style = Fault (OutOfBounds 1).
Proof.
  unfold get_keyfile_int, g_key_file_get_string_list.
  rewrite lookup_insert_eq. reflexivity.
Qed.

(** ** [get_keyfile_style] and [get_keyfile_hex] *)

Lemma get_keyfile_style_absent (config configh : GKeyFile) (key : string)
    (d s : HighlightingStyle) :
  (configh ∪ config) !! ("styling", key) = None ->
  get_keyfile_style (Some config) (Some configh) (Some key) (Some d) (Some s)
  = Ok (Some (mkStyle (rotate_rgb (foreground d)) (rotate_rgb (background d))
                      (bold d) (italic d))).
Proof.
  intros Hnone. unfold get_keyfile_style. cbv zeta.
  rewrite layered_string_list. unfold g_key_file_get_string_list.
  rewrite Hnone. reflexivity.
Qed.

(** With three elements or more the four reads stay within the vector:
    the fields are parsed from the elements, italic from the fourth when
    there is one. *)
Lemma get_keyfile_style_three_or_more (config configh : GKeyFile)
    (key : string) (d s : HighlightingStyle) (s0 s1 s2 : string)
    (rest : list string) :
  g_key_file_get_string_list (configh ∪ config) "styling" key
    = Some (s0 :: s1 :: s2 :: rest) ->
  get_keyfile_style (Some config) (Some configh) (Some key) (Some d) (Some s)
  = Ok (Some (mkStyle (utils_strtod s0) (utils_strtod s1)
                      (utils_atob (Some s2))
                      (match rest with
                       | [] => italic d
                       | s3 :: _ => utils_atob (Some s3)
                       end))).
Proof.
  intros Hl. unfold get_keyfile_style. cbv zeta.
  rewrite layered_string_list, Hl. destruct rest; reflexivity.
Qed.

(** C7, at an input on which the code departs from it: for a style
    configured with the single element [0xff0000] the claim has
    background, bold and italic taken from the default style; the code
    finds the terminator in [list[1]] and then reads [list[2]], outside
    the vector. *)
Theorem get_keyfile_style_one_element_reads_out_of_bounds
    (config configh : GKeyFile) (key : string) (d s : HighlightingStyle) :
  get_keyfile_style (Some config)
    (Some (<[("styling", key) := "0xff0000"]> configh)) (Some key) (Some d)
    (Some s) = Fault (OutOfBounds 2).
Proof.
  unfold get_keyfile_style, g_key_file_get_string_list.
  rewrite lookup_insert_eq. reflexivity.
Qed.

(** C9, where the code departs from it: whenever the list found for a key
    has fewer than three strings, [get_keyfile_style] and
    [get_keyfile_hex] read the cell after the terminating [NULL]: the
    terminator is at index [length l], the read at [length l + 1]. *)
Theorem short_list_is_read_past_its_terminator (config configh : GKeyFile)
    (key : string) (l : list string) :
  g_key_file_get_string_list (configh ∪ config) "styling" key = Some l ->
  (length l < 3)%nat ->
  (forall d s,
     get_keyfile_style (Some config) (Some configh) (Some key) (Some d)
       (Some s) = Fault (OutOfBounds (Z.of_nat (length l) + 1))) /\
  (forall fore back bold_default style,
     get_keyfile_hex (Some config) (Some configh) (Some "styling") key
       fore back bold_default style
     = Fault (OutOfBounds (Z.of_nat (length l) + 1))).
Proof.
  intros Hl Hlen. split.
  - intros d s. unfold get_keyfile_style. cbv zeta.
    rewrite layered_string_list, Hl.
    destruct l as [|a [|b [|c l]]]; simpl in *;
      [reflexivity | reflexivity | reflexivity | lia].
  - intros fore back bold_default style. unfold get_keyfile_hex. cbv zeta.
    rewrite layered_string_list, Hl.
    destruct l as [|a [|b [|c l]]]; simpl in *;
      [reflexivity | reflexivity | reflexivity | lia].
Qed.

(** The reads of both functions stay at or before the terminator exactly
    when the key is absent or its list has three strings or more. *)
Lemma get_keyfile_hex_absent (config configh : GKeyFile)
    (section key : string) (fore back bold_default : option string)
    (style : HighlightingStyle) :
  (configh ∪ config) !! (section, key) = None ->
  get_keyfile_hex (Some config) (Some configh) (Some section) key
    fore back bold_default style =
  Ok (mkStyle (from_option utils_strtod (foreground style) fore)
              (from_option utils_strtod (background style) back)
              (utils_atob bold_default) false).
Proof.
  intros Hnone. unfold get_keyfile_hex. cbv zeta.
  rewrite layered_string_list. unfold g_key_file_get_string_list.
  rewrite Hnone. simpl. destruct fore, back; reflexivity.
Qed.

Lemma get_keyfile_hex_three_or_more (config configh : GKeyFile)
    (section key : string) (fore back bold_default : option string)
    (style : HighlightingStyle) (s0 s1 s2 : string) (rest : list string) :
  g_key_file_get_string_list (configh ∪ config) section key
    = Some (s0 :: s1 :: s2 :: rest) ->
  get_keyfile_hex (Some config) (Some configh) (Some section) key
    fore back bold_default style =
  Ok (mkStyle (utils_strtod s0) (utils_strtod s1) (utils_atob (Some s2))
              (match rest with
               | [] => false
               | s3 :: _ => utils_atob (Some s3)
               end)).
Proof.
  intros Hl. unfold get_keyfile_hex. cbv zeta.
  rewrite layered_string_list, Hl. destruct rest; reflexivity.
Qed.

(** ** [highlighting_get_style] *)

(** The part of C8 that holds: outside the checked range the function
    returns [NULL] and leaves the state alone, and up to
    [GEANY_MAX_BUILT_IN_FILETYPES - 2] the access is inside the array. *)
Lemma highlighting_get_style_rejects (st : state) (ft_id style_id : Z) :
  ft_id < 0 \/ ft_id > GEANY_MAX_BUILT_IN_FILETYPES ->
  highlighting_get_style st ft_id style_id = Ok (st, None).
Proof.
  intros H. unfold highlighting_get_style.
  destruct (decide _); [reflexivity | contradiction].
Qed.

Lemma highlighting_get_style_in_bounds (st : state) (ft_id style_id : Z) :
  style_sets_declared st ->
  0 <= ft_id < GEANY_MAX_BUILT_IN_FILETYPES - 1 ->
  exists st', highlighting_get_style st ft_id style_id
              = Ok (st', Some (ft_id, style_id)).
Proof.
  unfold style_sets_declared. intros Hdecl Hft.
  unfold highlighting_get_style. destruct (decide _); [lia|].
  unfold array_get. destruct (decide (0 <= ft_id)); [|lia].
  destruct (lookup_lt_is_Some_2 (style_sets st) (Z.to_nat ft_id)) as [ss Hss];
    [lia|].
  rewrite Hss. simpl. eauto.
Qed.

(** C8, where the code departs from it: the two largest indices the range
    check lets through, [GEANY_MAX_BUILT_IN_FILETYPES - 1] and
    [GEANY_MAX_BUILT_IN_FILETYPES], are outside [style_sets], which has
    [GEANY_MAX_BUILT_IN_FILETYPES - 1] elements. *)
Theorem highlighting_get_style_check_is_too_wide (st : state)
    (ft_id style_id : Z) :
  style_sets_declared st ->
  0 <= ft_id ->
  ft_id = GEANY_MAX_BUILT_IN_FILETYPES - 1 \/
  ft_id = GEANY_MAX_BUILT_IN_FILETYPES ->
  ~ (ft_id < 0 \/ ft_id > GEANY_MAX_BUILT_IN_FILETYPES) /\
  highlighting_get_style st ft_id style_id = Fault (OutOfBounds ft_id).
Proof.
  unfold style_sets_declared. intros Hdecl Hpos Hft.
  split; [lia|].
  unfold highlighting_get_style. destruct (decide _); [lia|].
  unfold array_get. destruct (decide (0 <= ft_id)); [|lia].
  rewrite lookup_ge_None_2 by lia. reflexivity.
Qed.

(** ** Precedence of the user key file *)

(** C1.  Every lookup made with both key files present works on the value
    of the merged file [configh ∪ config], in which an entry of the user
    file [configh] hides the entry of the system file [config] with the
    same key: the system file decides only where the user file has no
    value.  Keyword lists, word characters and whitespace characters are
    that value, and the hard-coded default only when the merged file has
    none.  A style entry read with [get_keyfile_style] or
    [get_keyfile_hex] is the default when the merged file has no value;
    from a list of three elements or more it takes foreground, background
    and bold from the list, and italic from the fourth element or, when
    the list stops after three, from the default.  An integer pair read
    with [get_keyfile_int] takes each integer from its element of the
    list found, and the default for an element that is missing or has no
    digits. *)
Theorem user_keyfile_takes_precedence (config configh : GKeyFile) :
  let merged : GKeyFile := configh ∪ config in
  (forall k v, configh !! k = Some v -> merged !! k = Some v) /\
  (forall k, configh !! k = None -> merged !! k = config !! k) /\
  (forall section key index pos dflt st,
     get_keyfile_keywords (Some config) (Some configh) (Some section) key
       index pos dflt st =
     set_keyword index pos
       (match merged !! (section, key) with
        | Some v => Some v
        | None => dflt
        end) st) /\
  get_keyfile_wordchars (Some config) (Some configh) =
    Some (default GEANY_WORDCHARS (merged !! ("settings", "wordchars"))) /\
  get_keyfile_whitespace_chars (Some config) (Some configh) =
    Some (default GEANY_WHITESPACE_CHARS
            (merged !! ("settings", "whitespace_chars"))) /\
  (forall key d s,
     (merged !! ("styling", key) = None ->
      get_keyfile_style (Some config) (Some configh) (Some key) (Some d)
        (Some s) =
      Ok (Some (mkStyle (rotate_rgb (foreground d))
                        (rotate_rgb (background d)) (bold d) (italic d)))) /\
     (forall s0 s1 s2 rest,
        g_key_file_get_string_list merged "styling" key
          = Some (s0 :: s1 :: s2 :: rest) ->
        get_keyfile_style (Some config) (Some configh) (Some key) (Some d)
          (Some s) =
        Ok (Some (mkStyle (utils_strtod s0) (utils_strtod s1)
                          (utils_atob (Some s2))
                          (match rest with
                           | [] => italic d
                           | s3 :: _ => utils_atob (Some s3)
                           end))))) /\
  (forall section key fore back bold_default style,
     (merged !! (section, key) = None ->
      get_keyfile_hex (Some config) (Some configh) (Some section) key
        fore back bold_default style =
      Ok (mkStyle (from_option utils_strtod (foreground style) fore)
                  (from_option utils_strtod (background style) back)
                  (utils_atob bold_default) false)) /\
     (forall s0 s1 s2 rest,
        g_key_file_get_string_list merged section key
          = Some (s0 :: s1 :: s2 :: rest) ->
        get_keyfile_hex (Some config) (Some configh) (Some section) key
          fore back bold_default style =
        Ok (mkStyle (utils_strtod s0) (utils_strtod s1)
                    (utils_atob (Some s2))
                    (match rest with
                     | [] => false
                     | s3 :: _ => utils_atob (Some s3)
                     end)))) /\
  (forall section key fd sd end1 end2 style,
     (merged !! (section, key) = None ->
      get_keyfile_int (Some config) (Some configh) (Some section) key fd sd
        end1 end2 style = Ok (mkStyle fd sd (bold style) (italic style))) /\
     (forall s0 rest,
        g_key_file_get_string_list merged section key = Some (s0 :: rest) ->
        get_keyfile_int (Some config) (Some configh) (Some section) key fd
          sd end1 end2 style =
        Ok (mkStyle
              (if decide (snd (strtol s0) = O) then fd
               else to_gint (fst (strtol s0)))
              (match rest with
               | [] => sd
               | s1 :: _ => if decide (snd (strtol s1) = O) then sd
                            else to_gint (fst (strtol s1))
               end)
              (bold style) (italic style)))).
Proof.
  intros merged. subst merged.
  split; [intros k v H; rewrite merged_lookup, H; reflexivity|].
  split; [intros k H; rewrite merged_lookup, H; reflexivity|].
  split.
  { intros section key index pos dflt st.
    unfold get_keyfile_keywords, g_key_file_get_string, g_strdup.
    rewrite merged_lookup.
    destruct (configh !! (section, key)); [reflexivity|].
    destruct (config !! (section, key)); reflexivity. }
  split.
  { unfold get_keyfile_wordchars, g_key_file_get_string, g_strdup.
    rewrite merged_lookup.
    destruct (configh !! ("settings", "wordchars")); [reflexivity|].
    destruct (config !! ("settings", "wordchars")); reflexivity. }
  split.
  { unfold get_keyfile_whitespace_chars, g_key_file_get_string, g_strdup.
    rewrite merged_lookup.
    destruct (configh !! ("settings", "whitespace_chars")); [reflexivity|].
    destruct (config !! ("settings", "whitespace_chars")); reflexivity. }
  split.
  { intros key d s. split.
    - apply get_keyfile_style_absent.
    - intros s0 s1 s2 rest. apply get_keyfile_style_three_or_more. }
  split.
  { intros section key fore back bold_default style. split.
    - apply get_keyfile_hex_absent.
    - intros s0 s1 s2 rest. apply get_keyfile_hex_three_or_more. }
  intros section key fd sd end1 end2 style. split.
  - apply get_keyfile_int_absent.
  - intros s0 rest. apply get_keyfile_int_present.
Qed.

(** ** [styleset_common_init] *)

Lemma bind_Ok {A B : Type} (m : result A) (k : A -> result B) (b : B) :
  m ≫= k = Ok b -> exists a, m = Ok a /\ k a = Ok b.
Proof. destruct m as [a|f]; simpl; [eauto | discriminate]. Qed.


Lemma completes_bind {A B : Type} (m : result A) (k : A -> result B) :
  (exists a, m = Ok a) -> (forall a, exists b, k a = Ok b) ->
  exists b, m ≫= k = Ok b.
Proof. intros [a ->] Hk. apply Hk. Qed.

Lemma completes_let {A B : Type} (v : A) (f : A -> result B) :
  (forall x, x = v -> exists b, f x = Ok b) ->
  exists b, (let x := v in f x) = Ok b.
Proof. intros H. by apply H. Qed.

(** Without key files nothing is looked up and the call completes. *)
Lemma styleset_common_init_without_keyfiles (ft_id : Z)
    (config config_home : option GKeyFile) (u : uninitialised) (st : state) :
  config = None \/ config_home = None ->
  exists st', styleset_common_init ft_id config config_home u st = Ok st'.
Proof.
  intros Hnull. unfold styleset_common_init.
  destruct (common_style_set_valid st); [eauto|].
  assert (Hhex : forall key f b bo i c,
            exists c', load_common_hex config config_home key f b bo i c
                       = Ok c').
  { intros. unfold load_common_hex, get_keyfile_hex.
    destruct Hnull as [-> | ->]; [|destruct config]; eexists; reflexivity. }
  assert (Hint : forall k key fd sd tmp,
            exists tmp', load_common_int config config_home u k key fd sd tmp
                         = Ok tmp').
  { intros. unfold load_common_int, get_keyfile_int.
    destruct Hnull as [-> | ->]; [|destruct config]; eexists; reflexivity. }
  do 2 (apply completes_let; intros ? ->).
  repeat lazymatch goal with
    | |- exists b, (let x := ?v in _) = Ok b =>
        apply completes_let; intros ? _
    | |- exists b, _ ≫= _ = Ok b =>
        apply completes_bind; [first [apply Hhex | apply Hint] | intros ?]
    end.
  eexists; reflexivity.
Qed.

(** With key files the call completes as soon as the configured lists are
    long enough. *)
Lemma styleset_common_init_completes (ft_id : Z) (config configh : GKeyFile)
    (u : uninitialised) (st : state) :
  common_lists_long_enough config configh ->
  exists st',
    styleset_common_init ft_id (Some config) (Some configh) u st = Ok st'.
Proof.
  intros Hlong. unfold styleset_common_init.
  destruct (common_style_set_valid st); [eauto|].
  assert (Hhex : forall key f b bo i c,
            key ∉ common_int_keys ->
            exists c', load_common_hex (Some config) (Some configh) key f b
                         bo i c = Ok c').
  { intros key f b bo i c Hkey. unfold load_common_hex.
    destruct (g_key_file_get_string_list (configh ∪ config) "styling" key)
      as [l|] eqn:Hl.
    - destruct (Hlong key l Hl) as [_ Hlen]. specialize (Hlen Hkey).
      destruct l as [|s0 [|s1 [|s2 rest]]]; simpl in Hlen; try lia.
      rewrite (get_keyfile_hex_three_or_more _ _ _ _ _ _ _ _ _ _ _ _ Hl).
      eexists; reflexivity.
    - unfold g_key_file_get_string_list in Hl.
      apply fmap_None in Hl.
      rewrite (get_keyfile_hex_absent _ _ _ _ _ _ _ _ Hl).
      eexists; reflexivity. }
  assert (Hint : forall k key fd sd tmp,
            exists tmp', load_common_int (Some config) (Some configh) u k key
                           fd sd tmp = Ok tmp').
  { intros k key fd sd tmp. unfold load_common_int.
    destruct (g_key_file_get_string_list (configh ∪ config) "styling" key)
      as [l|] eqn:Hl.
    - destruct (Hlong key l Hl) as [Hlen _].
      destruct l as [|s0 rest]; simpl in Hlen; try lia.
      rewrite (get_keyfile_int_present _ _ _ _ _ _ _ _ _ _ _ Hl).
      eexists; reflexivity.
    - unfold g_key_file_get_string_list in Hl.
      apply fmap_None in Hl.
      rewrite (get_keyfile_int_absent _ _ _ _ _ _ _ _ _ Hl).
      eexists; reflexivity. }
  do 2 (apply completes_let; intros ? ->).
  repeat lazymatch goal with
    | |- exists b, (let x := ?v in _) = Ok b =>
        apply completes_let; intros ? _
    | |- exists b, _ ≫= _ = Ok b =>
        apply completes_bind;
          [ first [ apply Hint
                  | apply Hhex; apply (bool_decide_unpack _);
                    vm_compute; exact I ]
          | intros ? ]
    end.
  eexists; reflexivity.
Qed.



(** * Further properties *)

(** ** The colour helpers on arbitrary arguments *)

(** X1.  On any [gint], [rotate_rgb] ignores the top byte and returns a
    24-bit colour; applied twice it gives back the low 24 bits of its
    argument. *)
Theorem rotate_rgb_drops_top_byte (c : Z) :
  0 <= rotate_rgb c <= 0xffffff /\
  rotate_rgb (c mod 2 ^ 24) = rotate_rgb c /\
  rotate_rgb (rotate_rgb c) = c mod 2 ^ 24.
Proof using Type.
  clear.
  assert (Hdiv : c / 65536 = c / 256 / 256)
    by (rewrite Z.div_div by lia; reflexivity).
  pose proof (Z.mod_pos_bound c 256 ltac:(lia)) as Hb.
  pose proof (Z.mod_pos_bound (c / 256) 256 ltac:(lia)) as Hg.
  pose proof (Z.mod_pos_bound (c / 65536) 256 ltac:(lia)) as Hr.
  assert (Hlow : c mod 2 ^ 24 =
                 (c / 65536 mod 256) * 65536 + (c / 256 mod 256) * 256 +
                 c mod 256).
  { change (2 ^ 24) with 16777216.
    pose proof (Z.div_mod c 256 ltac:(lia)).
    pose proof (Z.div_mod (c / 256) 256 ltac:(lia)).
    pose proof (Z.div_mod (c / 65536) 256 ltac:(lia)).
    rewrite Hdiv in *.
    symmetry. apply Z.mod_unique with (q := c / 256 / 256 / 256); lia. }
  rewrite (rotate_rgb_channels c).
  split; [lia|]. split.
  - rewrite Hlow, rotate_rgb_bytes by assumption. lia.
  - rewrite rotate_rgb_bytes by assumption. lia.
Qed.

Lemma testbit_sub_from_ones (k a n : Z) :
  0 <= n < k -> Z.testbit (2 ^ k - 1 - a) n = negb (Z.testbit a n).
Proof.
  intros Hn. rewrite <- (Z.mod_pow2_bits_low _ k n) by lia.
  replace (2 ^ k - 1 - a) with (Z.lnot a + 1 * 2 ^ k)
    by (unfold Z.lnot; lia).
  rewrite Z.mod_add by (apply Z.pow_nonzero; lia).
  rewrite Z.mod_pow2_bits_low by lia. apply Z.lnot_spec. lia.
Qed.

(** Bits 0 to 23 of [invert x] are the complements of those of [x],
    whatever the size of [x]. *)
Lemma invert_low_bits (st : state) (x n : Z) :
  invert_all (common_style_set st) <> 0 -> 0 <= n < 24 ->
  Z.testbit (invert st x) n = negb (Z.testbit x n).
Proof.
  intros Hinv Hn. unfold invert. destruct (decide _) as [_|]; [|done].
  unfold to_guint. change 0xffffff with (2 ^ 24 - 1).
  assert (Hcases : n < 8 \/ 8 <= n < 16 \/ 16 <= n < 24) by lia.
  destruct Hcases as [H|[H|H]]; bitblast;
    rewrite ?testbit_sub_from_ones by lia; bitblast;
    repeat match goal with |- context [Z.testbit x ?i] =>
      progress replace i with n by lia end;
    simpl; destruct (Z.testbit x n); reflexivity.
Qed.

Lemma invert_range (st : state) (x : Z) :
  0 <= x < 2 ^ 32 -> 0 <= invert st x < 2 ^ 32.
Proof.
  intros Hx. unfold invert. destruct (decide _); [|exact Hx].
  unfold to_guint.
  match goal with |- 0 <= ?v < _ => replace v with (v mod 2 ^ 32) end.
  - apply Z.mod_pos_bound. lia.
  - apply Z.bits_inj'. intros i Hi.
    destruct (Z_lt_le_dec i 32); bitblast; simpl; reflexivity.
Qed.

(** X2.  With [invert_all] set, for every [guint] (not only a 24-bit
    one): the result is a [guint], its three colour channels are the
    negated channels of the argument, and inverting twice gives back the
    three channels. *)
Theorem invert_negates_channels_of_any_guint (st : state) (x : Z) :
  invert_all (common_style_set st) <> 0 -> 0 <= x < 2 ^ 32 ->
  0 <= invert st x < 2 ^ 32 /\
  invert st x mod 2 ^ 24 = 0xffffff - x mod 2 ^ 24 /\
  invert st (invert st x) mod 2 ^ 24 = x mod 2 ^ 24.
Proof.
  intros Hinv Hx. split; [by apply invert_range|]. split.
  - pose proof (Z.mod_pos_bound x (2 ^ 24) ltac:(lia)) as Hm.
    change 0xffffff with (2 ^ 24 - 1).
    rewrite (sub_from_ones 24 (x mod 2 ^ 24)) by lia.
    rewrite <- !Z.land_ones by lia.
    apply Z.bits_inj'. intros n Hn.
    destruct (Z_lt_le_dec n 24).
    + bitblast. rewrite invert_low_bits by (assumption || lia).
      simpl. rewrite !andb_true_r. reflexivity.
    + bitblast. simpl. rewrite !andb_false_r. reflexivity.
  - rewrite <- !Z.land_ones by lia.
    apply Z.bits_inj'. intros n Hn.
    destruct (Z_lt_le_dec n 24).
    + bitblast. rewrite !invert_low_bits by (assumption || lia).
      rewrite negb_involutive. reflexivity.
    + bitblast. simpl. rewrite !andb_false_r. reflexivity.
Qed.

(** ** Allocation and loading of a style set *)

Lemma bind_Ok_l {A B : Type} (a : A) (k : A -> result B) :
  Ok a ≫= k = k a.
Proof. reflexivity. Qed.

Lemma array_get_lookup {A : Type} (a : list A) (i : Z) (x : A) :
  0 <= i -> a !! Z.to_nat i = Some x -> array_get a i = Ok x.
Proof.
  intros Hi Hx. unfold array_get. destruct (decide _); [|lia].
  rewrite Hx. reflexivity.
Qed.

Lemma array_get_beyond {A : Type} (a : list A) (i : Z) :
  i < 0 \/ Z.of_nat (length a) <= i -> array_get a i = Fault (OutOfBounds i).
Proof.
  intros Hi. unfold array_get. destruct (decide _); [|reflexivity].
  rewrite lookup_ge_None_2 by lia. reflexivity.
Qed.

Lemma array_set_lookup {A : Type} (a : list A) (i : Z) (x y : A) :
  0 <= i -> a !! Z.to_nat i = Some y ->
  array_set a i x = Ok (<[Z.to_nat i := x]> a).
Proof.
  intros Hi Hy. apply lookup_lt_Some in Hy. unfold array_set.
  destruct (decide _); [reflexivity | lia].
Qed.

Lemma update_style_set_lookup (ft : Z) (f : StyleSet -> StyleSet)
    (st : state) (ss : StyleSet) :
  0 <= ft -> style_sets st !! Z.to_nat ft = Some ss ->
  update_style_set ft f st =
  Ok (set_style_sets (<[Z.to_nat ft := f ss]> (style_sets st)) st).
Proof.
  intros Hft Hss. unfold update_style_set.
  rewrite (array_get_lookup _ _ _ Hft Hss). simpl.
  rewrite (array_set_lookup _ _ _ _ Hft Hss). reflexivity.
Qed.

Lemma only_style_set_changed_insert (ft : Z) (st : state) (ss : StyleSet) :
  only_style_set_changed ft st
    (set_style_sets (<[Z.to_nat ft := ss]> (style_sets st)) st).
Proof.
  unfold only_style_set_changed. simpl.
  repeat split; [apply length_insert|].
  intros j Hj. by apply list_lookup_insert_ne.
Qed.

(** X3.  [new_style_array] on an index inside [style_sets], with a
    positive count [n]: the style set gets a fresh array of exactly [n]
    records, all zero (black on black, not bold, not italic); its keyword
    and word character fields and everything else in the state are kept.
    On an index outside [style_sets] the assignment is out of bounds. *)
Theorem new_style_array_gives_zeroed_records (file_type_id n : Z)
    (st : state) :
  0 < n ->
  (forall ss,
     0 <= file_type_id ->
     style_sets st !! Z.to_nat file_type_id = Some ss ->
     exists st',
       new_style_array file_type_id n st = Ok st' /\
       style_sets st' !! Z.to_nat file_type_id =
         Some (mkStyleSet (Some (replicate (Z.to_nat n) zero_style))
                          (keywords ss) (wordchars ss)) /\
       only_style_set_changed file_type_id st st') /\
  (file_type_id < 0 \/ Z.of_nat (length (style_sets st)) <= file_type_id ->
   new_style_array file_type_id n st = Fault (OutOfBounds file_type_id)).
Proof.
  intros Hn. split.
  - intros ss Hft Hss. eexists. split.
    + unfold new_style_array. apply (update_style_set_lookup _ _ _ _ Hft Hss).
    + split; [|apply only_style_set_changed_insert].
      simpl. rewrite list_lookup_insert_eq by (by eapply lookup_lt_Some).
      unfold set_styling, g_new0_styles.
      destruct (decide (n <= 0)); [lia | reflexivity].
  - intros Hout. unfold new_style_array, update_style_set.
    rewrite array_get_beyond by assumption. reflexivity.
Qed.

Lemma set_style_sets_same (st : state) (ss : StyleSet) (i : nat)
    (a : list HighlightingStyle) :
  style_sets st !! i = Some ss -> styling ss = Some a ->
  set_style_sets (<[i := set_styling (Some a) ss]> (style_sets st)) st = st.
Proof.
  intros Hss Ha. destruct ss as [sty kw wc]. simpl in Ha. subst sty.
  unfold set_styling. simpl. rewrite list_insert_id by assumption.
  by destruct st.
Qed.

Lemma get_keyfile_style_at_stores (c h : GKeyFile) (key : string)
    (d : HighlightingStyle) (ft i : Z) (st : state) (ss : StyleSet)
    (a : list HighlightingStyle) (old s : HighlightingStyle) :
  0 <= ft -> style_sets st !! Z.to_nat ft = Some ss -> styling ss = Some a ->
  0 <= i -> a !! Z.to_nat i = Some old ->
  get_keyfile_style (Some c) (Some h) (Some key) (Some d) (Some old)
    = Ok (Some s) ->
  get_keyfile_style_at (Some c) (Some h) key d ft i st =
  Ok (set_style_sets
        (<[Z.to_nat ft := set_styling (Some (<[Z.to_nat i := s]> a)) ss]>
           (style_sets st)) st).
Proof.
  intros Hft Hss Ha Hi Hold Hs. unfold get_keyfile_style_at.
  rewrite (array_get_lookup _ _ _ Hft Hss), bind_Ok_l, Ha.
  rewrite (array_get_lookup _ _ _ Hi Hold), bind_Ok_l, Hs, bind_Ok_l.
  rewrite (array_set_lookup _ _ _ _ Hi Hold), bind_Ok_l.
  apply (update_style_set_lookup _ _ _ _ Hft Hss).
Qed.

(** With both key files present the record already in the slot plays no
    part in what [get_keyfile_style] stores. *)
Lemma get_keyfile_style_ignores_old (c h : GKeyFile) (key : string)
    (d old old' : HighlightingStyle) :
  get_keyfile_style (Some c) (Some h) (Some key) (Some d) (Some old) =
  get_keyfile_style (Some c) (Some h) (Some key) (Some d) (Some old').
Proof. reflexivity. Qed.

Lemma get_keyfile_style_completes (int_keys : list string) (c h : GKeyFile)
    (key : string) (d old : HighlightingStyle) :
  styling_lists_long_enough int_keys c h -> key ∉ int_keys ->
  exists s, get_keyfile_style (Some c) (Some h) (Some key) (Some d)
              (Some old) = Ok (Some s).
Proof.
  intros Hlong Hkey.
  destruct (g_key_file_get_string_list (h ∪ c) "styling" key) as [l|] eqn:Hl.
  - destruct (Hlong key l Hl) as [_ Hlen]. specialize (Hlen Hkey).
    destruct l as [|s0 [|s1 [|s2 rest]]]; simpl in Hlen; try lia.
    rewrite (get_keyfile_style_three_or_more _ _ _ _ _ _ _ _ _ Hl). eauto.
  - unfold g_key_file_get_string_list in Hl. apply fmap_None in Hl.
    rewrite (get_keyfile_style_absent _ _ _ _ _ Hl). eauto.
Qed.

Lemma c_like_entries_length : length c_like_entries = 20%nat.
Proof. reflexivity. Qed.

(** The loop of [styleset_c_like_init] from [i], for [n] more rounds, on
    an array that reaches as far as the loop goes. *)
Lemma c_like_loop (int_keys : list string) (c h : GKeyFile) (ft : Z) :
  styling_lists_long_enough int_keys c h ->
  Forall (fun e => entry_name e ∉ int_keys) c_like_entries ->
  0 <= ft ->
  forall (n : nat) (i : Z) (st : state) (ss : StyleSet)
         (a : list HighlightingStyle),
    0 <= i -> (Z.to_nat i + n <= 20)%nat ->
    (Z.to_nat i + n <= length a)%nat ->
    style_sets st !! Z.to_nat ft = Some ss -> styling ss = Some a ->
    exists a',
      for_loop n i
        (fun i st =>
           e ← array_get c_like_entries i;
           get_keyfile_style_at (Some c) (Some h) (entry_name e)
             (entry_style e) ft i st) st =
      Ok (set_style_sets
            (<[Z.to_nat ft := set_styling (Some a') ss]> (style_sets st))
            st) /\
      length a' = length a /\
      (forall j, (j < Z.to_nat i \/ Z.to_nat i + n <= j)%nat ->
                 a' !! j = a !! j) /\
      (forall j e old,
         (Z.to_nat i <= j < Z.to_nat i + n)%nat ->
         c_like_entries !! j = Some e ->
         get_keyfile_style (Some c) (Some h) (Some (entry_name e))
           (Some (entry_style e)) (Some old) = Ok (a' !! j)).
Proof.
  intros Hlong Hnames Hft n. induction n as [|n IH];
    intros i st ss a Hi H20 Hlen Hss Ha.
  - exists a. simpl. rewrite (set_style_sets_same _ _ _ _ Hss Ha).
    split; [reflexivity|]. split; [reflexivity|].
    split; [reflexivity | intros; lia].
  - destruct (lookup_lt_is_Some_2 c_like_entries (Z.to_nat i)) as [e He];
      [rewrite c_like_entries_length; lia|].
    destruct (lookup_lt_is_Some_2 a (Z.to_nat i)) as [old Hold]; [lia|].
    destruct (get_keyfile_style_completes int_keys c h (entry_name e)
                (entry_style e) old Hlong) as [s Hs].
    { rewrite Forall_lookup in Hnames. by eapply Hnames. }
    pose proof (get_keyfile_style_at_stores c h (entry_name e)
                  (entry_style e) ft i st ss a old s Hft Hss Ha Hi Hold Hs)
      as Hstep.
    set (a1 := <[Z.to_nat i := s]> a) in *.
    set (ss1 := set_styling (Some a1) ss) in *.
    set (st1 := set_style_sets (<[Z.to_nat ft := ss1]> (style_sets st)) st)
      in *.
    assert (Hss1 : style_sets st1 !! Z.to_nat ft = Some ss1).
    { subst st1. simpl. apply list_lookup_insert_eq.
      by eapply lookup_lt_Some. }
    assert (Hlen1 : length a1 = length a) by apply length_insert.
    destruct (IH (i + 1) st1 ss1 a1) as (a' & Hloop & Hlen' & Hout & Hin);
      [lia | lia | lia | exact Hss1 | reflexivity |].
    exists a'. split; [|split; [lia|split]].
    + cbn [for_loop]. rewrite (array_get_lookup _ _ _ Hi He), bind_Ok_l.
      rewrite Hstep, bind_Ok_l, Hloop. f_equal.
      subst st1 ss1. unfold set_style_sets, set_styling. simpl.
      rewrite list_insert_insert_eq. reflexivity.
    + intros j Hj. rewrite Hout by lia. subst a1.
      apply list_lookup_insert_ne. lia.
    + intros j e' old' Hj He'.
      destruct (decide (j = Z.to_nat i)) as [->|Hne].
      * rewrite Hout by lia. subst a1.
        rewrite list_lookup_insert_eq by lia.
        rewrite He in He'. injection He' as <-.
        rewrite <- Hs. reflexivity.
      * apply Hin; [lia | exact He'].
Qed.

(** X4.  [styleset_c_like_init] with both key files present, an array of
    at least 20 records and every configured list long enough: the call
    completes; records 0 to 19 become what [get_keyfile_style] gives for
    entries 0 to 19 of the table (for a key that no file configures, the
    entry's default with red and blue exchanged), the records from 20 on
    are kept, and so are the keywords, the word characters and the rest
    of the state. *)
Theorem styleset_c_like_init_fills_twenty_records (c h : GKeyFile) (ft : Z)
    (st : state) (ss : StyleSet) (a : list HighlightingStyle) :
  styling_lists_long_enough [] c h ->
  0 <= ft -> style_sets st !! Z.to_nat ft = Some ss ->
  styling ss = Some a -> (20 <= length a)%nat ->
  exists st' a',
    styleset_c_like_init (Some c) (Some h) ft st = Ok st' /\
    style_sets st' !! Z.to_nat ft =
      Some (mkStyleSet (Some a') (keywords ss) (wordchars ss)) /\
    only_style_set_changed ft st st' /\
    length a' = length a /\
    (forall j, (20 <= j)%nat -> a' !! j = a !! j) /\
    (forall j e old,
       c_like_entries !! j = Some e ->
       get_keyfile_style (Some c) (Some h) (Some (entry_name e))
         (Some (entry_style e)) (Some old) = Ok (a' !! j)) /\
    (forall j e,
       c_like_entries !! j = Some e ->
       (h ∪ c) !! ("styling", entry_name e) = None ->
       a' !! j = Some (mkStyle (rotate_rgb (foreground (entry_style e)))
                               (rotate_rgb (background (entry_style e)))
                               (bold (entry_style e))
                               (italic (entry_style e)))).
Proof.
  intros Hlong Hft Hss Ha Hlen.
  destruct (c_like_loop [] c h ft Hlong) with (n := 20%nat) (i := 0)
    (st := st) (ss := ss) (a := a) as (a' & Hloop & Hlen' & Hout & Hin);
    try (simpl; lia); try assumption.
  { apply Forall_forall. intros e _. set_solver. }
  assert (Hin' : forall j e old,
            c_like_entries !! j = Some e ->
            get_keyfile_style (Some c) (Some h) (Some (entry_name e))
              (Some (entry_style e)) (Some old) = Ok (a' !! j)).
  { intros j e old He. apply Hin; [|exact He].
    apply lookup_lt_Some in He. rewrite c_like_entries_length in He.
    simpl. lia. }
  eexists. exists a'. split; [exact Hloop|].
  split.
  { simpl. rewrite list_lookup_insert_eq by (by eapply lookup_lt_Some).
    reflexivity. }
  split; [apply only_style_set_changed_insert|].
  split; [exact Hlen'|]. split; [intros j Hj; apply Hout; simpl; lia|].
  split; [exact Hin'|].
  intros j e He Hnone.
  pose proof (Hin' j e zero_style He) as Hj.
  rewrite (get_keyfile_style_absent _ _ _ _ _ Hnone) in Hj.
  injection Hj as <-. reflexivity.
Qed.

Lemma for_loop_app (n m : nat) (i : Z) (body : Z -> state -> result state)
    (st : state) :
  for_loop (n + m) i body st =
  for_loop n i body st ≫= for_loop m (i + Z.of_nat n) body.
Proof.
  revert i st. induction n as [|n IH]; intros i st.
  - change (Z.of_nat 0) with 0. rewrite Z.add_0_r. reflexivity.
  - cbn [for_loop Nat.add]. destruct (body i st) as [st1|f]; [|reflexivity].
    rewrite !bind_Ok_l, IH.
    replace (i + 1 + Z.of_nat n) with (i + Z.of_nat (S n)) by lia.
    reflexivity.
Qed.

(** X5.  The bound in the comment above [styleset_c_like_init] is needed:
    with both key files present (and long enough lists, so that nothing
    else goes wrong first), a style set whose array has fewer than 20
    records is written one record past its end, and a style set without
    an array is written through a pointer made from [NULL]. *)
Theorem styleset_c_like_init_needs_twenty_records (c h : GKeyFile) (ft : Z)
    (st : state) (ss : StyleSet) :
  styling_lists_long_enough [] c h ->
  0 <= ft -> style_sets st !! Z.to_nat ft = Some ss ->
  (forall a, styling ss = Some a -> (length a < 20)%nat ->
     styleset_c_like_init (Some c) (Some h) ft st
     = Fault (OutOfBounds (Z.of_nat (length a)))) /\
  (styling ss = None ->
     styleset_c_like_init (Some c) (Some h) ft st = Fault NullPointer).
Proof.
  intros Hlong Hft Hss. split.
  - intros a Ha Hlen. unfold styleset_c_like_init.
    replace 20%nat with (length a + S (19 - length a))%nat by lia.
    rewrite for_loop_app.
    destruct (c_like_loop [] c h ft Hlong) with (n := length a) (i := 0)
      (st := st) (ss := ss) (a := a) as (a' & Hloop & Hlen' & _);
      try (simpl; lia); try assumption.
    { apply Forall_forall. intros e _. set_solver. }
    rewrite Hloop, bind_Ok_l. cbn [for_loop].
    destruct (lookup_lt_is_Some_2 c_like_entries (length a)) as [e He];
      [rewrite c_like_entries_length; lia|].
    rewrite (array_get_lookup c_like_entries (0 + Z.of_nat (length a)) e)
      by (rewrite ?Z2Nat.inj_add, ?Nat2Z.id by lia; simpl; (lia || exact He)).
    rewrite bind_Ok_l. unfold get_keyfile_style_at.
    rewrite (array_get_lookup _ ft (set_styling (Some a') ss)) by
      (try lia; simpl; apply list_lookup_insert_eq;
       by eapply lookup_lt_Some).
    rewrite bind_Ok_l. cbn [set_styling styling].
    rewrite array_get_beyond by lia. simpl. reflexivity.
  - intros Hnull. unfold styleset_c_like_init.
    change 20%nat with (2 + 18)%nat. rewrite for_loop_app.
    cbn [for_loop]. unfold get_keyfile_style_at.
    rewrite (array_get_lookup c_like_entries 0 (mkEntry "default" gsd_default))
      by (reflexivity || lia).
    rewrite bind_Ok_l, (array_get_lookup _ _ _ Hft Hss), bind_Ok_l, Hnull.
    simpl. rewrite (array_get_lookup _ _ _ Hft Hss). simpl. rewrite Hnull.
    reflexivity.
Qed.

Lemma c_like_init_null_keyfile (config config_home : option GKeyFile)
    (ft : Z) (st : state) :
  config = None \/ config_home = None ->
  0 <= ft < Z.of_nat (length (style_sets st)) ->
  styleset_c_like_init config config_home ft st = Ok st.
Proof.
  intros Hnull Hft.
  destruct (lookup_lt_is_Some_2 (style_sets st) (Z.to_nat ft)) as [ss Hss];
    [lia|].
  assert (Hstep : forall i, 0 <= i < 20 ->
            (e ← array_get c_like_entries i;
             get_keyfile_style_at config config_home (entry_name e)
               (entry_style e) ft i st) = Ok st).
  { intros i Hi.
    destruct (lookup_lt_is_Some_2 c_like_entries (Z.to_nat i)) as [e He];
      [rewrite c_like_entries_length; lia|].
    rewrite (array_get_lookup _ _ _ (proj1 Hi) He), bind_Ok_l.
    unfold get_keyfile_style_at.
    rewrite (array_get_lookup _ _ _ (proj1 Hft) Hss), bind_Ok_l.
    destruct Hnull as [-> | ->]; [|destruct config]; reflexivity. }
  unfold styleset_c_like_init.
  assert (Hloop : forall n i, 0 <= i -> i + Z.of_nat n <= 20 ->
            for_loop n i
              (fun i st =>
                 e ← array_get c_like_entries i;
                 get_keyfile_style_at config config_home (entry_name e)
                   (entry_style e) ft i st) st = Ok st).
  { induction n as [|n IH]; intros i Hi Hn; [reflexivity|].
    cbn [for_loop]. rewrite Hstep by lia. rewrite bind_Ok_l.
    apply IH; lia. }
  apply Hloop; simpl; lia.
Qed.

(** X6.  With a [NULL] key file [styleset_c_like_init] stores nothing, not
    even the defaults of its table: the state is returned as it is. *)
Theorem styleset_c_like_init_without_keyfiles (config config_home
    : option GKeyFile) (ft : Z) (st : state) :
  config = None \/ config_home = None ->
  0 <= ft < Z.of_nat (length (style_sets st)) ->
  styleset_c_like_init config config_home ft st = Ok st.
Proof. apply c_like_init_null_keyfile. Qed.

(** ** [styleset_c_init] *)

Lemma with_style_set_lookup (ft : Z) (ss : StyleSet) (st : state) :
  (Z.to_nat ft < length (style_sets st))%nat ->
  style_sets (with_style_set ft ss st) !! Z.to_nat ft = Some ss.
Proof. intros H. simpl. by apply list_lookup_insert_eq. Qed.

Lemma with_style_set_twice (ft : Z) (ss ss' : StyleSet) (st : state) :
  with_style_set ft ss' (with_style_set ft ss st) = with_style_set ft ss' st.
Proof.
  unfold with_style_set, set_style_sets. simpl.
  rewrite list_insert_insert_eq. reflexivity.
Qed.

Lemma with_style_set_same (ft : Z) (ss : StyleSet) (st : state) :
  style_sets st !! Z.to_nat ft = Some ss -> with_style_set ft ss st = st.
Proof.
  intros H. unfold with_style_set, set_style_sets.
  rewrite list_insert_id by assumption. by destruct st.
Qed.

Lemma update_style_set_on (ft : Z) (f : StyleSet -> StyleSet)
    (ss : StyleSet) (st : state) :
  0 <= ft -> (Z.to_nat ft < length (style_sets st))%nat ->
  update_style_set ft f (with_style_set ft ss st) =
  Ok (with_style_set ft (f ss) st).
Proof.
  intros Hft Hlen.
  rewrite (update_style_set_lookup ft f _ ss Hft)
    by (by apply with_style_set_lookup).
  f_equal. apply with_style_set_twice.
Qed.

Lemma set_keyword_on (ft pos : Z) (v : option string) (ss : StyleSet)
    (kw : list (option string)) (st : state) :
  0 <= ft -> (Z.to_nat ft < length (style_sets st))%nat ->
  keywords ss = Some kw -> 0 <= pos < Z.of_nat (length kw) ->
  set_keyword ft pos v (with_style_set ft ss st) =
  Ok (with_style_set ft
        (set_keywords (Some (<[Z.to_nat pos := v]> kw)) ss) st).
Proof.
  intros Hft Hlen Hkw Hpos.
  rewrite (set_keyword_in_bounds ft pos v _ ss kw Hft)
    by (assumption || by apply with_style_set_lookup).
  f_equal. unfold with_style_set, set_style_sets. simpl.
  rewrite list_insert_insert_eq. reflexivity.
Qed.

Lemma get_keyfile_keywords_merged (c h : GKeyFile) (section key : string)
    (index pos : Z) (d : string) (st : state) :
  get_keyfile_keywords (Some c) (Some h) (Some section) key index pos
    (Some d) st =
  set_keyword index pos (Some (default d ((h ∪ c) !! (section, key)))) st.
Proof.
  unfold get_keyfile_keywords, g_key_file_get_string, g_strdup.
  rewrite merged_lookup.
  destruct (h !! (section, key)); [reflexivity|].
  destruct (c !! (section, key)); reflexivity.
Qed.

Lemma get_keyfile_wordchars_merged (c h : GKeyFile) :
  get_keyfile_wordchars (Some c) (Some h) =
  Some (default GEANY_WORDCHARS ((h ∪ c) !! ("settings", "wordchars"))).
Proof.
  unfold get_keyfile_wordchars, g_key_file_get_string, g_strdup.
  rewrite merged_lookup.
  destruct (h !! ("settings", "wordchars")); [reflexivity|].
  destruct (c !! ("settings", "wordchars")); reflexivity.
Qed.

(** With a list of at least one string, or none, [get_keyfile_int]
    completes, and the two integers it stores depend on the key files
    alone. *)
Lemma get_keyfile_int_completes (int_keys : list string) (c h : GKeyFile)
    (key : string) (fd sd : Z) :
  styling_lists_long_enough int_keys c h ->
  exists fg bg, forall end1 end2 old,
    get_keyfile_int (Some c) (Some h) (Some "styling") key fd sd end1 end2
      old = Ok (mkStyle fg bg (bold old) (italic old)).
Proof.
  intros Hlong.
  destruct (g_key_file_get_string_list (h ∪ c) "styling" key) as [l|] eqn:Hl.
  - destruct (Hlong key l Hl) as [Hlen _].
    destruct l as [|s0 rest]; simpl in Hlen; [lia|].
    eexists. eexists. intros end1 end2 old.
    apply (get_keyfile_int_present _ _ _ _ _ _ _ _ _ _ _ Hl).
  - unfold g_key_file_get_string_list in Hl. apply fmap_None in Hl.
    exists fd, sd. intros end1 end2 old.
    apply (get_keyfile_int_absent _ _ _ _ _ _ _ _ _ Hl).
Qed.

Lemma get_keyfile_int_at_on (c h : GKeyFile) (key : string)
    (fd sd : Z) (end1 end2 : cptr) (ft i : Z) (ss : StyleSet)
    (a : list HighlightingStyle) (old new : HighlightingStyle) (st : state) :
  0 <= ft -> (Z.to_nat ft < length (style_sets st))%nat ->
  styling ss = Some a -> 0 <= i -> a !! Z.to_nat i = Some old ->
  get_keyfile_int (Some c) (Some h) (Some "styling") key fd sd end1 end2 old
    = Ok new ->
  get_keyfile_int_at (Some c) (Some h) "styling" key fd sd end1 end2 ft i
    (with_style_set ft ss st) =
  Ok (with_style_set ft (set_styling (Some (<[Z.to_nat i := new]> a)) ss) st).
Proof.
  intros Hft Hlen Ha Hi Hold Hnew. unfold get_keyfile_int_at.
  rewrite (array_get_lookup _ ft ss Hft) by (by apply with_style_set_lookup).
  rewrite bind_Ok_l, Ha, (array_get_lookup _ _ _ Hi Hold), bind_Ok_l.
  rewrite Hnew, bind_Ok_l, (array_set_lookup _ _ _ _ Hi Hold), bind_Ok_l.
  by apply update_style_set_on.
Qed.

Lemma c_like_names_not_int :
  Forall (fun e => entry_name e ∉ ["styling_within_preprocessor"])
    c_like_entries.
Proof.
  apply Forall_lookup. intros i e He.
  apply (bool_decide_unpack _).
  do 20 (destruct i as [|i]; [injection He as <-; vm_compute; exact I|]).
  discriminate He.
Qed.

Lemma styleset_c_init_outcome (c h : GKeyFile)
    (ft_id : Z) (u : uninitialised) (junk : nat -> option string)
    (st : state) (ss0 : StyleSet) :
  styling_lists_long_enough ["styling_within_preprocessor"] c h ->
  0 <= GEANY_FILETYPES_C ->
  style_sets st !! Z.to_nat GEANY_FILETYPES_C = Some ss0 ->
  exists st' a fg bg,
    (forall ft_id' u' junk',
       styleset_c_init ft_id' (Some c) (Some h) u' junk' st = Ok st') /\
    st' = with_style_set GEANY_FILETYPES_C
            (mkStyleSet (Some a)
               (Some [ Some (default
                         "if const struct char int float double void long for while do case switch return"
                         ((h ∪ c) !! ("keywords", "primary")));
                       Some (default ""
                               ((h ∪ c) !! ("keywords", "secondary")));
                       Some (default "TODO FIXME"
                               ((h ∪ c) !! ("keywords", "docComment")));
                       None ])
               (Some (default GEANY_WORDCHARS
                        ((h ∪ c) !! ("settings", "wordchars")))))
            st /\
    length a = 21%nat /\
    (forall j e old,
       c_like_entries !! j = Some e ->
       get_keyfile_style (Some c) (Some h) (Some (entry_name e))
         (Some (entry_style e)) (Some old) = Ok (a !! j)) /\
    a !! 20%nat = Some (mkStyle fg bg false false) /\
    (forall end1 end2 old,
       get_keyfile_int (Some c) (Some h) (Some "styling")
         "styling_within_preprocessor" 1 0 end1 end2 old
       = Ok (mkStyle fg bg (bold old) (italic old))).
Proof.
  intros Hlong HC Hss0.
  pose proof (lookup_lt_Some _ _ _ Hss0) as Hlen.
  set (ss1 := set_styling (Some (replicate 21 zero_style)) ss0).
  set (st1 := with_style_set GEANY_FILETYPES_C ss1 st).
  destruct (c_like_loop _ c h GEANY_FILETYPES_C Hlong c_like_names_not_int HC
              20 0 st1 ss1 (replicate 21 zero_style))
    as (a' & Hloop & Hlen' & Hout & Hin);
    [lia | simpl; lia | simpl; lia
    | by apply with_style_set_lookup | reflexivity |].
  destruct (get_keyfile_int_completes _ c h "styling_within_preprocessor"
              1 0 Hlong) as (fg & bg & Hint).
  assert (H20 : a' !! Z.to_nat 20 = Some zero_style).
  { rewrite Hout by (simpl; lia). reflexivity. }
  set (a2 := <[Z.to_nat 20 := mkStyle fg bg false false]> a').
  eexists. exists a2, fg, bg. split; [|split; [reflexivity|]].
  { intros ft_id' u' junk'. unfold styleset_c_init, new_style_array.
    rewrite (update_style_set_lookup _ _ _ _ HC Hss0), bind_Ok_l.
    change (set_style_sets _ st) with st1.
    unfold styleset_c_like_init. rewrite Hloop, bind_Ok_l.
    change (set_style_sets ?l st1)
      with (with_style_set GEANY_FILETYPES_C
              (set_styling (Some a') ss1) st1).
    subst st1. rewrite with_style_set_twice.
    rewrite (get_keyfile_int_at_on c h _ _ _ _ _ _ _ _ a' zero_style
               (mkStyle fg bg false false))
      by (try assumption; try reflexivity; try lia; apply Hint).
    rewrite bind_Ok_l, update_style_set_on, bind_Ok_l by assumption.
    rewrite get_keyfile_keywords_merged.
    rewrite (set_keyword_on _ 0 _ _ [junk' 0%nat; junk' 1%nat; junk' 2%nat;
                                      junk' 3%nat])
      by (try assumption; try reflexivity; simpl; lia).
    rewrite bind_Ok_l, get_keyfile_keywords_merged.
    rewrite (set_keyword_on _ 1 _ _ [_; junk' 1%nat; junk' 2%nat;
                                      junk' 3%nat])
      by (try assumption; try reflexivity; simpl; lia).
    rewrite bind_Ok_l, get_keyfile_keywords_merged.
    rewrite (set_keyword_on _ 2 _ _ [_; _; junk' 2%nat; junk' 3%nat])
      by (try assumption; try reflexivity; simpl; lia).
    rewrite bind_Ok_l.
    rewrite (set_keyword_on _ 3 _ _ [_; _; _; junk' 3%nat])
      by (try assumption; try reflexivity; simpl; lia).
    rewrite bind_Ok_l, update_style_set_on by assumption.
    rewrite get_keyfile_wordchars_merged. reflexivity. }
  assert (Hlen2 : length a' = 21%nat) by (rewrite Hlen'; reflexivity).
  split; [subst a2; rewrite length_insert; exact Hlen2|].
  split; [|split; [|exact Hint]].
  - intros j e old He.
    pose proof (lookup_lt_Some _ _ _ He) as Hj.
    rewrite c_like_entries_length in Hj.
    subst a2. rewrite list_lookup_insert_ne by (simpl; lia).
    apply Hin; [simpl; lia | exact He].
  - subst a2. apply list_lookup_insert_eq. simpl. lia.
Qed.

(** X7.  [styleset_c_init] with both key files present and long enough
    lists, for an index of C inside [style_sets]: the call completes and
    leaves a complete style set for C: an array of exactly 21 records
    (0 to 19 as [get_keyfile_style] gives them for the table, 20 holding
    the two integers of [styling_within_preprocessor]), a keyword vector
    of three strings closed by [NULL] (the configured lists, else the
    built-in ones) and the word characters; nothing else in the state
    changes, and neither the uninitialised locals nor the content of the
    fresh keyword cells shows in the result. *)
Theorem styleset_c_init_gives_complete_style_set (c h : GKeyFile)
    (ft_id : Z) (u : uninitialised) (junk : nat -> option string)
    (st : state) (ss0 : StyleSet) :
  styling_lists_long_enough ["styling_within_preprocessor"] c h ->
  0 <= GEANY_FILETYPES_C ->
  style_sets st !! Z.to_nat GEANY_FILETYPES_C = Some ss0 ->
  exists st' a,
    styleset_c_init ft_id (Some c) (Some h) u junk st = Ok st' /\
    style_sets st' !! Z.to_nat GEANY_FILETYPES_C =
      Some (mkStyleSet (Some a)
              (Some [ Some (default
                        "if const struct char int float double void long for while do case switch return"
                        ((h ∪ c) !! ("keywords", "primary")));
                      Some (default ""
                              ((h ∪ c) !! ("keywords", "secondary")));
                      Some (default "TODO FIXME"
                              ((h ∪ c) !! ("keywords", "docComment")));
                      None ])
              (Some (default GEANY_WORDCHARS
                       ((h ∪ c) !! ("settings", "wordchars"))))) /\
    length a = 21%nat /\
    (forall j e old,
       c_like_entries !! j = Some e ->
       get_keyfile_style (Some c) (Some h) (Some (entry_name e))
         (Some (entry_style e)) (Some old) = Ok (a !! j)) /\
    (forall end1 end2 old,
       get_keyfile_int (Some c) (Some h) (Some "styling")
         "styling_within_preprocessor" 1 0 end1 end2 old
       = Ok (mkStyle (from_option foreground 0 (a !! 20%nat))
                     (from_option background 0 (a !! 20%nat))
                     (bold old) (italic old))) /\
    only_style_set_changed GEANY_FILETYPES_C st st' /\
    (forall ft_id' u' junk',
       styleset_c_init ft_id' (Some c) (Some h) u' junk' st = Ok st').
Proof.
  intros Hlong HC Hss0.
  destruct (styleset_c_init_outcome c h ft_id u junk st ss0 Hlong HC Hss0)
    as (st' & a & fg & bg & Hall & -> & Hlen & Hrec & H20 & Hint).
  pose proof (lookup_lt_Some _ _ _ Hss0) as Hl.
  eexists. exists a. split; [apply Hall|].
  split; [by apply with_style_set_lookup|].
  split; [exact Hlen|]. split; [exact Hrec|].
  split; [rewrite H20; exact Hint|].
  split; [apply only_style_set_changed_insert | exact Hall].
Qed.

(** X8.  [styleset_c_init] with a [NULL] key file: the keyword vector and
    the word characters still get their built-in defaults, but no style
    is stored: all 21 records stay zeroed (so every C style is black on
    black and [styling_within_preprocessor] reads 0, where key files that
    say nothing give the default colours and 1). *)
Theorem styleset_c_init_without_keyfiles (config config_home
    : option GKeyFile) (ft_id : Z) (u : uninitialised)
    (junk : nat -> option string) (st : state) (ss0 : StyleSet) :
  config = None \/ config_home = None ->
  0 <= GEANY_FILETYPES_C ->
  style_sets st !! Z.to_nat GEANY_FILETYPES_C = Some ss0 ->
  styleset_c_init ft_id config config_home u junk st =
  Ok (with_style_set GEANY_FILETYPES_C
        (mkStyleSet (Some (replicate 21 zero_style))
           (Some [ Some
                     "if const struct char int float double void long for while do case switch return";
                   Some ""; Some "TODO FIXME"; None ])
           (Some GEANY_WORDCHARS))
        st).
Proof.
  intros Hnull HC Hss0.
  pose proof (lookup_lt_Some _ _ _ Hss0) as Hlen.
  assert (Hkw : forall key pos d st0,
            get_keyfile_keywords config config_home (Some "keywords") key
              GEANY_FILETYPES_C pos (Some d) st0 =
            set_keyword GEANY_FILETYPES_C pos (Some d) st0).
  { intros. unfold get_keyfile_keywords.
    destruct Hnull as [-> | ->]; [|destruct config]; reflexivity. }
  assert (Hwc : get_keyfile_wordchars config config_home
                = Some GEANY_WORDCHARS).
  { unfold get_keyfile_wordchars.
    destruct Hnull as [-> | ->]; [|destruct config]; reflexivity. }
  unfold styleset_c_init, new_style_array.
  rewrite (update_style_set_lookup _ _ _ _ HC Hss0), bind_Ok_l.
  rewrite c_like_init_null_keyfile
    by (assumption || (simpl; rewrite length_insert; lia)).
  rewrite bind_Ok_l.
  change (set_style_sets ?l st)
    with (with_style_set GEANY_FILETYPES_C
            (set_styling (g_new0_styles 21) ss0) st).
  assert (Hint : forall st0 : state,
            (Z.to_nat GEANY_FILETYPES_C < length (style_sets st0))%nat ->
            get_keyfile_int_at config config_home "styling"
              "styling_within_preprocessor" 1 0 (end_ptr u 0) (end_ptr u 1)
              GEANY_FILETYPES_C 20 st0 = Ok st0).
  { intros st0 H0. unfold get_keyfile_int_at.
    destruct (lookup_lt_is_Some_2 _ _ H0) as [ss Hss].
    rewrite (array_get_lookup _ _ _ HC Hss), bind_Ok_l.
    destruct Hnull as [-> | ->]; [|destruct config]; reflexivity. }
  rewrite Hint by (simpl; rewrite length_insert; lia).
  rewrite bind_Ok_l, update_style_set_on, bind_Ok_l by assumption.
  rewrite Hkw.
  rewrite (set_keyword_on _ 0 _ _ [junk 0%nat; junk 1%nat; junk 2%nat;
                                    junk 3%nat])
    by (try assumption; try reflexivity; simpl; lia).
  rewrite bind_Ok_l, Hkw.
  rewrite (set_keyword_on _ 1 _ _ [_; junk 1%nat; junk 2%nat; junk 3%nat])
    by (try assumption; try reflexivity; simpl; lia).
  rewrite bind_Ok_l, Hkw.
  rewrite (set_keyword_on _ 2 _ _ [_; _; junk 2%nat; junk 3%nat])
    by (try assumption; try reflexivity; simpl; lia).
  rewrite bind_Ok_l.
  rewrite (set_keyword_on _ 3 _ _ [_; _; _; junk 3%nat])
    by (try assumption; try reflexivity; simpl; lia).
  rewrite bind_Ok_l, update_style_set_on by assumption.
  rewrite Hwc. reflexivity.
Qed.

(** ** Forwarding to the widget *)

Lemma set_sci_style_of_filetype (st : state) (style ft i : Z)
    (ss : StyleSet) (a : list HighlightingStyle) (s : HighlightingStyle) :
  ft <> GEANY_FILETYPES_NONE -> 0 <= ft ->
  style_sets st !! Z.to_nat ft = Some ss -> styling ss = Some a ->
  0 <= i -> a !! Z.to_nat i = Some s ->
  set_sci_style st style ft i = Ok (forwarded st style s).
Proof.
  intros Hne Hft Hss Ha Hi Hs. unfold set_sci_style.
  destruct (decide (ft = GEANY_FILETYPES_NONE)); [contradiction|].
  rewrite (array_get_lookup _ _ _ Hft Hss), bind_Ok_l, Ha.
  rewrite (array_get_lookup _ _ _ Hi Hs). reflexivity.
Qed.

Lemma GCS_of_index_index (g : GCS) : GCS_of_index (GCS_index g) = Some g.
Proof. destruct g; reflexivity. Qed.

Lemma set_sci_style_of_common (st : state) (style : Z) (g : GCS) :
  set_sci_style st style GEANY_FILETYPES_NONE (GCS_index g) =
  Ok (forwarded st style (common_styling (common_style_set st) g)).
Proof.
  unfold set_sci_style.
  destruct (decide (GEANY_FILETYPES_NONE = GEANY_FILETYPES_NONE)); [|done].
  rewrite GCS_of_index_index. reflexivity.
Qed.

(** The calls of a table whose indices all lie in the array: four
    messages per row, in the order of the table. *)
Lemma set_sci_styles_blocks (st : state) (ft : Z) (ss : StyleSet)
    (a : list HighlightingStyle) :
  ft <> GEANY_FILETYPES_NONE -> 0 <= ft ->
  style_sets st !! Z.to_nat ft = Some ss -> styling ss = Some a ->
  forall table : list (style_name * Z),
    Forall (fun p => 0 <= p.2 < Z.of_nat (length a)) table ->
    exists calls,
      set_sci_styles st ft table = Ok calls /\
      length calls = (4 * length table)%nat /\
      forall k name i,
        table !! k = Some (name, i) ->
        exists s, a !! Z.to_nat i = Some s /\
                  take 4 (drop (4 * k) calls)
                  = forwarded st (style_number name) s.
Proof.
  intros Hne Hft Hss Ha table. induction table as [|[name i] table IH];
    intros Hall.
  - exists []. split; [reflexivity|]. split; [reflexivity|].
    intros k name i Hk. discriminate Hk.
  - apply Forall_cons_1 in Hall as [Hi Hall]. simpl in Hi.
    destruct (IH Hall) as (cs & Hcs & Hlen & Hblocks).
    destruct (lookup_lt_is_Some_2 a (Z.to_nat i)) as [s Hs]; [lia|].
    exists (forwarded st (style_number name) s ++ cs).
    split; [|split].
    + cbn [set_sci_styles].
      rewrite (set_sci_style_of_filetype st _ ft i ss a s)
        by (assumption || lia).
      rewrite bind_Ok_l, Hcs. reflexivity.
    + rewrite length_app, Hlen. simpl. lia.
    + intros k name' i' Hk. destruct k as [|k].
      * injection Hk as <- <-. exists s. split; [exact Hs|]. reflexivity.
      * destruct (Hblocks k name' i' Hk) as (s' & Hs' & Hblock).
        exists s'. split; [exact Hs'|].
        replace (4 * S k)%nat with (4 + 4 * k)%nat by lia.
        rewrite <- drop_drop. exact Hblock.
Qed.

Lemma c_like_styles_indices (a : list HighlightingStyle) :
  (20 <= length a)%nat ->
  Forall (fun p : style_name * Z => 0 <= p.2 < Z.of_nat (length a))
    c_like_styles.
Proof.
  intros Hlen. unfold c_like_styles.
  repeat (apply Forall_cons_2; [simpl; lia|]). apply Forall_nil_2.
Qed.

(** X9.  [styleset_c_like] on a filetype other than
    [GEANY_FILETYPES_NONE] whose array has at least 20 records: the call
    completes with 84 messages, four for each of its 21 rows in order,
    and the four of a row forward the record of the row's index (record 0
    goes out twice, as [STYLE_DEFAULT] and as [SCE_C_DEFAULT]; records
    from 20 on are never sent). *)
Theorem styleset_c_like_forwards_twenty_records (st : state) (ft : Z)
    (ss : StyleSet) (a : list HighlightingStyle) :
  ft <> GEANY_FILETYPES_NONE -> 0 <= ft ->
  style_sets st !! Z.to_nat ft = Some ss -> styling ss = Some a ->
  (20 <= length a)%nat ->
  exists calls,
    styleset_c_like st ft = Ok calls /\
    length calls = 84%nat /\
    forall k name i,
      c_like_styles !! k = Some (name, i) ->
      0 <= i < 20 /\
      exists s, a !! Z.to_nat i = Some s /\
                take 4 (drop (4 * k) calls)
                = forwarded st (style_number name) s.
Proof.
  intros Hne Hft Hss Ha Hlen.
  destruct (set_sci_styles_blocks st ft ss a Hne Hft Hss Ha c_like_styles
              (c_like_styles_indices a Hlen)) as (calls & Hcalls & Hn & Hb).
  exists calls. split; [exact Hcalls|]. split; [exact Hn|].
  intros k name i Hk. split; [|by apply Hb].
  pose proof (c_like_styles_indices (replicate 20 zero_style)
                ltac:(reflexivity)) as Hidx.
  rewrite Forall_lookup in Hidx. apply (Hidx k (name, i) Hk).
Qed.

(** X10.  Allocation, loading and forwarding fit together: after
    [new_style_array] with at least 20 records and
    [styleset_c_like_init] with both key files (and long enough lists),
    [styleset_c_like] completes, and the four messages of each of its
    rows carry exactly what [get_keyfile_style] gives for the entry of
    the table with the row's index: the style configured under that
    entry's key, else the entry's default. *)
Theorem c_like_styles_reach_the_widget (c h : GKeyFile) (ft n : Z)
    (st : state) (ss0 : StyleSet) :
  styling_lists_long_enough [] c h ->
  ft <> GEANY_FILETYPES_NONE -> 0 <= ft ->
  style_sets st !! Z.to_nat ft = Some ss0 -> 20 <= n ->
  exists st1 st2 calls,
    new_style_array ft n st = Ok st1 /\
    styleset_c_like_init (Some c) (Some h) ft st1 = Ok st2 /\
    styleset_c_like st2 ft = Ok calls /\
    length calls = 84%nat /\
    forall k name i e old,
      c_like_styles !! k = Some (name, i) ->
      c_like_entries !! Z.to_nat i = Some e ->
      exists s,
        get_keyfile_style (Some c) (Some h) (Some (entry_name e))
          (Some (entry_style e)) (Some old) = Ok (Some s) /\
        take 4 (drop (4 * k) calls) = forwarded st2 (style_number name) s.
Proof.
  intros Hlong Hne Hft Hss0 Hn.
  pose proof (lookup_lt_Some _ _ _ Hss0) as Hlen.
  set (a0 := replicate (Z.to_nat n) zero_style).
  set (ss1 := set_styling (Some a0) ss0).
  set (st1 := with_style_set ft ss1 st).
  assert (Hnew : new_style_array ft n st = Ok st1).
  { unfold new_style_array.
    rewrite (update_style_set_lookup _ _ _ _ Hft Hss0).
    unfold g_new0_styles. destruct (decide (n <= 0)); [lia|]. reflexivity. }
  assert (Hlen0 : length a0 = Z.to_nat n) by apply length_replicate.
  destruct (c_like_loop [] c h ft Hlong) with (n := 20%nat) (i := 0)
    (st := st1) (ss := ss1) (a := a0)
    as (a' & Hloop & Hlen' & _ & Hin);
    try (simpl; lia); try reflexivity.
  { apply Forall_forall. intros e _. set_solver. }
  { by apply with_style_set_lookup. }
  set (st2 := set_style_sets
                (<[Z.to_nat ft := set_styling (Some a') ss1]>
                   (style_sets st1)) st1) in *.
  assert (Hss2 : style_sets st2 !! Z.to_nat ft
                 = Some (set_styling (Some a') ss1)).
  { subst st2 st1. simpl. rewrite list_lookup_insert_eq;
      [reflexivity | rewrite length_insert; exact Hlen]. }
  destruct (set_sci_styles_blocks st2 ft _ a' Hne Hft Hss2 eq_refl
              c_like_styles (c_like_styles_indices a' ltac:(lia)))
    as (calls & Hcalls & Hcount & Hblocks).
  exists st1, st2, calls.
  split; [exact Hnew|]. split; [exact Hloop|]. split; [exact Hcalls|].
  split; [exact Hcount|].
  intros k name i e old Hk He.
  destruct (Hblocks k name i Hk) as (s & Hs & Hblock).
  exists s. split; [|exact Hblock].
  rewrite <- Hs. apply Hin; [|exact He].
  apply lookup_lt_Some in He. rewrite c_like_entries_length in He.
  simpl. lia.
Qed.

(** ** [styleset_common], [styleset_c] and [styleset_none] *)

Lemma match_one_two {A : Type} (z : Z) (x y d : A) :
  match z with 1 => x | 2 => y | _ => d end =
  if decide (z = 1) then x else if decide (z = 2) then y else d.
Proof.
  destruct z as [|[p|[p|p|]|]|p]; repeat destruct (decide _);
    try reflexivity; try discriminate; try lia.
Qed.

Lemma match_two {A : Type} (z : Z) (y d : A) :
  match z with 2 => y | _ => d end = if decide (z = 2) then y else d.
Proof.
  destruct z as [|[p|[p|p|]|]|p]; repeat destruct (decide _);
    try reflexivity; try discriminate; try lia.
Qed.

(** Case analysis of a membership in a list built with [++] and [::]. *)
Ltac split_elem_of H :=
  repeat first
    [ apply elem_of_app in H as [H|H]
    | apply elem_of_cons in H as [H|H]
    | apply elem_of_nil in H; contradiction
    | apply list_elem_of_fmap in H as (? & H & _); discriminate H
    | match type of H with
      | _ ∈ (if ?b then _ else _) => destruct b
      | _ = (if ?b then _ else _) => destruct b
      end ].

(** Find the element in a list built with [++] and [::]. *)
Ltac find_elem :=
  first
    [ apply list_elem_of_here
    | apply list_elem_of_further; find_elem
    | apply elem_of_app; first [ left; find_elem | right; find_elem ] ].

(** [styleset_common] completes in every state: the four records it
    forwards are inside the common array. *)
Lemma styleset_common_completes (st : state) (style_bits ft_id : Z) :
  exists calls, styleset_common st style_bits ft_id = Ok calls.
Proof.
  unfold styleset_common. cbv zeta.
  rewrite !set_sci_style_of_common. eexists. reflexivity.
Qed.

(** The only properties [styleset_common] sets are the five fold ones. *)
Lemma styleset_common_properties (st : state) (style_bits ft_id : Z)
    (calls : list widget_call) (t : string) (l : sci_arg) :
  styleset_common st style_bits ft_id = Ok calls ->
  SSM SCI_SETPROPERTY (AText (Some t)) l ∈ calls ->
  t ∈ ["fold"; "fold.compact"; "fold.comment"; "fold.preprocessor";
       "fold.at.else"].
Proof using GEANY_FILETYPES_NONE style_number.
  clear utils_strtod filetypes_load_config filetype_lang.
  unfold styleset_common. cbv zeta.
  rewrite !set_sci_style_of_common, !bind_Ok_l.
  rewrite match_one_two, !match_two.
  intros Hcalls Hin. injection Hcalls as <-.
  split_elem_of Hin; try discriminate Hin;
    injection Hin as <- _; set_solver.
Qed.

(** The messages of [styleset_c] on a style set with at least 21 records
    and 3 keyword cells. *)
Lemma styleset_c_calls (st : state) (ss : StyleSet)
    (a : list HighlightingStyle) (k0 k1 k2 : option string)
    (rest : list (option string)) (s20 : HighlightingStyle) :
  GEANY_FILETYPES_C <> GEANY_FILETYPES_NONE -> 0 <= GEANY_FILETYPES_C ->
  style_sets st !! Z.to_nat GEANY_FILETYPES_C = Some ss ->
  styling ss = Some a -> (21 <= length a)%nat -> a !! 20%nat = Some s20 ->
  keywords ss = Some (k0 :: k1 :: k2 :: rest) ->
  exists common styles,
    styleset_common st 5 GEANY_FILETYPES_C = Ok common /\
    styleset_c_like st GEANY_FILETYPES_C = Ok styles /\
    styleset_c st =
    Ok (common
        ++ [ SSM SCI_SETLEXER (AConst SCLEX_CPP) (AInt 0);
             SSM SCI_SETWORDCHARS (AInt 0) (AText (wordchars ss));
             SSM SCI_SETWHITESPACECHARS (AInt 0)
               (AText (whitespace_chars st));
             SSM SCI_AUTOCSETMAXHEIGHT (AInt symbolcompletion_max_height)
               (AInt 0) ]
        ++ [ SSM SCI_SETKEYWORDS (AInt 0) (AText k0);
             SSM SCI_SETKEYWORDS (AInt 2) (AText k2) ]
        ++ assign_global_and_user_keywords k1
             (filetype_lang GEANY_FILETYPES_C)
        ++ (Styled <$> styles)
        ++ (if decide (foreground s20 = 1)
            then [ SSM SCI_SETPROPERTY
                     (AText (Some "styling.within.preprocessor"))
                     (AText (Some "1")) ]
            else [])
        ++ [ SSM SCI_SETPROPERTY
               (AText (Some "preprocessor.symbol.$(file.patterns.cpp)"))
               (AText (Some "#"));
             SSM SCI_SETPROPERTY
               (AText (Some "preprocessor.start.$(file.patterns.cpp)"))
               (AText (Some "if ifdef ifndef"));
             SSM SCI_SETPROPERTY
               (AText (Some "preprocessor.middle.$(file.patterns.cpp)"))
               (AText (Some "else elif"));
             SSM SCI_SETPROPERTY
               (AText (Some "preprocessor.end.$(file.patterns.cpp)"))
               (AText (Some "endif")) ]).
Proof.
  intros Hne HC Hss Ha Hlen H20 Hkw.
  destruct (styleset_common_completes st 5 GEANY_FILETYPES_C)
    as [common Hcommon].
  destruct (set_sci_styles_blocks st _ ss a Hne HC Hss Ha c_like_styles
              (c_like_styles_indices a ltac:(lia)))
    as (styles & Hstyles & _).
  exists common, styles. split; [exact Hcommon|]. split; [exact Hstyles|].
  unfold styleset_c. cbv zeta. rewrite Hcommon, bind_Ok_l.
  unfold apply_filetype_properties, keyword_at, styling_at.
  rewrite !(array_get_lookup _ _ _ HC Hss), !bind_Ok_l, Hkw.
  cbn [array_get decide]. unfold styleset_c_like in Hstyles.
  unfold styleset_c_like. rewrite Hstyles, Ha.
  rewrite (array_get_lookup a 20 s20) by (lia || exact H20).
  reflexivity.
Qed.

(** X11.  After a completed [styleset_c_init] (key files present), for C
    different from [GEANY_FILETYPES_NONE], [styleset_c] completes: every
    keyword cell and style record it reads is there.  The widget gets
    the primary and doc-comment keyword lists as stored, the secondary
    list behind the global type names and a blank when there are any,
    the word characters; and [styling.within.preprocessor] is set
    exactly when the first integer of [styling_within_preprocessor]
    (default 1) is 1. *)
Theorem styleset_c_after_init (c h : GKeyFile) (ft_id : Z)
    (u : uninitialised) (junk : nat -> option string) (st st' : state)
    (ss0 : StyleSet) (tmp : HighlightingStyle) :
  styling_lists_long_enough ["styling_within_preprocessor"] c h ->
  GEANY_FILETYPES_C <> GEANY_FILETYPES_NONE -> 0 <= GEANY_FILETYPES_C ->
  style_sets st !! Z.to_nat GEANY_FILETYPES_C = Some ss0 ->
  styleset_c_init ft_id (Some c) (Some h) u junk st = Ok st' ->
  get_keyfile_int (Some c) (Some h) (Some "styling")
    "styling_within_preprocessor" 1 0 NULL NULL zero_style = Ok tmp ->
  exists calls,
    styleset_c st' = Ok calls /\
    SSM SCI_SETKEYWORDS (AInt 0)
      (AText (Some (default
         "if const struct char int float double void long for while do case switch return"
         ((h ∪ c) !! ("keywords", "primary"))))) ∈ calls /\
    SSM SCI_SETKEYWORDS (AInt 2)
      (AText (Some (default "TODO FIXME"
                      ((h ∪ c) !! ("keywords", "docComment"))))) ∈ calls /\
    SSM SCI_SETKEYWORDS (AInt 1)
      (AText (Some
         (match get_global_typenames (filetype_lang GEANY_FILETYPES_C) with
          | None => EmptyString
          | Some s => s +:+ " "
          end +:+ default "" ((h ∪ c) !! ("keywords", "secondary")))))
      ∈ calls /\
    SSM SCI_SETWORDCHARS (AInt 0)
      (AText (Some (default GEANY_WORDCHARS
                      ((h ∪ c) !! ("settings", "wordchars"))))) ∈ calls /\
    (SSM SCI_SETPROPERTY (AText (Some "styling.within.preprocessor"))
       (AText (Some "1")) ∈ calls <-> foreground tmp = 1).
Proof.
  intros Hlong Hne HC Hss0 Hinit Htmp.
  destruct (styleset_c_init_outcome c h ft_id u junk st ss0 Hlong HC Hss0)
    as (st1 & a & fg & bg & Hall & Hst1 & Hlen & _ & H20 & Hint).
  rewrite Hall in Hinit. injection Hinit as <-.
  rewrite Hint in Htmp. injection Htmp as <-. cbn [foreground].
  pose proof (lookup_lt_Some _ _ _ Hss0) as Hl.
  destruct (styleset_c_calls st1 _ a _ _ _ _ _ Hne HC
              ltac:(subst st1; by apply with_style_set_lookup) eq_refl
              ltac:(lia) H20 eq_refl)
    as (common & styles & Hcommon & _ & Hcalls).
  eexists. split; [exact Hcalls|].
  cbn [wordchars assign_global_and_user_keywords].
  split; [find_elem|]. split; [find_elem|].
  split; [find_elem|]. split; [find_elem|].
  split.
  - intros Hin.
    apply elem_of_app in Hin as [Hin|Hin].
    { apply (styleset_common_properties _ _ _ _ _ _ Hcommon) in Hin.
      exfalso. revert Hin. apply (bool_decide_unpack _). vm_compute.
      exact I. }
    split_elem_of Hin; try discriminate Hin; assumption.
  - intros Hfg. cbn [foreground].
    destruct (decide (fg = 1)); [|contradiction].
    apply elem_of_app; right. apply elem_of_app; right.
    apply elem_of_app; right. apply elem_of_app; right.
    apply elem_of_app; right. apply elem_of_app; left.
    apply list_elem_of_here.
Qed.

(** ** Uninitialised locals *)

(** With both key files, [get_keyfile_int] either faults on the list or
    stores two integers that the key files alone determine. *)
Lemma get_keyfile_int_shape (c h : GKeyFile) (section key : string)
    (fd sd : Z) :
  (exists f, forall end1 end2 old,
      get_keyfile_int (Some c) (Some h) (Some section) key fd sd end1 end2
        old = Fault f) \/
  (exists fg bg, forall end1 end2 old,
      get_keyfile_int (Some c) (Some h) (Some section) key fd sd end1 end2
        old = Ok (mkStyle fg bg (bold old) (italic old))).
Proof.
  destruct (g_key_file_get_string_list (h ∪ c) section key) as [[|s0 rest]|]
    eqn:Hl.
  - left. exists (OutOfBounds 1). intros end1 end2 old.
    unfold get_keyfile_int. cbv zeta. rewrite layered_string_list, Hl.
    reflexivity.
  - right. eexists. eexists. intros end1 end2 old.
    apply (get_keyfile_int_present _ _ _ _ _ _ _ _ _ _ _ Hl).
  - right. exists fd, sd. intros end1 end2 old.
    unfold g_key_file_get_string_list in Hl. apply fmap_None in Hl.
    apply (get_keyfile_int_absent _ _ _ _ _ _ _ _ _ Hl).
Qed.

(** X12.  What [end1] and [end2] hold when [get_keyfile_int] is entered
    never shows in its outcome, although the function compares them
    before [strtol] may have assigned them. *)
Theorem get_keyfile_int_ignores_uninitialised_pointers
    (config configh : option GKeyFile) (section : option string)
    (key : string) (fd sd : Z) (end1 end2 end1' end2' : cptr)
    (style : HighlightingStyle) :
  get_keyfile_int config configh section key fd sd end1 end2 style =
  get_keyfile_int config configh section key fd sd end1' end2' style.
Proof.
  destruct config as [c|], configh as [h|], section as [sec|];
    try reflexivity.
  destruct (get_keyfile_int_shape c h sec key fd sd)
    as [[f Hf] | (fg & bg & Hok)].
  - rewrite !Hf. reflexivity.
  - rewrite !Hok. reflexivity.
Qed.

Lemma bind_ext {A B : Type} (m : result A) (k k' : A -> result B) :
  (forall a, k a = k' a) -> m ≫= k = m ≫= k'.
Proof. intros H. destruct m; simpl; [apply H | reflexivity]. Qed.

(** X13.  With both key files present [styleset_common_init] does not
    depend on its uninitialised locals (nor on [ft_id]): the outcome,
    fault or state, is the same for any two contents of them. *)
Theorem styleset_common_init_ignores_uninitialised (c h : GKeyFile)
    (ft_id ft_id' : Z) (u u' : uninitialised) (st : state) :
  styleset_common_init ft_id (Some c) (Some h) u st =
  styleset_common_init ft_id' (Some c) (Some h) u' st.
Proof.
  unfold styleset_common_init.
  destruct (common_style_set_valid st); [reflexivity|].
  cbv zeta. do 12 (apply bind_ext; intros ?).
  unfold load_common_int.
  do 8 (match goal with
        | |- get_keyfile_int _ _ (Some ?sec) ?key ?fd ?sd _ _ _ ≫= _ = _ =>
            destruct (get_keyfile_int_shape c h sec key fd sd)
              as [[? Hf] | (? & ? & Hok)];
            [ rewrite !Hf; reflexivity
            | rewrite !Hok, !bind_Ok_l; cbn [foreground background];
              clear Hok ]
        end).
  reflexivity.
Qed.

(** ** What [styleset_common_init] leaves for the style setters *)

(** The settings a completed first call stores, in terms of the four
    [get_keyfile_int] calls they come from. *)
Lemma styleset_common_init_settings (ft_id : Z)
    (config config_home : option GKeyFile) (u : uninitialised)
    (st st' : state) :
  common_style_set_valid st = false ->
  styleset_common_init ft_id config config_home u st = Ok st' ->
  exists t0 t1 t2 t3,
    load_common_int config config_home u 0 "folding_style" 1 1 (tmp_style u)
      = Ok t0 /\
    load_common_int config config_home u 1 "invert_all" 0 0 t0 = Ok t1 /\
    load_common_int config config_home u 2 "folding_horiz_line" 2 0 t1
      = Ok t2 /\
    load_common_int config config_home u 3 "caret_width" 1 0 t2 = Ok t3 /\
    folding_style (common_style_set st')
      = mkFolding (bitfield 2 (foreground t0)) (bitfield 2 (background t0))
          (bitfield 3 (foreground t2)) /\
    invert_all (common_style_set st') = foreground t1 /\
    background (common_styling (common_style_set st') GCS_CARET)
      = foreground t3 /\
    common_wordchars (common_style_set st')
      = get_keyfile_wordchars config config_home /\
    whitespace_chars st' = get_keyfile_whitespace_chars config config_home.
Proof.
  intros Hv Hcall. unfold styleset_common_init in Hcall.
  rewrite Hv in Hcall. cbv zeta in Hcall.
  do 12 (apply bind_Ok in Hcall;
         let Hc := fresh "Hc" in
         destruct Hcall as (? & Hc & Hcall);
         unfold load_common_hex in Hc; apply bind_Ok in Hc;
         destruct Hc as (? & _ & Hc); injection Hc as <-).
  apply bind_Ok in Hcall. destruct Hcall as (t0 & H0 & Hcall).
  apply bind_Ok in Hcall. destruct Hcall as (t1 & H1 & Hcall).
  apply bind_Ok in Hcall. destruct Hcall as (t2 & H2 & Hcall).
  apply bind_Ok in Hcall. destruct Hcall as (t3 & H3 & Hcall).
  do 4 (apply bind_Ok in Hcall; destruct Hcall as (? & _ & Hcall)).
  injection Hcall as <-.
  exists t0, t1, t2, t3.
  split; [exact H0|]. split; [exact H1|]. split; [exact H2|].
  split; [exact H3|]. simpl. repeat split; reflexivity.
Qed.

(** X14.  With a [NULL] key file the first [styleset_common_init] still
    completes, and since no [get_keyfile_int] call writes [tmp_style],
    the fold settings, [invert_all] and the caret width it stores are
    what that uninitialised local held; word and whitespace characters
    get their built-in defaults. *)
Theorem styleset_common_init_null_keyfile_stores_tmp_style (ft_id : Z)
    (config config_home : option GKeyFile) (u : uninitialised)
    (st : state) :
  config = None \/ config_home = None ->
  common_style_set_valid st = false ->
  exists st',
    styleset_common_init ft_id config config_home u st = Ok st' /\
    folding_style (common_style_set st')
      = mkFolding (bitfield 2 (foreground (tmp_style u)))
          (bitfield 2 (background (tmp_style u)))
          (bitfield 3 (foreground (tmp_style u))) /\
    invert_all (common_style_set st') = foreground (tmp_style u) /\
    background (common_styling (common_style_set st') GCS_CARET)
      = foreground (tmp_style u) /\
    common_wordchars (common_style_set st') = Some GEANY_WORDCHARS /\
    whitespace_chars st' = Some GEANY_WHITESPACE_CHARS.
Proof.
  intros Hnull Hv.
  destruct (styleset_common_init_without_keyfiles ft_id config config_home
              u st Hnull) as [st' Hcall].
  exists st'. split; [exact Hcall|].
  destruct (styleset_common_init_settings _ _ _ _ _ _ Hv Hcall)
    as (t0 & t1 & t2 & t3 & H0 & H1 & H2 & H3 & Hf & Hi & Hw & Hwc & Hws).
  assert (Hint : forall k key fd sd tmp tmp',
            load_common_int config config_home u k key fd sd tmp = Ok tmp' ->
            tmp' = tmp).
  { intros k key fd sd tmp tmp' H.
    unfold load_common_int, get_keyfile_int in H.
    destruct Hnull as [-> | ->]; [|destruct config];
      injection H as <-; reflexivity. }
  apply Hint in H0. subst t0. apply Hint in H1. subst t1.
  apply Hint in H2. subst t2. apply Hint in H3. subst t3.
  split; [exact Hf|]. split; [exact Hi|]. split; [exact Hw|].
  rewrite Hwc, Hws.
  unfold get_keyfile_wordchars, get_keyfile_whitespace_chars.
  destruct Hnull as [-> | ->]; [|destruct config]; split; reflexivity.
Qed.

Lemma get_keyfile_wordchars_some (config configh : option GKeyFile) :
  exists w, get_keyfile_wordchars config configh = Some w.
Proof.
  unfold get_keyfile_wordchars, g_strdup.
  destruct config as [c|], configh as [h|]; eauto.
  cbv zeta.
  destruct (g_key_file_get_string h "settings" "wordchars"); eauto.
  destruct (g_key_file_get_string c "settings" "wordchars"); eauto.
Qed.

Lemma get_keyfile_whitespace_chars_some (config configh : option GKeyFile) :
  exists w, get_keyfile_whitespace_chars config configh = Some w.
Proof.
  unfold get_keyfile_whitespace_chars, g_strdup.
  destruct config as [c|], configh as [h|]; eauto.
  cbv zeta.
  destruct (g_key_file_get_string h "settings" "whitespace_chars"); eauto.
  destruct (g_key_file_get_string c "settings" "whitespace_chars"); eauto.
Qed.

(** X15.  After a completed first [styleset_common_init], whatever the
    key files, [styleset_none] completes: it selects the null lexer,
    forwards the common default style as [STYLE_DEFAULT], sends the
    messages of [styleset_common], and last the word characters and then
    the whitespace characters, both of them strings and never [NULL]. *)
Theorem styleset_none_after_init (ft_id : Z)
    (config config_home : option GKeyFile) (u : uninitialised)
    (st st' : state) :
  common_style_set_valid st = false ->
  styleset_common_init ft_id config config_home u st = Ok st' ->
  exists common w ws,
    styleset_common st' 5 GEANY_FILETYPES_NONE = Ok common /\
    get_keyfile_wordchars config config_home = Some w /\
    get_keyfile_whitespace_chars config config_home = Some ws /\
    styleset_none st' =
    Ok ([ SSM SCI_SETLEXER (AConst SCLEX_NULL) (AInt 0) ]
        ++ (Styled <$> forwarded st' (style_number STYLE_DEFAULT)
                         (common_styling (common_style_set st')
                            GCS_DEFAULT))
        ++ common
        ++ [ SSM SCI_SETWORDCHARS (AInt 0) (AText (Some w));
             SSM SCI_SETWHITESPACECHARS (AInt 0) (AText (Some ws)) ]).
Proof.
  intros Hv Hcall.
  destruct (styleset_common_init_settings _ _ _ _ _ _ Hv Hcall)
    as (_ & _ & _ & _ & _ & _ & _ & _ & _ & _ & _ & Hwc & Hws).
  destruct (styleset_common_completes st' 5 GEANY_FILETYPES_NONE)
    as [common Hcommon].
  destruct (get_keyfile_wordchars_some config config_home) as [w Hw].
  destruct (get_keyfile_whitespace_chars_some config config_home)
    as [ws Hw'].
  exists common, w, ws.
  split; [exact Hcommon|]. split; [exact Hw|]. split; [exact Hw'|].
  unfold styleset_none. cbv zeta.
  rewrite set_sci_style_of_common, bind_Ok_l, Hcommon, bind_Ok_l.
  rewrite Hwc, Hws, Hw, Hw'. reflexivity.
Qed.

(** The one fold-flags message of [styleset_common]. *)
Lemma styleset_common_fold_flags (st : state) (style_bits ft_id : Z)
    (calls : list widget_call) (a b : sci_arg) :
  styleset_common st style_bits ft_id = Ok calls ->
  SSM SCI_SETFOLDFLAGS a b ∈ calls <->
  a = AInt (match draw_line (folding_style (common_style_set st)) with
            | 1 => 4 | 2 => 16 | _ => 0 end) /\ b = AInt 0.
Proof.
  unfold styleset_common. cbv zeta.
  rewrite !set_sci_style_of_common, !bind_Ok_l.
  rewrite !match_one_two.
  intros Hcalls. injection Hcalls as <-. split.
  - intros Hin.
    split_elem_of Hin; try discriminate Hin;
      injection Hin as -> ->; split; reflexivity.
  - intros [-> ->]. do 24 apply list_elem_of_further.
    destruct (decide _); [apply list_elem_of_here|].
    destruct (decide _); apply list_elem_of_here.
Qed.

(** X16.  The fold flags follow the configured [folding_horiz_line]
    through the 3-bit field [draw_line]: after a completed first
    [styleset_common_init] with both key files, [styleset_common] sends
    exactly one kind of [SCI_SETFOLDFLAGS] message, with 4 when the
    configured integer (default 2) is 1 modulo 8, with 16 when it is 2
    modulo 8 and with 0 otherwise. *)
Theorem fold_flags_follow_folding_horiz_line (c h : GKeyFile)
    (ft_id style_bits ft : Z) (u : uninitialised) (st st' : state)
    (tmp : HighlightingStyle) (calls : list widget_call)
    (a b : sci_arg) :
  common_style_set_valid st = false ->
  styleset_common_init ft_id (Some c) (Some h) u st = Ok st' ->
  get_keyfile_int (Some c) (Some h) (Some "styling") "folding_horiz_line"
    2 0 NULL NULL zero_style = Ok tmp ->
  styleset_common st' style_bits ft = Ok calls ->
  SSM SCI_SETFOLDFLAGS a b ∈ calls <->
  a = AInt (match foreground tmp mod 8 with
            | 1 => 4 | 2 => 16 | _ => 0 end) /\ b = AInt 0.
Proof.
  intros Hv Hcall Htmp Hcalls.
  destruct (styleset_common_init_settings _ _ _ _ _ _ Hv Hcall)
    as (t0 & t1 & t2 & _ & _ & _ & H2 & _ & Hf & _).
  rewrite (styleset_common_fold_flags _ _ _ _ _ _ Hcalls), Hf.
  cbn [draw_line]. unfold bitfield.
  unfold load_common_int in H2.
  destruct (get_keyfile_int_shape c h "styling" "folding_horiz_line" 2 0)
    as [[f Hfault] | (fg & bg & Hok)].
  - rewrite Hfault in Htmp. discriminate Htmp.
  - rewrite Hok in Htmp, H2. injection Htmp as <-. injection H2 as <-.
    reflexivity.
Qed.

(** [styling_lists_long_enough] as a check of the values of the merged
    file. *)
Lemma styling_lists_long_enough_check (int_keys : list string)
    (c h : GKeyFile) :
  map_Forall
    (fun k v =>
       k.1 = "styling" ->
       (1 <= length (split_pieces EmptyString v))%nat /\
       (k.2 ∉ int_keys -> (3 <= length (split_pieces EmptyString v))%nat))
    (h ∪ c) ->
  styling_lists_long_enough int_keys c h.
Proof using Type.
  clear. intros H key l Hl. unfold g_key_file_get_string_list in Hl.
  apply fmap_Some in Hl as (v & Hv & ->).
  exact (H ("styling", key) v Hv eq_refl).
Qed.

End Highlighting.

(** * The statements at concrete inputs *)

Example sample_lists_long_enough :
  common_lists_long_enough Sample.system_file Sample.theme_file.
Proof.
  intros key l Hl. unfold g_key_file_get_string_list in Hl.
  rewrite lookup_union in Hl.
  unfold Sample.theme_file, Sample.system_file in Hl.
  destruct (decide (key = "invert_all")) as [->|Hinv].
  - vm_compute in Hl. injection Hl as <-. split; [simpl; lia|].
    intros Hnot. exfalso. apply Hnot. unfold common_int_keys. set_solver.
  - rewrite lookup_singleton_ne in Hl by congruence.
    destruct (decide (key = "comment")) as [->|Hcom].
    + vm_compute in Hl. injection Hl as <-. split; [|intros _]; simpl; lia.
    + rewrite lookup_insert_ne, lookup_singleton_ne in Hl by congruence.
      discriminate Hl.
Qed.

Lemma user_keyfile_takes_precedence_witness :
  sample_c_system_file !! ("styling", "comment")
    = Some "8421504;16777215;false;false" /\
  sample_c_user_file !! ("styling", "comment")
    = Some "208;16777215;true;false" /\
  get_keyfile_style Sample.utils_strtod Sample.utils_atob
    (Some sample_c_system_file) (Some sample_c_user_file) (Some "comment")
    (Some gsd_comment) (Some zero_style)
  = Ok (Some (mkStyle 208 16777215 true false)) /\
  get_keyfile_hex Sample.utils_strtod Sample.utils_atob
    (Some sample_c_system_file) (Some sample_c_user_file) (Some "styling")
    "comment" (Some "0") (Some "0") (Some "false") zero_style
  = Ok (mkStyle 208 16777215 true false) /\
  get_keyfile_wordchars Sample.GEANY_WORDCHARS (Some Sample.system_file)
    (Some Sample.user_file) = Some "abc" /\
  get_keyfile_style Sample.utils_strtod Sample.utils_atob
    (Some Sample.system_file) (Some Sample.user_file) (Some "string")
    (Some (mkStyle 0xff901e 0xffffff false false)) (Some Sample.no_style)
  = Ok (Some (mkStyle 0x1e90ff 0xffffff false false)) /\
  get_keyfile_int (Some Sample.system_file) (Some Sample.theme_file)
    (Some "styling") "invert_all" 0 0 NULL NULL Sample.no_style
  = Ok (mkStyle 1 0 false false).
Proof.
  split; [vm_compute; reflexivity|]. split; [vm_compute; reflexivity|].
  split; [|split; [|split; [|split]]].
  - destruct (user_keyfile_takes_precedence Sample.utils_strtod
                Sample.utils_atob Sample.GEANY_WORDCHARS sample_c_system_file
                sample_c_user_file) as (_ & _ & _ & _ & _ & Hs & _ & _).
    destruct (Hs "comment" gsd_comment zero_style) as [_ Hlist].
    exact (Hlist "208" "16777215" "true" ["false"] eq_refl).
  - destruct (user_keyfile_takes_precedence Sample.utils_strtod
                Sample.utils_atob Sample.GEANY_WORDCHARS sample_c_system_file
                sample_c_user_file) as (_ & _ & _ & _ & _ & _ & Hh & _).
    destruct (Hh "styling" "comment" (Some "0") (Some "0") (Some "false")
                zero_style) as [_ Hlist].
    exact (Hlist "208" "16777215" "true" ["false"] eq_refl).
  - destruct (user_keyfile_takes_precedence Sample.utils_strtod
                Sample.utils_atob Sample.GEANY_WORDCHARS Sample.system_file
                Sample.user_file) as (_ & _ & _ & Hw & _).
    exact Hw.
  - destruct (user_keyfile_takes_precedence Sample.utils_strtod
                Sample.utils_atob Sample.GEANY_WORDCHARS Sample.system_file
                Sample.user_file) as (_ & _ & _ & _ & _ & Hs & _ & _).
    destruct (Hs "string" (mkStyle 0xff901e 0xffffff false false)
                Sample.no_style) as [Hdefault _].
    apply Hdefault. vm_compute. reflexivity.
  - destruct (user_keyfile_takes_precedence Sample.utils_strtod
                Sample.utils_atob Sample.GEANY_WORDCHARS Sample.system_file
                Sample.theme_file) as (_ & _ & _ & _ & _ & _ & _ & Hi).
    destruct (Hi "styling" "invert_all" 0 0 NULL NULL Sample.no_style)
      as [_ Hlist].
    exact (Hlist "1" [] eq_refl).
Defined.

Lemma user_keyfile_default_italic_counterexample :
  ({[ ("styling", "comment") := "1;2;true" ]} : GKeyFile)
    !! ("styling", "comment") = Some "1;2;true" /\
  Sample.system_file !! ("styling", "comment")
    = Some "0x808080;0xffffff;false;false" /\
  get_keyfile_style Sample.utils_strtod Sample.utils_atob
    (Some Sample.system_file) (Some {[ ("styling", "comment") := "1;2;true" ]})
    (Some "comment") (Some (mkStyle 0 0 false true)) (Some Sample.no_style)
  = Ok (Some (mkStyle 1 2 true true)) /\
  get_keyfile_style Sample.utils_strtod Sample.utils_atob
    (Some Sample.system_file) (Some {[ ("styling", "comment") := "1;2;true" ]})
    (Some "comment") (Some (mkStyle 0 0 false true)) (Some Sample.no_style)
  <>
  get_keyfile_style Sample.utils_strtod Sample.utils_atob
    (Some Sample.system_file) (Some {[ ("styling", "comment") := "1;2;true" ]})
    (Some "comment") (Some (mkStyle 0 0 false false)) (Some Sample.no_style).
Proof.
  split; [vm_compute; reflexivity|]. split; [vm_compute; reflexivity|].
  split; [vm_compute; reflexivity|]. vm_compute. discriminate.
Qed.

Lemma invert_black_counterexample :
  invert_all (common_style_set Sample.inverted) <> 0 /\
  invert Sample.inverted 0 <> 0xffffff - 0.
Proof. split; vm_compute; discriminate. Qed.

Lemma invert_negates_low_24_bits_witness :
  invert Sample.inverted 0x123456 = 0xff000000 + 0xedcba9 /\
  invert (Sample.initial 0) 0x123456 = 0x123456.
Proof.
  split.
  - destruct (invert_negates_low_24_bits Sample.inverted 0x123456)
      as [_ Hon].
    destruct Hon as [H _]; [vm_compute; discriminate | lia | exact H].
  - destruct (invert_negates_low_24_bits (Sample.initial 0) 0x123456)
      as [Hoff _].
    apply Hoff. reflexivity.
Defined.

Lemma rotate_rgb_swaps_red_and_blue_witness :
  rotate_rgb 0x123456 = 0x563412 /\ rotate_rgb (rotate_rgb 0x123456) = 0x123456.
Proof.
  destruct (rotate_rgb_swaps_red_and_blue 0x123456) as (H1 & _ & H2);
    [lia|].
  split; [exact H1 | exact H2].
Defined.

Lemma missing_value_gives_default_witness :
  get_keyfile_keywords None (Some Sample.user_file) (Some "keywords")
    "primary" 0 1 (Some "if else") Sample.with_keywords
  = Ok (mkState None [mkStyleSet None (Some [None; Some "if else"]) None]
          Sample.initial_common false) /\
  get_keyfile_wordchars Sample.GEANY_WORDCHARS (Some Sample.user_file)
    (Some Sample.user_file) = Some Sample.GEANY_WORDCHARS /\
  get_keyfile_whitespace_chars (Some Sample.system_file) None
  = Some GEANY_WHITESPACE_CHARS.
Proof.
  split; [|split].
  - destruct (missing_value_gives_default Sample.GEANY_WORDCHARS None
                (Some Sample.user_file)) as (Hk & _ & _).
    destruct (Hk "keywords" "primary" 0 1 (Some "if else")
                Sample.with_keywords I) as [_ Hstore].
    apply (Hstore (mkStyleSet None (Some [None; None]) None) [None; None]);
      [lia | reflexivity | reflexivity | simpl; lia].
  - destruct (missing_value_gives_default Sample.GEANY_WORDCHARS
                (Some Sample.user_file) (Some Sample.user_file))
      as (_ & Hw & _).
    apply Hw. split; vm_compute; reflexivity.
  - destruct (missing_value_gives_default Sample.GEANY_WORDCHARS
                (Some Sample.system_file) None) as (_ & _ & Hws).
    apply Hws. exact I.
Defined.

Lemma set_sci_style_verbatim_counterexample :
  styling_record 0 Sample.inverted 0 0 (mkStyle 0 0 false false) /\
  set_sci_style 0 Sample.inverted 32 0 0 <>
  Ok [ SCI_STYLESETFORE 32 0; SCI_STYLESETBACK 32 0;
       SCI_STYLESETBOLD 32 false; SCI_STYLESETITALIC 32 false ].
Proof.
  split.
  - exists GCS_DEFAULT. split; reflexivity.
  - vm_compute. discriminate.
Qed.

Lemma set_sci_style_sends_inverted_colours_witness :
  set_sci_style 0 Sample.inverted 32 0 0 =
  Ok [ SCI_STYLESETFORE 32 0xffffffff; SCI_STYLESETBACK 32 0xffffffff;
       SCI_STYLESETBOLD 32 false; SCI_STYLESETITALIC 32 false ] /\
  set_sci_style 0 (Sample.initial 0) 32 0 0 =
  Ok [ SCI_STYLESETFORE 32 0; SCI_STYLESETBACK 32 0;
       SCI_STYLESETBOLD 32 false; SCI_STYLESETITALIC 32 false ].
Proof.
  split.
  - destruct (set_sci_style_sends_inverted_colours 0 Sample.inverted 32 0 0
                Sample.no_style) as [H _]; [|exact H].
    exists GCS_DEFAULT. split; reflexivity.
  - destruct (set_sci_style_sends_inverted_colours 0 (Sample.initial 0) 32 0 0
                Sample.no_style) as [_ H].
    + exists GCS_DEFAULT. split; reflexivity.
    + apply H; [reflexivity | simpl; lia | simpl; lia].
Defined.

Lemma highlighting_get_style_check_is_too_wide_witness :
  highlighting_get_style 3 Sample.filetypes_load_config (Sample.initial 2) 3 0
  = Fault (OutOfBounds 3) /\
  highlighting_get_style 3 Sample.filetypes_load_config (Sample.initial 2) 2 0
  = Fault (OutOfBounds 2).
Proof.
  split.
  - apply (highlighting_get_style_check_is_too_wide 3
             Sample.filetypes_load_config (Sample.initial 2) 3 0);
      [reflexivity | lia | right; reflexivity].
  - apply (highlighting_get_style_check_is_too_wide 3
             Sample.filetypes_load_config (Sample.initial 2) 2 0);
      [reflexivity | lia | left; reflexivity].
Defined.

Lemma short_list_is_read_past_its_terminator_witness :
  get_keyfile_style Sample.utils_strtod Sample.utils_atob
    (Some Sample.system_file) (Some Sample.user_file) (Some "default")
    (Some Sample.no_style) (Some Sample.no_style) = Fault (OutOfBounds 3) /\
  get_keyfile_hex Sample.utils_strtod Sample.utils_atob
    (Some Sample.system_file) (Some Sample.user_file) (Some "styling")
    "default" (Some "0x000000") (Some "0xffffff") (Some "false")
    Sample.no_style = Fault (OutOfBounds 3).
Proof.
  destruct (short_list_is_read_past_its_terminator Sample.utils_strtod
              Sample.utils_atob Sample.system_file Sample.user_file "default"
              ["0x1"; "0x2"]) as [Hstyle Hhex];
    [vm_compute; reflexivity | simpl; lia |].
  split; [apply Hstyle | apply Hhex].
Defined.


Example sample_c_files_long_enough :
  styling_lists_long_enough ["styling_within_preprocessor"]
    sample_c_system_file sample_c_user_file.
Proof.
  apply styling_lists_long_enough_check.
  apply (bool_decide_unpack _). vm_compute. exact I.
Qed.

Example sample_c_styles_long_enough :
  styling_lists_long_enough [] sample_c_system_file sample_c_user_file.
Proof.
  apply styling_lists_long_enough_check.
  apply (bool_decide_unpack _). vm_compute. exact I.
Qed.

Lemma invert_negates_channels_of_any_guint_witness :
  0 <= invert Sample.inverted 0xff123456 < 2 ^ 32 /\
  invert Sample.inverted 0xff123456 mod 2 ^ 24
    = 0xffffff - 0xff123456 mod 2 ^ 24 /\
  invert Sample.inverted (invert Sample.inverted 0xff123456) mod 2 ^ 24
    = 0xff123456 mod 2 ^ 24.
Proof.
  apply (invert_negates_channels_of_any_guint Sample.inverted 0xff123456);
    [vm_compute; discriminate | lia].
Defined.

Lemma new_style_array_gives_zeroed_records_witness :
  (exists st',
     new_style_array 1 3 (Sample.initial 2) = Ok st' /\
     style_sets st' !! 1%nat
       = Some (mkStyleSet (Some [zero_style; zero_style; zero_style])
                 None None)) /\
  new_style_array 2 3 (Sample.initial 2) = Fault (OutOfBounds 2).
Proof.
  split.
  - destruct (new_style_array_gives_zeroed_records 1 3 (Sample.initial 2))
      as [Hin _]; [lia|].
    destruct (Hin Sample.no_style_set) as (st' & Hcall & Hlook & _);
      [lia | reflexivity |].
    exists st'. split; [exact Hcall | exact Hlook].
  - destruct (new_style_array_gives_zeroed_records 2 3 (Sample.initial 2))
      as [_ Hout]; [lia|].
    apply Hout. right. simpl. lia.
Defined.

Lemma styleset_c_like_init_fills_twenty_records_witness :
  exists st' a',
    styleset_c_like_init Sample.utils_strtod Sample.utils_atob
      (Some sample_c_system_file) (Some sample_c_user_file) 1
      (sample_with_styling 20) = Ok st' /\
    style_sets st' !! 1%nat = Some (mkStyleSet (Some a') None None) /\
    length a' = 20%nat /\
    a' !! 0%nat = Some (mkStyle 0x000000 0xffffff false false) /\
    a' !! 7%nat = Some (mkStyle 0x1e90ff 0xffffff false false).
Proof.
  destruct (styleset_c_like_init_fills_twenty_records Sample.utils_strtod
              Sample.utils_atob sample_c_system_file sample_c_user_file 1
              (sample_with_styling 20)
              (mkStyleSet (Some (replicate 20 zero_style)) None None)
              (replicate 20 zero_style))
    as (st' & a' & Hcall & Hlook & _ & Hlen & _ & _ & Habsent);
    [ exact sample_c_styles_long_enough | lia | reflexivity | reflexivity
    | simpl; lia | ].
  exists st', a'. split; [exact Hcall|]. split; [exact Hlook|].
  split; [exact Hlen|]. split.
  - apply (Habsent 0%nat (mkEntry "default" gsd_default));
      [reflexivity | vm_compute; reflexivity].
  - apply (Habsent 7%nat (mkEntry "string" gsd_string));
      [reflexivity | vm_compute; reflexivity].
Defined.

Lemma styleset_c_like_init_needs_twenty_records_witness :
  styleset_c_like_init Sample.utils_strtod Sample.utils_atob
    (Some sample_c_system_file) (Some sample_c_user_file) 1
    (sample_with_styling 3) = Fault (OutOfBounds 3) /\
  styleset_c_like_init Sample.utils_strtod Sample.utils_atob
    (Some sample_c_system_file) (Some sample_c_user_file) 1
    (Sample.initial 2) = Fault NullPointer.
Proof.
  split.
  - destruct (styleset_c_like_init_needs_twenty_records Sample.utils_strtod
                Sample.utils_atob sample_c_system_file sample_c_user_file 1
                (sample_with_styling 3)
                (mkStyleSet (Some (replicate 3 zero_style)) None None))
      as [Hshort _];
      [exact sample_c_styles_long_enough | lia | reflexivity |].
    apply (Hshort (replicate 3 zero_style)); [reflexivity | simpl; lia].
  - destruct (styleset_c_like_init_needs_twenty_records Sample.utils_strtod
                Sample.utils_atob sample_c_system_file sample_c_user_file 1
                (Sample.initial 2) Sample.no_style_set)
      as [_ Hnull];
      [exact sample_c_styles_long_enough | lia | reflexivity |].
    apply Hnull. reflexivity.
Defined.

Lemma styleset_c_like_init_without_keyfiles_witness :
  styleset_c_like_init Sample.utils_strtod Sample.utils_atob None
    (Some sample_c_user_file) 1 (Sample.initial 2) = Ok (Sample.initial 2).
Proof.
  apply (styleset_c_like_init_without_keyfiles Sample.utils_strtod
           Sample.utils_atob None (Some sample_c_user_file) 1
           (Sample.initial 2));
    [left; reflexivity | simpl; lia].
Defined.

Lemma styleset_c_init_gives_complete_style_set_witness :
  exists st' a,
    styleset_c_init Sample.utils_strtod Sample.utils_atob
      Sample.GEANY_WORDCHARS 1 1 (Some sample_c_system_file)
      (Some sample_c_user_file) Sample.no_locals (fun _ => None)
      (Sample.initial 2) = Ok st' /\
    style_sets st' !! 1%nat
      = Some (mkStyleSet (Some a)
                (Some [Some "if else"; Some ""; Some "TODO"; None])
                (Some "_abc")) /\
    length a = 21%nat.
Proof.
  destruct (styleset_c_init_gives_complete_style_set Sample.utils_strtod
              Sample.utils_atob Sample.GEANY_WORDCHARS 1 sample_c_system_file
              sample_c_user_file 1 Sample.no_locals (fun _ => None)
              (Sample.initial 2) Sample.no_style_set)
    as (st' & a & Hcall & Hlook & Hlen & _);
    [exact sample_c_files_long_enough | lia | reflexivity |].
  exists st', a. split; [exact Hcall|]. split; [exact Hlook | exact Hlen].
Defined.

Lemma styleset_c_init_without_keyfiles_witness :
  styleset_c_init Sample.utils_strtod Sample.utils_atob
    Sample.GEANY_WORDCHARS 1 1 None None Sample.no_locals (fun _ => None)
    (Sample.initial 2)
  = Ok (with_style_set 1
          (mkStyleSet (Some (replicate 21 zero_style))
             (Some [ Some "if const struct char int float double void long for while do case switch return";
                     Some ""; Some "TODO FIXME"; None ])
             (Some Sample.GEANY_WORDCHARS))
          (Sample.initial 2)).
Proof.
  apply (styleset_c_init_without_keyfiles Sample.utils_strtod
           Sample.utils_atob Sample.GEANY_WORDCHARS 1 None None 1
           Sample.no_locals (fun _ => None) (Sample.initial 2)
           Sample.no_style_set);
    [left; reflexivity | lia | reflexivity].
Defined.

Lemma styleset_c_like_forwards_twenty_records_witness :
  exists calls,
    styleset_c_like 0 scintilla_style_number (sample_with_styling 20) 1
      = Ok calls /\
    length calls = 84%nat /\
    take 4 (drop 8 calls) = forwarded (sample_with_styling 20) 1 zero_style.
Proof.
  destruct (styleset_c_like_forwards_twenty_records 0 scintilla_style_number
              (sample_with_styling 20) 1
              (mkStyleSet (Some (replicate 20 zero_style)) None None)
              (replicate 20 zero_style))
    as (calls & Hcall & Hlen & Hrows);
    [lia | lia | reflexivity | reflexivity | simpl; lia |].
  exists calls. split; [exact Hcall|]. split; [exact Hlen|].
  destruct (Hrows 2%nat SCE_C_COMMENT 1 eq_refl) as (_ & s & Hs & Hblock).
  vm_compute in Hs. injection Hs as <-. exact Hblock.
Defined.

Lemma c_like_styles_reach_the_widget_witness :
  exists st1 st2 calls s,
    new_style_array 1 20 (Sample.initial 2) = Ok st1 /\
    styleset_c_like_init Sample.utils_strtod Sample.utils_atob
      (Some sample_c_system_file) (Some sample_c_user_file) 1 st1 = Ok st2 /\
    styleset_c_like 0 scintilla_style_number st2 1 = Ok calls /\
    length calls = 84%nat /\
    get_keyfile_style Sample.utils_strtod Sample.utils_atob
      (Some sample_c_system_file) (Some sample_c_user_file) (Some "comment")
      (Some gsd_comment) (Some zero_style) = Ok (Some s) /\
    take 4 (drop 8 calls) = forwarded st2 1 s.
Proof.
  destruct (c_like_styles_reach_the_widget Sample.utils_strtod
              Sample.utils_atob 0 scintilla_style_number sample_c_system_file
              sample_c_user_file 1 20 (Sample.initial 2) Sample.no_style_set)
    as (st1 & st2 & calls & Hnew & Hinit & Hcalls & Hlen & Hrows);
    [ exact sample_c_styles_long_enough | lia | lia | reflexivity | lia | ].
  destruct (Hrows 2%nat SCE_C_COMMENT 1 (mkEntry "comment" gsd_comment)
              zero_style eq_refl eq_refl) as (s & Hs & Hblock).
  exists st1, st2, calls, s.
  split; [exact Hnew|]. split; [exact Hinit|]. split; [exact Hcalls|].
  split; [exact Hlen|]. split; [exact Hs | exact Hblock].
Defined.

Lemma styleset_c_after_init_witness :
  exists st' calls,
    styleset_c_init Sample.utils_strtod Sample.utils_atob
      Sample.GEANY_WORDCHARS 1 1 (Some sample_c_system_file)
      (Some sample_c_user_file) Sample.no_locals (fun _ => None)
      (Sample.initial 2) = Ok st' /\
    styleset_c 0 1 scintilla_style_number 30 unit (Some (Some tt))
      (fun _ _ => Some "gint") (fun _ => 0) st' = Ok calls /\
    SSM SCI_SETKEYWORDS (AInt 0) (AText (Some "if else")) ∈ calls /\
    SSM SCI_SETKEYWORDS (AInt 1) (AText (Some "gint ")) ∈ calls /\
    SSM SCI_SETPROPERTY (AText (Some "styling.within.preprocessor"))
      (AText (Some "1")) ∈ calls.
Proof.
  destruct (styleset_c_init Sample.utils_strtod Sample.utils_atob
              Sample.GEANY_WORDCHARS 1 1 (Some sample_c_system_file)
              (Some sample_c_user_file) Sample.no_locals (fun _ => None)
              (Sample.initial 2)) as [st'|f] eqn:Hinit.
  - destruct (styleset_c_after_init Sample.utils_strtod Sample.utils_atob
                Sample.GEANY_WORDCHARS 0 1 scintilla_style_number 30 unit
                (Some (Some tt)) (fun _ _ => Some "gint") (fun _ => 0)
                sample_c_system_file sample_c_user_file 1 Sample.no_locals
                (fun _ => None) (Sample.initial 2) st' Sample.no_style_set
                (mkStyle 1 0 false false))
      as (calls & Hcalls & Hk0 & _ & Hk1 & _ & Hprop);
      [ exact sample_c_files_long_enough | lia | lia | reflexivity
      | exact Hinit | vm_compute; reflexivity | ].
    exists st', calls. split; [reflexivity|]. split; [exact Hcalls|].
    split; [exact Hk0|]. split; [exact Hk1|]. apply Hprop. reflexivity.
  - vm_compute in Hinit. discriminate Hinit.
Defined.

Lemma styleset_common_init_null_keyfile_stores_tmp_style_witness :
  exists st',
    styleset_common_init Sample.utils_strtod Sample.utils_atob
      Sample.GEANY_WORDCHARS 0 None (Some Sample.system_file)
      (mkUninit (mkStyle 7 3 false false) (fun _ => NULL))
      (Sample.initial 2) = Ok st' /\
    folding_style (common_style_set st') = mkFolding 3 3 7 /\
    invert_all (common_style_set st') = 7 /\
    background (common_styling (common_style_set st') GCS_CARET) = 7.
Proof.
  destruct (styleset_common_init_null_keyfile_stores_tmp_style
              Sample.utils_strtod Sample.utils_atob Sample.GEANY_WORDCHARS 0
              None (Some Sample.system_file)
              (mkUninit (mkStyle 7 3 false false) (fun _ => NULL))
              (Sample.initial 2))
    as (st' & Hcall & Hfold & Hinv & Hcaret & _);
    [left; reflexivity | reflexivity |].
  exists st'. split; [exact Hcall|]. split; [exact Hfold|].
  split; [exact Hinv | exact Hcaret].
Defined.

Lemma styleset_none_after_init_witness :
  exists st' common,
    styleset_common_init Sample.utils_strtod Sample.utils_atob
      Sample.GEANY_WORDCHARS 0 (Some Sample.system_file)
      (Some Sample.theme_file) Sample.no_locals (Sample.initial 2) = Ok st' /\
    styleset_none 0 scintilla_style_number st' =
    Ok ([ SSM SCI_SETLEXER (AConst SCLEX_NULL) (AInt 0) ]
        ++ (Styled <$> forwarded st' 32
                         (common_styling (common_style_set st') GCS_DEFAULT))
        ++ common
        ++ [ SSM SCI_SETWORDCHARS (AInt 0) (AText (Some "abc"));
             SSM SCI_SETWHITESPACECHARS (AInt 0)
               (AText (Some GEANY_WHITESPACE_CHARS)) ]).
Proof.
  destruct (styleset_common_init Sample.utils_strtod Sample.utils_atob
              Sample.GEANY_WORDCHARS 0 (Some Sample.system_file)
              (Some Sample.theme_file) Sample.no_locals (Sample.initial 2))
    as [st'|f] eqn:Hfirst.
  - destruct (styleset_none_after_init Sample.utils_strtod Sample.utils_atob
                Sample.GEANY_WORDCHARS 0 scintilla_style_number 0
                (Some Sample.system_file) (Some Sample.theme_file)
                Sample.no_locals (Sample.initial 2) st' eq_refl Hfirst)
      as (common & w & ws & _ & Hw & Hws & Hnone).
    vm_compute in Hw. injection Hw as <-.
    vm_compute in Hws. injection Hws as <-.
    exists st', common. split; [reflexivity | exact Hnone].
  - vm_compute in Hfirst. discriminate Hfirst.
Defined.

Lemma fold_flags_follow_folding_horiz_line_witness :
  exists st' calls,
    styleset_common_init Sample.utils_strtod Sample.utils_atob
      Sample.GEANY_WORDCHARS 0 (Some Sample.system_file)
      (Some sample_fold_file) Sample.no_locals (Sample.initial 2) = Ok st' /\
    styleset_common 0 scintilla_style_number st' 5 0 = Ok calls /\
    SSM SCI_SETFOLDFLAGS (AInt 4) (AInt 0) ∈ calls.
Proof.
  destruct (styleset_common_init Sample.utils_strtod Sample.utils_atob
              Sample.GEANY_WORDCHARS 0 (Some Sample.system_file)
              (Some sample_fold_file) Sample.no_locals (Sample.initial 2))
    as [st'|f] eqn:Hfirst.
  - destruct (styleset_common_completes 0 scintilla_style_number st' 5 0)
      as [calls Hcalls].
    exists st', calls. split; [reflexivity|]. split; [exact Hcalls|].
    apply (fold_flags_follow_folding_horiz_line Sample.utils_strtod
             Sample.utils_atob Sample.GEANY_WORDCHARS 0 scintilla_style_number
             Sample.system_file sample_fold_file 0 5 0 Sample.no_locals
             (Sample.initial 2) st' (mkStyle 9 0 false false) calls
             (AInt 4) (AInt 0) eq_refl Hfirst);
      [vm_compute; reflexivity | exact Hcalls | split; reflexivity].
  - vm_compute in Hfirst. discriminate Hfirst.
Defined.
